(** * go-weather: a mock weather API with random status codes and latency

    A shallow embedding of [main.go] and of the [Sleeper] file.  The
    program is stateful in three ways: it draws from the process-wide
    random source [r], it reads the wall clock, and it writes to the
    response writer, the log and the injected sleeper.  All three are
    threaded through one state-and-panic monad [M]; a Go panic is [None].

    Go values are modelled as follows.
    - [int], [time.Duration] and [time.Time]: [Z] (durations and instants in
      nanoseconds); the one multiplication of durations is written with its
      64-bit wrap-around.
    - [float64]: [spec_float], the IEEE 754 binary64 specification of the
      standard library, with round-to-nearest-even addition and division.
    - [string]: [string] (bytes).
    - a slice: [list]; a nil slice that the program distinguishes from an
      empty one: [option (list _)].
    - [url.Values]: [gmap string (list string)]. *)

From Stdlib Require Import ZArith String Ascii List Lia Bool.
From Stdlib Require Import Floats.SpecFloat Floats.FloatOps.
From Stdlib Require Floats.PrimFloat Numbers.Cyclic.Int63.Uint63.
From Stdlib Require Import DecimalString.
From Stdlib Require DecimalPos DecimalZ.
From stdpp Require Import base list strings gmap.

Local Open Scope Z_scope.

(** ** The Go library functions the program calls *)

(** *** strconv *)

Module Strconv.

Inductive NumError := ErrSyntax | ErrRange.

Definition maxInt : Z := 2 ^ 63 - 1.
Definition minInt : Z := - 2 ^ 63.

Definition is_digit (c : ascii) : bool :=
  (48 <=? Z.of_nat (nat_of_ascii c)) && (Z.of_nat (nat_of_ascii c) <=? 57).

(** The digit loop of [ParseUint] in base 10: every byte must be a decimal
    digit (an underscore is a syntax error in base 10). *)
Fixpoint digits (acc : Z) (s : string) : option Z :=
  match s with
  | EmptyString => Some acc
  | String c s' =>
      if is_digit c
      then digits (acc * 10 + (Z.of_nat (nat_of_ascii c) - 48)) s'
      else None
  end.

(** [strconv.Atoi]: an optional sign, then at least one decimal digit;
    a value outside [int] gives the nearest bound and [ErrRange]. *)
Definition Atoi (s : string) : Z * option NumError :=
  match s with
  | EmptyString => (0, Some ErrSyntax)
  | String c rest =>
      let neg := Ascii.eqb c "-" in
      let body := if neg || Ascii.eqb c "+" then rest else s in
      match body with
      | EmptyString => (0, Some ErrSyntax)
      | _ =>
          match digits 0 body with
          | None => (0, Some ErrSyntax)
          | Some un =>
              let n := if neg then - un else un in
              if maxInt <? n then (maxInt, Some ErrRange)
              else if n <? minInt then (minInt, Some ErrRange)
              else (n, None)
          end
      end
  end.

End Strconv.

(** *** fmt *)

Module Fmt.

(** The verb [%d] on an [int]: decimal digits, a leading [-] when
    negative. *)
Definition d (z : Z) : string := NilZero.string_of_int (Z.to_int z).

End Fmt.

(** *** float64 *)

Module F64.

Definition t := spec_float.

(** The conversion [float64(n)] of an integer. *)
Definition of_int (n : Z) : t := binary_normalize prec emax n 0 false.

Definition add : t -> t -> t := SFadd prec emax.
Definition div : t -> t -> t := SFdiv prec emax.
Definition leb : t -> t -> bool := SFleb.
Definition ltb : t -> t -> bool := SFltb.
Definition eqb : t -> t -> bool := SFeqb.

Definition is_finite (x : t) : bool :=
  match x with
  | S754_zero _ | S754_finite _ _ _ => true
  | _ => false
  end.

End F64.

(** *** time *)

Module Time.

(** [time.Duration]: a signed 64-bit count of nanoseconds. *)
Definition Duration := Z.

Definition wrap64 (z : Z) : Z := (z + 2 ^ 63) mod 2 ^ 64 - 2 ^ 63.

Definition Millisecond : Duration := 1000000.
Definition Hour : Duration := 3600000000000.

(** The product of two durations, as Go computes it on [int64]. *)
Definition mul (a b : Duration) : Duration := wrap64 (a * b).

(** An instant, in nanoseconds since the epoch, and [Time.Add]. *)
Definition Time := Z.
Definition Add (t : Time) (d : Duration) : Time := t + d.

End Time.

(** *** encoding/json *)

Module Json.

(** A JSON document as a tree.  Numbers, floats and instants stay Go
    values at the leaves. *)
#[warnings="-register-all"]
Inductive value :=
| Null
| Int (z : Z)
| Float (f : F64.t)
| Instant (t : Time.Time)
| Str (s : string)
| Arr (l : list value)
| Obj (fields : list (string * value)).

Definition keys (v : value) : list string :=
  match v with
  | Obj fields => map fst fields
  | _ => []
  end.

Definition field (k : string) (v : value) : option value :=
  match v with
  | Obj fields => snd <$> find (fun kv => String.eqb (fst kv) k) fields
  | _ => None
  end.

End Json.

(** ** The state the program runs in *)

(** A source of successive values: the random source [r] and the wall
    clock are both read one value after the other.  For [r] the values are
    those that its successive calls settle on, one for each call of
    [r.Intn] or [r.Float64]: math/rand may take several values from its
    [rand.Source] for one call, drawing again while the value is one that
    it does not keep.  The position of the oracle of [r] so counts the
    calls on [r], not the values of the [rand.Source]; how many of those a
    call takes is not modelled.  The values are arbitrary, and each call
    reduces its value to the values that the library keeps, so that every
    result of the library is given by some oracle, and no other. *)
Record Oracle := { feed : nat -> Z; pos : nat }.

Definition peek (o : Oracle) : Z := feed o (pos o).
Definition advance (o : Oracle) : Oracle := {| feed := feed o; pos := S (pos o) |}.

(** The lines the program logs, with the arguments of the format. *)
Inductive LogLine :=
| LogInvalidSize (received : string)
| LogDelay (delay : Time.Duration)
| LogSuccess (statusCode : Z) (n : Z)
| LogError (statusCode : Z) (errorMessage : string)
| LogNoOpSleeper (delay : Time.Duration).

(** What an implementation of [Sleeper] does when it is called. *)
Inductive SleeperEffect :=
| TimeSleep (d : Time.Duration)
| Printf (line : LogLine).

(** What the program does to the outside, in order.  [EvSleep d did] is
    the call [s.Sleep(d)] on the injected sleeper, with what the sleeper
    did.  [EvWriteHeader] and [EvWriteJSON] are the calls on the response
    writer; what a writer does with them (a server sends no body with the
    status 204, the recorder of the tests keeps it) is not the handler's. *)
Inductive Event :=
| EvSetHeader (key val : string)
| EvLog (line : LogLine)
| EvSleep (d : Time.Duration) (did : list SleeperEffect)
| EvWriteHeader (statusCode : Z)
| EvWriteJSON (doc : Json.value)
| EvWrite (bytes : string).

Record World := { rng : Oracle; clock : Oracle; out : list Event }.

(** State and panic: [None] is a Go panic. *)
Definition M (A : Type) : Type := World -> option (A * World).

Definition ret {A} (a : A) : M A := fun w => Some (a, w).

Definition bind {A B} (c : M A) (k : A -> M B) : M B :=
  fun w => match c w with
           | Some (a, w') => k a w'
           | None => None
           end.

Definition panic {A} : M A := fun _ => None.

Notation "x <- c ;; k" := (bind c (fun x => k))
  (at level 100, c at next level, right associativity).
Notation "c ;; k" := (bind c (fun _ => k))
  (at level 100, right associativity).

(** One call on the random source [r] was made; one reading of the clock
    was made; events are appended. *)
Definition tick (w : World) : World :=
  {| rng := advance (rng w); clock := clock w; out := out w |}.
Definition tock (w : World) : World :=
  {| rng := rng w; clock := advance (clock w); out := out w |}.
Definition say (es : list Event) (w : World) : World :=
  {| rng := rng w; clock := clock w; out := out w ++ es |}.

Definition emits (es : list Event) : M unit := fun w => Some (tt, say es w).
Definition emit (e : Event) : M unit := emits [e].

(** *** math/rand on the global source [r] *)

(** [r.Intn(n)]: panics when [n <= 0], else a value in [[0, n)].  For a
    bound that is no power of two the library ([Int31n]) draws again while
    the value lies in the uneven tail of its range, and returns the value
    that it keeps modulo [n]; the values kept are a whole number of times
    [n], so the result is any value below [n] ([Intn_of_kept]). *)
Definition Intn (n : Z) : M Z :=
  fun w =>
    if n <=? 0 then None
    else Some (peek (rng w) mod n, tick w).

(** [r.Float64()]: [float64(r.Int63()) / (1 << 63)], drawn again when the
    quotient is 1.  Of the values of [Int63], which are below [2^63], the
    quotient is 1 for those from [2^63 - 512] on, which the conversion
    rounds to [2^63], and below 1 for the others ([Float64_draws_again],
    [Float64_below_one]); the value that the call keeps is one of the
    others. *)
Definition Float64 : M F64.t :=
  fun w =>
    Some (F64.div (F64.of_int (peek (rng w) mod (2 ^ 63 - 512))) (F64.of_int (2 ^ 63)),
          tick w).

(** [time.Now()]. *)
Definition Now : M Time.Time := fun w => Some (peek (clock w), tock w).

(** [a[i]] on a slice: panics out of range. *)
Definition index {A} (a : list A) (i : Z) : M A :=
  if i <? 0 then panic
  else match a !! Z.to_nat i with
       | Some x => ret x
       | None => panic
       end.

(** [a[i] = x] on a slice: panics out of range. *)
Definition store {A} (a : list A) (i : nat) (x : A) : M (list A) :=
  if decide (i < length a)%nat then ret (<[i := x]> a) else panic.

Definition len {A} (a : list A) : Z := Z.of_nat (length a).

(** *** net/http *)

(** A request, as far as the handler reads it: the values of its query
    string ([req.URL.Query()]). *)
Record Request := { Query : gmap string (list string) }.

(** [url.Values.Get]: the first value of the key, or the empty string. *)
Definition Values_Get (v : gmap string (list string)) (key : string) : string :=
  match v !! key with
  | Some (x :: _) => x
  | _ => ""%string
  end.

Definition StatusOK : Z := 200.
Definition StatusCreated : Z := 201.
Definition StatusAccepted : Z := 202.
Definition StatusNoContent : Z := 204.
Definition StatusBadRequest : Z := 400.
Definition StatusUnauthorized : Z := 401.
Definition StatusForbidden : Z := 403.
Definition StatusNotFound : Z := 404.
Definition StatusMethodNotAllowed : Z := 405.
Definition StatusInternalServerError : Z := 500.
Definition StatusNotImplemented : Z := 501.
Definition StatusBadGateway : Z := 502.
Definition StatusServiceUnavailable : Z := 503.
Definition StatusGatewayTimeout : Z := 504.

(** ** The program *)

Record WeatherReading := {
  City : string;
  Timestamp : Time.Time;
  Temperature : F64.t;
  Humidity : Z;
  Condition : string
}.

(** [Readings] is [None] for the nil slice. *)
Record DataResponse := {
  Readings : option (list WeatherReading);
  Message : string
}.

(** The zero value of [WeatherReading], which [make] fills the slice with. *)
Definition zeroReading : WeatherReading :=
  {| City := ""; Timestamp := 0; Temperature := S754_zero false;
     Humidity := 0; Condition := "" |}.

Definition cities : list string :=
  ["New York"; "London"; "Paris"; "Tokyo"; "Sydney"; "Lagos"; "Dubai"; "Rio"]%string.

Definition conditions : list string :=
  ["Sunny"; "Partly Cloudy"; "Cloudy"; "Rainy"; "Stormy"; "Foggy"; "Snowy"]%string.

(** The composite literal of the loop body; its calls run left to right. *)
Definition newReading : M WeatherReading :=
  ci <- Intn (len cities) ;;
  city <- index cities ci ;;
  now <- Now ;;
  h <- Intn 24 ;;
  t <- Intn 35 ;;
  f <- Float64 ;;
  hum <- Intn 80 ;;
  di <- Intn (len conditions) ;;
  cond <- index conditions di ;;
  ret {| City := city;
         Timestamp := Time.Add now (Time.mul (h - 12) Time.Hour);
         Temperature := F64.add (F64.of_int (t + 5)) f;
         Humidity := hum + 20;
         Condition := cond |}.

(** [for i := 0; i < count; i++ { readings[i] = ... }], with [todo] the
    iterations left. *)
Fixpoint fillReadings (todo : nat) (i : nat) (readings : list WeatherReading)
  : M (list WeatherReading) :=
  match todo with
  | O => ret readings
  | S todo' =>
      rd <- newReading ;;
      readings' <- store readings i rd ;;
      fillReadings todo' (S i) readings'
  end.

(** [make([]WeatherReading, count)]: [runtime.makeslice] panics when the
    length is negative, and when the elements take more than [maxAlloc]
    bytes.  On a 64-bit platform, where [int] has the 64 bits of
    [Strconv.maxInt], [maxAlloc] is [2^48] and a [WeatherReading] takes 72
    bytes: two strings of 16, a [time.Time] of 24, a [float64] and an
    [int] of 8.  The memory is taken to suffice for a length that
    [makeslice] accepts. *)
Definition maxAlloc : Z := 281474976710656.
Definition sizeofWeatherReading : Z := 72.

Definition generateDummyWeatherReadings (count : Z) : M (list WeatherReading) :=
  if (count <? 0) || (maxAlloc <? sizeofWeatherReading * count) then panic
  else
    let n := Z.to_nat count in
    fillReadings n 0%nat (replicate n zeroReading).

Definition statusCodes2xx : list Z :=
  [StatusOK; StatusCreated; StatusAccepted; StatusNoContent].
Definition statusCodes4xx : list Z :=
  [StatusBadRequest; StatusUnauthorized; StatusNotFound; StatusForbidden;
   StatusMethodNotAllowed].
Definition statusCodes5xx : list Z :=
  [StatusInternalServerError; StatusNotImplemented; StatusBadGateway;
   StatusServiceUnavailable; StatusGatewayTimeout].

Definition getResponseStatusCode : M Z :=
  randomNumber <- Intn 100 ;;
  if randomNumber <? 70 then
    i <- Intn (len statusCodes2xx) ;; index statusCodes2xx i
  else if randomNumber <? 85 then
    i <- Intn (len statusCodes4xx) ;; index statusCodes4xx i
  else
    i <- Intn (len statusCodes5xx) ;; index statusCodes5xx i.

(** *** The sleepers *)

(** The interface [Sleeper]: one method, which returns nothing; what an
    implementation does is the effects it leaves. *)
Class Sleeper (S : Type) := Sleep : S -> Time.Duration -> list SleeperEffect.

Inductive DefaultSleeper := mkDefaultSleeper.
Inductive NoOpSleeper := mkNoOpSleeper.

(** [time.Sleep(d)]. *)
#[global] Instance DefaultSleeper_Sleeper : Sleeper DefaultSleeper :=
  fun _ d => [TimeSleep d].

(** Logs the call and does not sleep. *)
#[global] Instance NoOpSleeper_Sleeper : Sleeper NoOpSleeper :=
  fun _ d => [Printf (LogNoOpSleeper d)].

(** *** Marshalling the response *)

(** [json.Marshal] refuses a float that is not finite. *)
Definition marshalReading (rd : WeatherReading) : option Json.value :=
  if F64.is_finite (Temperature rd) then
    Some (Json.Obj [("city", Json.Str (City rd));
                    ("timestamp", Json.Instant (Timestamp rd));
                    ("temperature", Json.Float (Temperature rd));
                    ("humidity", Json.Int (Humidity rd));
                    ("condition", Json.Str (Condition rd))]%string)
  else None.

(** The tags of [DataResponse]: [readings] without [omitempty], so a nil
    slice is written as [null]; [message] with [omitempty], so an empty
    string is left out. *)
Definition marshalResponse (resp : DataResponse) : option Json.value :=
  match
    match Readings resp with
    | None => Some Json.Null
    | Some l => Json.Arr <$> mapM marshalReading l
    end
  with
  | None => None
  | Some rs =>
      Some (Json.Obj ([("readings"%string, rs)] ++
                      (if String.eqb (Message resp) "" then []
                       else [("message"%string, Json.Str (Message resp))])))
  end.

(** [json.NewEncoder(w).Encode(v)]: the document is written when
    marshalling succeeds; the error is dropped by the caller. *)
Definition Encode (resp : DataResponse) : M unit :=
  match marshalResponse resp with
  | Some doc => emit (EvWriteJSON doc)
  | None => ret tt
  end.

(** *** The handlers *)

Definition successMessage (n : Z) : string :=
  ("Successfully retrieved " ++ Fmt.d n ++ " weather readings.")%string.

Definition errorMessage (statusCode : Z) : string :=
  ("An error occurred with status code " ++ Fmt.d statusCode
   ++ ". This is a dummy error for testing.")%string.

Definition weatherHandler {S} `{Sleeper S} (s : S) (req : Request) : M unit :=
  emit (EvSetHeader "Content-Type" "application/json") ;;
  let sizeStr := Values_Get (Query req) "size" in
  let '(size, err) := Strconv.Atoi sizeStr in
  size <-
    (if match err with Some _ => true | None => false end
        || (size <? 10) || (100 <? size)
     then emit (EvLog (LogInvalidSize sizeStr)) ;; ret 10
     else ret size) ;;
  ms <- Intn 5001 ;;
  let delay := Time.mul ms Time.Millisecond in
  emit (EvLog (LogDelay delay)) ;;
  emit (EvSleep delay (Sleep s delay)) ;;
  statusCode <- getResponseStatusCode ;;
  emit (EvWriteHeader statusCode) ;;
  responseData <-
    (if (200 <=? statusCode) && (statusCode <? 300) then
       readings <- generateDummyWeatherReadings size ;;
       emit (EvLog (LogSuccess statusCode (len readings))) ;;
       ret {| Readings := Some readings;
              Message := successMessage (len readings) |}
     else
       emit (EvLog (LogError statusCode (errorMessage statusCode))) ;;
       ret {| Readings := None; Message := errorMessage statusCode |}) ;;
  Encode responseData.

Definition health : M unit := emit (EvWrite "Healthy").

(** *** Reading a run *)

Definition world0 (rnd clk : nat -> Z) : World :=
  {| rng := {| feed := rnd; pos := 0 |};
     clock := {| feed := clk; pos := 0 |};
     out := [] |}.

(** The events of a run, or [None] when it panics. *)
Definition trace {A} (c : M A) (w : World) : option (list Event) :=
  match c w with
  | Some (_, w') => Some (out w')
  | None => None
  end.

(** The status codes and the JSON documents written, in order. *)
Definition statuses (es : list Event) : list Z :=
  omap (fun e => match e with EvWriteHeader c => Some c | _ => None end) es.

Definition bodies (es : list Event) : list Json.value :=
  omap (fun e => match e with EvWriteJSON d => Some d | _ => None end) es.

(** The durations the sleeper was called with, in order. *)
Definition sleeps (es : list Event) : list Time.Duration :=
  omap (fun e => match e with EvSleep d _ => Some d | _ => None end) es.

(** A random source given by its first draws, zero afterwards. *)
Definition draws (l : list Z) : nat -> Z := fun i => nth i l 0.

(** *** Closed forms used in the statements *)

(** The test [err != nil || size < 10 || size > 100] of the handler on the
    parameter, and the value of [size] after it. *)
Definition sizeInvalid (sizeStr : string) : bool :=
  let '(size, err) := Strconv.Atoi sizeStr in
  match err with Some _ => true | None => false end
  || (size <? 10) || (100 <? size).

Definition effectiveSize (sizeStr : string) : Z :=
  if sizeInvalid sizeStr then 10 else fst (Strconv.Atoi sizeStr).

(** The value of the [k]-th call on the random source [r] from the world
    [w] on, before the call reduces it. *)
Definition drawn (w : World) (k : nat) : Z := feed (rng w) (k + pos (rng w)).

(** The world after one iteration of the loop: six calls on the random
    source [r] and one reading of the clock were made. *)
Definition next (w : World) : World :=
  {| rng := advance (advance (advance (advance (advance (advance (rng w))))));
     clock := advance (clock w);
     out := out w |}.

Definition is2xx (statusCode : Z) : bool :=
  (200 <=? statusCode) && (statusCode <? 300).
Definition is4xx (statusCode : Z) : bool :=
  (400 <=? statusCode) && (statusCode <? 500).
Definition is5xx (statusCode : Z) : bool :=
  (500 <=? statusCode) && (statusCode <? 600).

(** How many of the hundred values of the first draw give a status code
    of a class, the index in the table being [k]. *)
Definition outOf100 (class : Z -> bool) (k : Z) : nat :=
  length (List.filter
            (fun n => match getResponseStatusCode (world0 (draws [n; k]) (fun _ => 0)) with
                      | Some (code, _) => class code
                      | None => false
                      end)
            (seqZ 0 100)).

(** What the claims say of one reading, with the bounds on the temperature
    closed at both ends. *)
Definition readingInRange (rd : WeatherReading) : Prop :=
  F64.leb (F64.of_int 5) (Temperature rd) = true
  /\ F64.leb (Temperature rd) (F64.of_int 40) = true
  /\ 20 <= Humidity rd <= 99
  /\ City rd ∈ cities
  /\ Condition rd ∈ conditions.

(** Requests used in the examples: [/weather?size=v] and [/weather]. *)
Definition req_size (v : string) : Request := {| Query := {[ "size"%string := [v] ]} |}.
Definition req_none : Request := {| Query := ∅ |}.

(** The events of the handler on a fresh world, none when it panics. *)
Definition served {S} `{Sleeper S} (s : S) (req : Request) (rnd clk : nat -> Z)
  : list Event :=
  default [] (trace (weatherHandler s req) (world0 rnd clk)).

(** ** The rest of the program *)

(** The closure that [main] registers for [/weather]: the handler with the
    sleeper that [main] makes, a [DefaultSleeper]. *)
Definition mainWeather (req : Request) : M unit :=
  weatherHandler mkDefaultSleeper req.

(** The durations of the calls of [time.Sleep] in a run. *)
Definition timeSleeps (es : list Event) : list Time.Duration :=
  es ≫= fun e =>
    match e with
    | EvSleep _ did =>
        omap (fun x => match x with TimeSleep d => Some d | Printf _ => None end) did
    | _ => []
    end.

(** The lines logged in a run, by the handler and by the sleeper. *)
Definition logged (es : list Event) : list LogLine :=
  es ≫= fun e =>
    match e with
    | EvLog l => [l]
    | EvSleep _ did =>
        omap (fun x => match x with Printf l => Some l | TimeSleep _ => None end) did
    | _ => []
    end.

(** Two worlds from which the calls on the random source [r] and the
    readings of the clock give the same values from now on, whatever they
    gave before and whatever was written. *)
Definition sameFuture (w1 w2 : World) : Prop :=
  (forall k, drawn w1 k = drawn w2 k)
  /\ (forall k, feed (clock w1) (k + pos (clock w1)) = feed (clock w2) (k + pos (clock w2))).

(** The values of [rnd] after its first [k]: what the calls after the
    first [k] calls give. *)
Definition skip (k : nat) (rnd : nat -> Z) : nat -> Z := fun i => rnd (i + k)%nat.

(** The world [w] after [k] more calls on the random source [r] and [c]
    more readings of the clock. *)
Definition after (k c : nat) (w : World) : World :=
  {| rng := {| feed := feed (rng w); pos := k + pos (rng w) |};
     clock := {| feed := feed (clock w); pos := c + pos (clock w) |};
     out := out w |}.

(** ** The tests of the handlers *)

(** *** net/http/httptest *)

(** What one call of [Write] gave the recorder: a document written by the
    encoder, or bytes. *)
Inductive Chunk :=
| ChunkJSON (doc : Json.value)
| ChunkBytes (bytes : string).

(** What is left open of the standard library: the text that the encoder
    gives for a document, what [Decode] reads from a body into a
    [DataResponse] that holds a value already (the error and the new
    value), and the content type that net/http finds in the first bytes
    of a body. *)
Class Library := {
  Text : Json.value -> string;
  Decode : list Chunk -> DataResponse -> option string * DataResponse;
  DetectContentType : string -> string
}.

Definition newline : string := String (ascii_of_nat 10) "".

(** The bytes of a chunk; the encoder ends a document with a newline. *)
Definition chunkBytes `{Library} (c : Chunk) : string :=
  match c with
  | ChunkJSON doc => (Text doc ++ newline)%string
  | ChunkBytes bytes => bytes
  end.

(** [httptest.ResponseRecorder], with the keys of the headers in the
    canonical form, as the program writes them. *)
Record ResponseRecorder := {
  Code : Z;
  HeaderMap : gmap string (list string);
  Body : list Chunk;
  wroteHeader : bool
}.

Definition NewRecorder : ResponseRecorder :=
  {| Code := 200; HeaderMap := ∅; Body := []; wroteHeader := false |}.

(** [http.Header.Get] and [http.Header.Set]. *)
Definition Header_Get (h : gmap string (list string)) (key : string) : string :=
  match h !! key with
  | Some (x :: _) => x
  | _ => ""%string
  end.

Definition Header_Set (h : gmap string (list string)) (key val : string)
  : gmap string (list string) :=
  <[key := [val]]> h.

(** [rw.Body.String()]. *)
Definition Body_String `{Library} (rw : ResponseRecorder) : string :=
  String.concat "" (map chunkBytes (Body rw)).

(** [rw.WriteHeader(code)]: the first call sets the code, a code outside
    of three digits panics ([checkWriteHeaderCode]), later calls do
    nothing. *)
Definition Recorder_WriteHeader (code : Z) (rw : ResponseRecorder)
  : option ResponseRecorder :=
  if wroteHeader rw then Some rw
  else if (code <? 100) || (999 <? code) then None
  else Some {| Code := code; HeaderMap := HeaderMap rw; Body := Body rw;
               wroteHeader := true |}.

(** [rw.writeHeader(b, str)]: before the first bytes, a content type is
    found for them when none is set, and the header is written with 200. *)
Definition Recorder_writeHeader `{Library} (b : Chunk) (rw : ResponseRecorder)
  : option ResponseRecorder :=
  if wroteHeader rw then Some rw
  else
    let m := HeaderMap rw in
    let hasType := bool_decide (is_Some (m !! "Content-Type"%string)) in
    let hasTE := negb (String.eqb (Header_Get m "Transfer-Encoding") "") in
    let m := if negb hasType && negb hasTE
             then Header_Set m "Content-Type" (DetectContentType (chunkBytes b))
             else m in
    Recorder_WriteHeader 200
      {| Code := Code rw; HeaderMap := m; Body := Body rw;
         wroteHeader := wroteHeader rw |}.

(** [rw.Write(buf)]. *)
Definition Recorder_Write `{Library} (b : Chunk) (rw : ResponseRecorder)
  : option ResponseRecorder :=
  match Recorder_writeHeader b rw with
  | Some rw => Some {| Code := Code rw; HeaderMap := HeaderMap rw;
                       Body := Body rw ++ [b]; wroteHeader := wroteHeader rw |}
  | None => None
  end.

(** The call on the response writer that an event stands for, on the
    recorder; a log line and a call of the sleeper leave it as it is. *)
Definition onRecorder `{Library} (e : Event) (rw : ResponseRecorder)
  : option ResponseRecorder :=
  match e with
  | EvSetHeader key val =>
      Some {| Code := Code rw; HeaderMap := Header_Set (HeaderMap rw) key val;
              Body := Body rw; wroteHeader := wroteHeader rw |}
  | EvWriteHeader statusCode => Recorder_WriteHeader statusCode rw
  | EvWriteJSON doc => Recorder_Write (ChunkJSON doc) rw
  | EvWrite bytes => Recorder_Write (ChunkBytes bytes) rw
  | EvLog _ | EvSleep _ _ => Some rw
  end.

Fixpoint record `{Library} (es : list Event) (rw : ResponseRecorder)
  : option ResponseRecorder :=
  match es with
  | [] => Some rw
  | e :: es =>
      match onRecorder e rw with
      | Some rw => record es rw
      | None => None
      end
  end.

(** [rr := httptest.NewRecorder(); handler(rr, req)]: the handler runs
    with a new recorder as its response writer; a panic of the recorder
    is a panic of the run. *)
Definition recorded `{Library} (handler : M unit) : M ResponseRecorder :=
  fun w =>
    match handler {| rng := rng w; clock := clock w; out := [] |} with
    | None => None
    | Some (_, w') =>
        match record (out w') NewRecorder with
        | None => None
        | Some rr =>
            Some (rr, {| rng := rng w'; clock := clock w'; out := out w ++ out w' |})
        end
    end.

(** *** testing *)

Module Testing.

(** The arguments of a format, and what a test printed or ran. *)
Inductive Arg :=
| ArgInt (n : Z)
| ArgString (s : string)
| ArgError (err : string).

#[warnings="-register-all"]
Inductive Entry :=
| Line (format : string) (args : list Arg)
| Ran (name : string) (failed : bool) (output : list Entry).

(** [testing.T]: whether the test has failed, and its output. *)
Record T := { failed : bool; output : list Entry }.

Definition new : T := {| failed := false; output := [] |}.

(** [t.Logf] and [t.Log]. *)
Definition Logf (format : string) (args : list Arg) (t : T) : T :=
  {| failed := failed t; output := output t ++ [Line format args] |}.

(** [t.Errorf]: the test has failed and goes on. *)
Definition Errorf (format : string) (args : list Arg) (t : T) : T :=
  {| failed := true; output := output t ++ [Line format args] |}.

(** [t.Fatalf]: the test has failed and stops; the caller returns. *)
Definition Fatalf (format : string) (args : list Arg) (t : T) : T :=
  Errorf format args t.

(** [t.Run(name, f)]: [f] runs as a test of its own, and its failure is a
    failure of [t]. *)
Definition Run (name : string) (f : T -> M T) (t : T) : M T :=
  sub <- f new ;;
  ret {| failed := failed t || failed sub;
         output := output t ++ [Ran name (failed sub) (output sub)] |}.

End Testing.

(** *** The test file *)

(** [len] and the test [== nil] on a slice that may be nil. *)
Definition lenSlice {A} (s : option (list A)) : Z :=
  match s with
  | Some l => len l
  | None => 0
  end.

Definition isNil {A} (s : option (list A)) : bool :=
  match s with
  | Some _ => false
  | None => true
  end.

(** [var responseData DataResponse]. *)
Definition zeroResponse : DataResponse := {| Readings := None; Message := "" |}.

(** [var sleeper = &NoOpSleeper{}] of the test file. *)
Definition sleeper : NoOpSleeper := mkNoOpSleeper.

(** The requests are [httptest.NewRequest("GET", "/weather", nil)], which
    is [req_none], and [NewRequest("GET", "/weather?size=" + v, nil)] for
    a [v] without a character that a query escapes, which is [req_size v]. *)
Definition TestWeatherHandlerSuccess `{Library} (t : Testing.T) : M Testing.T :=
  rr <- recorded (weatherHandler sleeper req_none) ;;
  let contentType := Header_Get (HeaderMap rr) "Content-Type" in
  let t := if negb (String.eqb contentType "application/json")
           then Testing.Errorf "Handler returned wrong content type: got %v want %v"
                  [Testing.ArgString contentType; Testing.ArgString "application/json"] t
           else t in
  let '(err, responseData) := Decode (Body rr) zeroResponse in
  match err with
  | Some e => ret (Testing.Fatalf "Could not decode response: %v" [Testing.ArgError e] t)
  | None =>
      if (Code rr <? 200) || (300 <=? Code rr) then
        let t := Testing.Logf
                   "Warning: Handler returned non-2xx status code %d in success test. This is due to randomness."
                   [Testing.ArgInt (Code rr)] t in
        let t := if String.eqb (Message responseData) ""
                 then Testing.Errorf "Expected a message in error response, but got empty." [] t
                 else t in
        ret t
      else
        let t := if isNil (Readings responseData)
                 then Testing.Errorf "Expected readings in successful response, but got nil." [] t
                 else t in
        let t := if negb (lenSlice (Readings responseData) =? 10)
                 then Testing.Errorf
                        "Handler returned unexpected number of readings: got %d want %d (default size)"
                        [Testing.ArgInt (lenSlice (Readings responseData)); Testing.ArgInt 10] t
                 else t in
        let t := if String.eqb (Message responseData) ""
                 then Testing.Errorf "Expected a message in successful response, but got empty." [] t
                 else t in
        rr <- recorded (weatherHandler sleeper (req_size "50")) ;;
        let '(err, responseData) := Decode (Body rr) responseData in
        match err with
        | Some e => ret (Testing.Fatalf "Could not decode response for size=50: %v"
                           [Testing.ArgError e] t)
        | None =>
            if (Code rr <? 200) || (300 <=? Code rr) then
              ret (Testing.Logf
                     "Warning: Handler returned non-2xx status code %d for size=50 test. This is due to randomness."
                     [Testing.ArgInt (Code rr)] t)
            else
              let t := if negb (lenSlice (Readings responseData) =? 50)
                       then Testing.Errorf
                              "Handler returned unexpected number of readings for size=50: got %d want %d"
                              [Testing.ArgInt (lenSlice (Readings responseData)); Testing.ArgInt 50] t
                       else t in
              rr <- recorded (weatherHandler sleeper (req_size "100")) ;;
              let '(err, responseData) := Decode (Body rr) responseData in
              match err with
              | Some e => ret (Testing.Fatalf "Could not decode response for size=100: %v"
                                 [Testing.ArgError e] t)
              | None =>
                  if (Code rr <? 200) || (300 <=? Code rr) then
                    ret (Testing.Logf
                           "Warning: Handler returned non-2xx status code %d for size=100 test. This is due to randomness."
                           [Testing.ArgInt (Code rr)] t)
                  else
                    let t := if negb (lenSlice (Readings responseData) =? 100)
                             then Testing.Errorf
                                    "Handler returned unexpected number of readings for size=100: got %d want %d"
                                    [Testing.ArgInt (lenSlice (Readings responseData));
                                     Testing.ArgInt 100] t
                             else t in
                    ret t
              end
        end
  end.

Record testCase := { name : string; sizeParam : string }.

Definition testCases : list testCase :=
  [ {| name := "SizeTooSmall"; sizeParam := "5" |};
    {| name := "SizeTooLarge"; sizeParam := "150" |};
    {| name := "NonNumericSize"; sizeParam := "abc" |};
    {| name := "EmptySize"; sizeParam := "" |} ].

(** The function that [TestWeatherHandlerInvalidSize] runs for a case. *)
Definition invalidSizeCase `{Library} (tc : testCase) (t : Testing.T) : M Testing.T :=
  rr <- recorded (weatherHandler sleeper (req_size (sizeParam tc))) ;;
  let '(err, responseData) := Decode (Body rr) zeroResponse in
  match err with
  | Some e => ret (Testing.Fatalf "Could not decode response: %v" [Testing.ArgError e] t)
  | None =>
      let t :=
        if (200 <=? Code rr) && (Code rr <? 300) then
          let t := if isNil (Readings responseData)
                   then Testing.Errorf
                          "Expected readings in successful response for invalid size, but got nil."
                          [] t
                   else t in
          if negb (lenSlice (Readings responseData) =? 10)
          then Testing.Errorf
                 "Handler returned unexpected number of readings for invalid size '%s': got %d want %d (default)"
                 [Testing.ArgString (sizeParam tc);
                  Testing.ArgInt (lenSlice (Readings responseData)); Testing.ArgInt 10] t
          else t
        else t in
      let t := if String.eqb (Message responseData) ""
               then Testing.Errorf
                      "Expected a message in response for invalid size, but got empty." [] t
               else t in
      ret t
  end.

(** [for _, tc := range testCases { t.Run(tc.name, ...) }]. *)
Fixpoint runCases `{Library} (tcs : list testCase) (t : Testing.T) : M Testing.T :=
  match tcs with
  | [] => ret t
  | tc :: tcs =>
      t <- Testing.Run (name tc) (invalidSizeCase tc) t ;;
      runCases tcs t
  end.

Definition TestWeatherHandlerInvalidSize `{Library} (t : Testing.T) : M Testing.T :=
  runCases testCases t.

(** The two lines that [TestWeatherHandlerErrorResponseStructure] ends with. *)
Definition noErrorHit : string :=
  "Warning: Did not hit an error status code after multiple attempts. Consider increasing maxAttempts or mocking randomness for deterministic error testing.".

Definition errorTested : string :=
  "Successfully tested error response structure for status code %d.".

(** The loop of [TestWeatherHandlerErrorResponseStructure] with [todo]
    attempts to go, and what follows it: [errorHit] is true exactly when
    the loop was left by [break], so the warning is logged exactly when
    the attempts ran out. *)
Fixpoint attempts `{Library} (todo : nat) (t : Testing.T) : M Testing.T :=
  match todo with
  | O =>
      ret (Testing.Logf noErrorHit [] t)
  | S todo =>
      rr <- recorded (weatherHandler sleeper req_none) ;;
      if 400 <=? Code rr then
        let '(err, responseData) := Decode (Body rr) zeroResponse in
        match err with
        | Some e => ret (Testing.Fatalf "Could not decode error response: %v"
                           [Testing.ArgError e] t)
        | None =>
            let t := if 0 <? lenSlice (Readings responseData)
                     then Testing.Errorf
                            "Error response should not contain readings, but found %d."
                            [Testing.ArgInt (lenSlice (Readings responseData))] t
                     else t in
            let t := if String.eqb (Message responseData) ""
                     then Testing.Errorf
                            "Error response should contain a message, but it was empty." [] t
                     else t in
            ret (Testing.Logf errorTested [Testing.ArgInt (Code rr)] t)
        end
      else attempts todo t
  end.

Definition maxAttempts : nat := 10.

Definition TestWeatherHandlerErrorResponseStructure `{Library} (t : Testing.T)
  : M Testing.T :=
  attempts maxAttempts t.

Definition TestHealthEndpoint `{Library} (t : Testing.T) : M Testing.T :=
  rr <- recorded health ;;
  let t := if negb (Code rr =? StatusOK)
           then Testing.Errorf "Health endpoint returned wrong status code: got %v want %v"
                  [Testing.ArgInt (Code rr); Testing.ArgInt StatusOK] t
           else t in
  let expected := "Healthy"%string in
  let t := if negb (String.eqb (Body_String rr) expected)
           then Testing.Errorf "Health endpoint returned unexpected body: got %v want %v"
                  [Testing.ArgString (Body_String rr); Testing.ArgString expected] t
           else t in
  ret t.

(** What a test reported, and the status codes written in the run. *)
Definition report (test : M Testing.T) (w : World)
  : option (bool * list Testing.Entry * list Z) :=
  match test w with
  | Some (t, w') => Some (Testing.failed t, Testing.output t, statuses (out w'))
  | None => None
  end.

(** The law of a library that reads back what the encoder wrote: no
    error, [null] as the nil slice, an array as a slice of its length, and
    the message unless it was left out, in which case the one that was
    there stays.  It leaves the strings themselves open: the encoder
    writes a string that is not valid UTF-8 with replacement characters. *)
Definition readsBack (L : Library) : Prop :=
  forall (resp : DataResponse) (doc : Json.value) (v : DataResponse),
    marshalResponse resp = Some doc ->
    exists r,
      Decode [ChunkJSON doc] v = (None, r)
      /\ isNil (Readings r) = isNil (Readings resp)
      /\ lenSlice (Readings r) = lenSlice (Readings resp)
      /\ String.eqb (Message r) ""
         = String.eqb (Message resp) "" && String.eqb (Message v) "".

(** A library with that law, on the documents themselves: a reading is
    read back field by field. *)
Definition readReading (doc : Json.value) : option WeatherReading :=
  match Json.field "city" doc, Json.field "timestamp" doc,
        Json.field "temperature" doc, Json.field "humidity" doc,
        Json.field "condition" doc with
  | Some (Json.Str c), Some (Json.Instant ts), Some (Json.Float x),
    Some (Json.Int h), Some (Json.Str k) =>
      Some {| City := c; Timestamp := ts; Temperature := x; Humidity := h;
              Condition := k |}
  | _, _, _, _, _ => None
  end.

Definition readResponse (body : list Chunk) (v : DataResponse)
  : option string * DataResponse :=
  match body with
  | ChunkJSON doc :: _ =>
      let message := match Json.field "message" doc with
                     | Some (Json.Str m) => m
                     | _ => Message v
                     end in
      match Json.field "readings" doc with
      | Some (Json.Arr docs) =>
          match mapM readReading docs with
          | Some rs => (None, {| Readings := Some rs; Message := message |})
          | None => (Some "json: cannot unmarshal"%string, v)
          end
      | Some Json.Null => (None, {| Readings := None; Message := message |})
      | _ => (None, {| Readings := Readings v; Message := message |})
      end
  | _ => (Some "EOF"%string, v)
  end.

Definition documentLibrary : Library :=
  {| Text := fun _ => ""%string;
     Decode := readResponse;
     DetectContentType := fun _ => "text/plain; charset=utf-8"%string |}.

(** * Facts *)

(** ** binary64 arithmetic

    What the program needs of IEEE 754: the conversion of a small integer is
    exact, the conversion of a value of [Int63] keeps 53 bits and rounds the
    last 512 values up to [2^63], the division by [2^63] is exact, and the
    sum of an integer and a fraction below one is rounded to a float between
    the integer and its successor. *)

Lemma digits2_pos_bounds (p : positive) :
  2 ^ (Zpos (digits2_pos p) - 1) <= Zpos p < 2 ^ Zpos (digits2_pos p).
Proof.
  induction p as [p IH | p IH |]; cbn [digits2_pos].
  - rewrite Pos2Z.inj_succ, Pos2Z.inj_xI.
    replace (Z.succ (Zpos (digits2_pos p)) - 1) with (Z.succ (Zpos (digits2_pos p) - 1)) by lia.
    rewrite !Z.pow_succ_r by lia.
    destruct IH as [IH1 IH2]; revert IH1 IH2.
    generalize (2 ^ (Zpos (digits2_pos p) - 1)) (2 ^ Zpos (digits2_pos p)). lia.
  - rewrite Pos2Z.inj_succ. change (Zpos p~0) with (2 * Zpos p).
    replace (Z.succ (Zpos (digits2_pos p)) - 1) with (Z.succ (Zpos (digits2_pos p) - 1)) by lia.
    rewrite !Z.pow_succ_r by lia.
    destruct IH as [IH1 IH2]; revert IH1 IH2.
    generalize (2 ^ (Zpos (digits2_pos p) - 1)) (2 ^ Zpos (digits2_pos p)). lia.
  - cbn. lia.
Qed.

Lemma digits2_pos_unique (p : positive) (d : Z) :
  2 ^ (d - 1) <= Zpos p < 2 ^ d -> Zpos (digits2_pos p) = d.
Proof.
  intros [Hlo Hhi].
  pose proof (digits2_pos_bounds p) as [Blo Bhi].
  assert (0 < d).
  { destruct (Z_lt_le_dec 0 d) as [|Hd]; [done|].
    assert (2 ^ d <= 2 ^ 0) by (apply Z.pow_le_mono_r; lia).
    change (2 ^ 0) with 1 in *. lia. }
  assert (Zpos (digits2_pos p) - 1 < d).
  { apply (Z.pow_lt_mono_r_iff 2); lia. }
  assert (d - 1 < Zpos (digits2_pos p)).
  { apply (Z.pow_lt_mono_r_iff 2); lia. }
  lia.
Qed.

Lemma shr_1_m (r : shr_record) :
  0 <= shr_m r -> shr_m (shr_1 r) = shr_m r / 2.
Proof.
  destruct r as [m r s]; cbn [shr_m]. intros Hm.
  rewrite <- Z.div2_div.
  destruct m as [|[p|p|]|p]; try reflexivity; lia.
Qed.

Lemma iter_shr_1_m (p : positive) : forall r : shr_record,
  0 <= shr_m r -> shr_m (SpecFloat.iter_pos shr_1 p r) = shr_m r / 2 ^ Zpos p.
Proof.
  induction p as [p IH | p IH |]; intros r Hr; cbn [SpecFloat.iter_pos].
  - assert (0 <= shr_m (shr_1 r)) by (rewrite shr_1_m by done; apply Z.div_pos; lia).
    assert (0 <= shr_m (SpecFloat.iter_pos shr_1 p (shr_1 r))).
    { rewrite IH by done. apply Z.div_pos; lia. }
    rewrite !IH, shr_1_m by done.
    rewrite !Z.div_div by lia.
    rewrite Pos2Z.inj_xI.
    replace (2 * Zpos p + 1) with (1 + Zpos p + Zpos p) by lia.
    rewrite !Z.pow_add_r by lia. f_equal. change (2 ^ 1) with 2. ring.
  - assert (0 <= shr_m (SpecFloat.iter_pos shr_1 p r)).
    { rewrite IH by done. apply Z.div_pos; lia. }
    rewrite !IH by done.
    rewrite !Z.div_div by lia.
    change (Zpos p~0) with (2 * Zpos p).
    replace (2 * Zpos p) with (Zpos p + Zpos p) by lia.
    rewrite !Z.pow_add_r by lia. done.
  - rewrite shr_1_m by done. done.
Qed.

Lemma iter_xO_pow (d : positive) (m : positive) :
  Zpos (Pos.iter xO m d) = Zpos m * 2 ^ Zpos d.
Proof.
  induction d as [|d IH] using Pos.peano_ind.
  - cbn. lia.
  - rewrite Pos.iter_succ, Pos2Z.inj_succ, Z.pow_succ_r by lia.
    change (Zpos (Pos.iter xO m d)~0) with (2 * Zpos (Pos.iter xO m d)). rewrite IH. lia.
Qed.

Lemma fexp_normal (x : Z) : -1021 <= x -> fexp prec emax x = x - 53.
Proof. unfold fexp, SpecFloat.emin, prec, emax. lia. Qed.

Lemma round_nearest_even_bounds (m : Z) (l : location) :
  m <= round_nearest_even m l <= m + 1.
Proof.
  destruct l as [|[]]; cbn [round_nearest_even]; try lia.
  destruct (Z.even m); lia.
Qed.

(** No bit is lost when the mantissa already has 53 bits. *)
Lemma binary_round_aux_exact (m : positive) (e : Z) :
  Zpos (digits2_pos m) = 53 -> -1074 <= e <= 971 ->
  binary_round_aux prec emax false (Zpos m) e loc_Exact = S754_finite false m e.
Proof.
  intros Hd He.
  assert (Hs : shr_fexp prec emax (Zpos m) e loc_Exact
               = ({| shr_m := Zpos m; shr_r := false; shr_s := false |}, e)).
  { unfold shr_fexp. cbn [Zdigits2 shr_record_of_loc]. rewrite Hd, fexp_normal by lia.
    replace (53 + e - 53 - e) with 0 by lia. reflexivity. }
  unfold binary_round_aux. rewrite Hs. cbn [shr_m loc_of_shr_record round_nearest_even].
  rewrite Hs. cbn [shr_m].
  replace (e <=? emax - prec) with true; [done|].
  symmetry. apply Z.leb_le. unfold emax, prec. lia.
Qed.

(** Rounding a longer mantissa: [k] bits are dropped and the result is the
    quotient or its successor. *)
Lemma binary_round_aux_shift (pM : positive) (e k : Z) :
  Zpos (digits2_pos pM) = 53 + k -> 0 < k -> -1074 <= e + k -> e + k + 1 <= 971 ->
  exists m1 e1,
    binary_round_aux prec emax false (Zpos pM) e loc_Exact = S754_finite false m1 e1
    /\ Zpos (digits2_pos m1) = 53
    /\ ((e1 = e + k /\ Zpos pM / 2 ^ k <= Zpos m1 <= Zpos pM / 2 ^ k + 1)
        \/ (e1 = e + k + 1 /\ Zpos m1 = 2 ^ 52 /\ Zpos pM / 2 ^ k = 2 ^ 53 - 1)).
Proof.
  intros Hd Hk Hlo Hhi.
  destruct k as [|kp|kp]; try lia.
  pose proof (digits2_pos_bounds pM) as [Blo Bhi]. rewrite Hd in Blo, Bhi.
  set (r0 := {| shr_m := Zpos pM; shr_r := false; shr_s := false |}).
  set (r1 := SpecFloat.iter_pos shr_1 kp r0).
  assert (Hs : shr_fexp prec emax (Zpos pM) e loc_Exact = (r1, e + Zpos kp)).
  { unfold shr_fexp. cbn [Zdigits2 shr_record_of_loc]. rewrite Hd, fexp_normal by lia.
    replace (53 + Zpos kp + e - 53 - e) with (Zpos kp) by lia. reflexivity. }
  assert (Hm : shr_m r1 = Zpos pM / 2 ^ Zpos kp).
  { unfold r1. rewrite iter_shr_1_m; [done | cbn; lia]. }
  assert (Hq : 2 ^ 52 <= Zpos pM / 2 ^ Zpos kp < 2 ^ 53).
  { replace (53 + Zpos kp - 1) with (52 + Zpos kp) in Blo by lia.
    rewrite Z.pow_add_r in Blo, Bhi by lia.
    assert (0 < 2 ^ Zpos kp) by (apply Z.pow_pos_nonneg; lia).
    split.
    - apply Z.div_le_lower_bound; lia.
    - apply Z.div_lt_upper_bound; lia. }
  pose proof (round_nearest_even_bounds (shr_m r1) (loc_of_shr_record r1)) as Hr.
  set (m1 := round_nearest_even (shr_m r1) (loc_of_shr_record r1)) in *.
  unfold binary_round_aux. rewrite Hs. fold m1.
  rewrite Hm in Hr.
  destruct m1 as [|p1|p1] eqn:E1; try lia.
  change (2 ^ 53) with 9007199254740992 in *.
  change (2 ^ 52) with 4503599627370496 in *.
  destruct (Z.eq_dec (Zpos p1) 9007199254740992) as [Heq|Hne].
  - (* the mantissa overflows to the next binade *)
    assert (p1 = 9007199254740992%positive) as -> by lia.
    exists (4503599627370496%positive), (e + Zpos kp + 1). split; [|split].
    + unfold shr_fexp. cbn [Zdigits2 shr_record_of_loc].
      change (Zpos (digits2_pos 9007199254740992)) with 54.
      rewrite fexp_normal by lia.
      replace (54 + (e + Zpos kp) - 53 - (e + Zpos kp)) with 1 by lia.
      cbn [shr SpecFloat.iter_pos shr_1 shr_m].
      replace (e + Zpos kp + 1 <=? emax - prec) with true; [done|].
      symmetry. apply Z.leb_le. unfold emax, prec. lia.
    + reflexivity.
    + right. split; [done|]. split; [reflexivity|]. lia.
  - assert (Hd1 : Zpos (digits2_pos p1) = 53).
    { apply digits2_pos_unique. change (2 ^ (53 - 1)) with 4503599627370496.
      change (2 ^ 53) with 9007199254740992. lia. }
    exists p1, (e + Zpos kp). split; [|split].
    + assert (Hs1 : shr_fexp prec emax (Zpos p1) (e + Zpos kp) loc_Exact
               = ({| shr_m := Zpos p1; shr_r := false; shr_s := false |}, e + Zpos kp)).
      { unfold shr_fexp. cbn [Zdigits2 shr_record_of_loc]. rewrite Hd1, fexp_normal by lia.
        replace (53 + (e + Zpos kp) - 53 - (e + Zpos kp)) with 0 by lia. reflexivity. }
      rewrite Hs1. cbn [shr_m].
      replace (e + Zpos kp <=? emax - prec) with true; [done|].
      symmetry. apply Z.leb_le. unfold emax, prec. lia.
    + done.
    + left. split; [done|]. lia.
Qed.

Lemma of_int_exact (n : Z) :
  0 < n < 2 ^ 53 ->
  exists m, F64.of_int n = S754_finite false m (Zdigits2 n - 53)
            /\ Zpos m = n * 2 ^ (53 - Zdigits2 n)
            /\ Zpos (digits2_pos m) = 53
            /\ 0 < Zdigits2 n <= 53.
Proof.
  intros [Hlo Hhi]. destruct n as [|p|p]; try lia. cbn [Zdigits2].
  pose proof (digits2_pos_bounds p) as [Blo Bhi].
  set (d := Zpos (digits2_pos p)) in *.
  assert (Hd : 0 < d <= 53).
  { split; [unfold d; lia|].
    assert (d - 1 < 53); [|lia]. apply (Z.pow_lt_mono_r_iff 2); lia. }
  unfold F64.of_int, binary_normalize, binary_round. fold d.
  rewrite fexp_normal by lia. unfold shl_align.
  destruct (d + 0 - 53 - 0) as [|s|s] eqn:Es; try lia.
  - exists p. assert (d = 53) as Hd53 by lia. rewrite Hd53.
    split; [|split; [|split]]; try done; try lia.
    apply binary_round_aux_exact; [done | lia].
  - assert (Hs : Zpos s = 53 - d) by lia.
    assert (Hm : Zpos (Pos.iter xO p s) = Zpos p * 2 ^ (53 - d)).
    { rewrite iter_xO_pow, Hs. done. }
    assert (H52 : 2 ^ (d - 1) * 2 ^ (53 - d) = 2 ^ 52).
    { rewrite <- Z.pow_add_r by lia. f_equal. lia. }
    assert (H53 : 2 ^ d * 2 ^ (53 - d) = 2 ^ 53).
    { rewrite <- Z.pow_add_r by lia. f_equal. lia. }
    assert (0 < 2 ^ (53 - d)) by (apply Z.pow_pos_nonneg; lia).
    assert (Hdm : Zpos (digits2_pos (Pos.iter xO p s)) = 53).
    { apply digits2_pos_unique. rewrite Hm. change (53 - 1) with 52.
      rewrite <- H52, <- H53. split.
      - apply Z.mul_le_mono_nonneg_r; lia.
      - apply Z.mul_lt_mono_pos_r; lia. }
    exists (Pos.iter xO p s).
    split; [|split; [|split]]; try done.
    replace (d + 0 - 53) with (d - 53) by lia.
    apply binary_round_aux_exact; [done | lia].
Qed.

Lemma shl_align_keep (m : positive) (e e' : Z) :
  e <= e' -> shl_align m e e' = (m, e).
Proof. intros H. unfold shl_align. destruct (e' - e) eqn:E; try done; lia. Qed.

Lemma shl_align_shift (m : positive) (e e' : Z) :
  e' < e ->
  exists m', shl_align m e e' = (m', e') /\ Zpos m' = Zpos m * 2 ^ (e - e').
Proof.
  intros H. unfold shl_align. destruct (e' - e) as [|s|s] eqn:E; try lia.
  eexists; split; [done|]. rewrite iter_xO_pow. f_equal. f_equal. lia.
Qed.

Lemma of_int_pow63 : F64.of_int (2 ^ 63) = S754_finite false 4503599627370496 11.
Proof. reflexivity. Qed.

(** The last 1024 values below [2^63]: the conversion rounds the first
    half of them down and the second half up to [2^63]. *)
Lemma of_int_top (k : Z) :
  2 ^ 63 - 1024 <= k < 2 ^ 63 ->
  F64.of_int k
  = if k <? 2 ^ 63 - 512 then S754_finite false 9007199254740991 10
    else S754_finite false 4503599627370496 11.
Proof.
  intros Hk.
  assert (Hall : forallb
            (fun k => match F64.of_int k,
                            (if k <? 2 ^ 63 - 512
                             then S754_finite false 9007199254740991 10
                             else S754_finite false 4503599627370496 11) with
                      | S754_finite false m e, S754_finite false m' e' =>
                          Pos.eqb m m' && Z.eqb e e'
                      | _, _ => false
                      end)
            (seqZ (2 ^ 63 - 1024) 1024) = true) by (vm_compute; reflexivity).
  rewrite forallb_forall in Hall.
  specialize (Hall k). 
  assert (Hin : In k (seqZ (2 ^ 63 - 1024) 1024)).
  { apply list_elem_of_In, elem_of_seqZ. lia. }
  specialize (Hall Hin).
  destruct (F64.of_int k) as [| | |[] m e]; try discriminate;
    destruct (k <? 2 ^ 63 - 512); try discriminate;
    apply andb_true_iff in Hall as [Hm He];
    apply Pos.eqb_eq in Hm; apply Z.eqb_eq in He; subst; reflexivity.
Qed.

(** The conversion of a value that [Float64] keeps: 53 bits and an
    exponent of at most 10. *)
Lemma of_int_kept (k : Z) :
  0 < k < 2 ^ 63 - 512 ->
  exists m e, F64.of_int k = S754_finite false m e
              /\ Zpos (digits2_pos m) = 53
              /\ -52 <= e <= 10.
Proof.
  intros Hk.
  destruct (Z_lt_le_dec k (2 ^ 53)) as [Hsmall|Hbig].
  { destruct (of_int_exact k) as (m & E & _ & Hd & Hdk); [lia|].
    exists m, (Zdigits2 k - 53). split; [exact E|]. split; [exact Hd | lia]. }
  destruct (Z_lt_le_dec k (2 ^ 63 - 1024)) as [Hmid|Htop].
  2:{ rewrite of_int_top by lia.
      replace (k <? 2 ^ 63 - 512) with true by (symmetry; apply Z.ltb_lt; lia).
      exists 9007199254740991%positive, 10. split; [reflexivity|].
      split; [reflexivity | lia]. }
  destruct k as [|p|p]; try lia.
  pose proof (digits2_pos_bounds p) as [Blo Bhi].
  set (d := Zpos (digits2_pos p)) in *.
  assert (Hd : 53 < d <= 63).
  { split.
    - apply (Z.pow_lt_mono_r_iff 2); lia.
    - assert (d - 1 < 63); [|lia]. apply (Z.pow_lt_mono_r_iff 2); lia. }
  unfold F64.of_int, binary_normalize, binary_round. cbn [Zdigits2]. fold d.
  rewrite fexp_normal by lia. rewrite shl_align_keep by lia.
  destruct (binary_round_aux_shift p 0 (d - 53)) as (m1 & e1 & Hr & Hd1 & Hcase);
    [unfold d; lia | lia | lia | lia |].
  exists m1, e1. split; [exact Hr|]. split; [exact Hd1|].
  destruct Hcase as [[-> _] | (-> & _ & Hq)]; [lia|].
  destruct (Z.eq_dec d 63) as [E63|]; [|lia].
  exfalso. rewrite E63 in Hq. change (63 - 53) with 10 in Hq.
  assert (Zpos p / 2 ^ 10 < 2 ^ 53 - 1); [|lia].
  apply Z.div_lt_upper_bound; [lia|].
  change (2 ^ 10 * (2 ^ 53 - 1)) with (2 ^ 63 - 1024). lia.
Qed.

(** Dividing by [2^63] only moves the exponent. *)
Lemma div_pow63 (m : positive) (e : Z) :
  Zpos (digits2_pos m) = 53 -> -52 <= e <= 11 ->
  F64.div (S754_finite false m e) (F64.of_int (2 ^ 63)) = S754_finite false m (e - 63).
Proof.
  intros Hd He. rewrite of_int_pow63.
  unfold F64.div, SFdiv, SFdiv_core_binary. cbn [Zdigits2 xorb]. rewrite Hd.
  change (Zpos (digits2_pos 4503599627370496)) with 53.
  rewrite fexp_normal by lia.
  replace (Z.min (53 + e - (53 + 11) - 53) (e - 11)) with (e - 64) by lia.
  replace (e - 11 - (e - 64)) with 53 by lia.
  assert (Hq : Z.div_eucl (Z.shiftl (Zpos m) 53) 4503599627370496 = (Zpos m~0, 0)).
  { rewrite Z.shiftl_mul_pow2 by lia.
    pose proof (Z.div_eucl_eq (Zpos m * 2 ^ 53) 4503599627370496 ltac:(lia)) as Heq.
    pose proof (Z.mod_pos_bound (Zpos m * 2 ^ 53) 4503599627370496 ltac:(lia)) as Hb.
    unfold Z.modulo in Hb.
    destruct (Z.div_eucl (Zpos m * 2 ^ 53) 4503599627370496) as [q r].
    change (2 ^ 53) with 9007199254740992 in *.
    assert (q = Zpos m~0 /\ r = 0) as [-> ->]; [|done].
    change (Zpos m~0) with (2 * Zpos m). lia. }
  rewrite Hq. change (new_location 4503599627370496 0) with loc_Exact.
  unfold binary_round_aux.
  assert (Hs : shr_fexp prec emax (Zpos m~0) (e - 64) loc_Exact
               = ({| shr_m := Zpos m; shr_r := false; shr_s := false |}, e - 64 + 1)).
  { unfold shr_fexp. cbn [Zdigits2 digits2_pos shr_record_of_loc].
    rewrite Pos2Z.inj_succ, Hd, fexp_normal by lia.
    replace (Z.succ 53 + (e - 64) - 53 - (e - 64)) with 1 by lia. reflexivity. }
  rewrite Hs. cbn [shr_m loc_of_shr_record round_nearest_even].
  assert (Hs1 : shr_fexp prec emax (Zpos m) (e - 64 + 1) loc_Exact
               = ({| shr_m := Zpos m; shr_r := false; shr_s := false |}, e - 64 + 1)).
  { unfold shr_fexp. cbn [Zdigits2 shr_record_of_loc]. rewrite Hd, fexp_normal by lia.
    replace (53 + (e - 64 + 1) - 53 - (e - 64 + 1)) with 0 by lia. reflexivity. }
  rewrite Hs1. cbn [shr_m].
  replace (e - 64 + 1 <=? emax - prec) with true.
  - f_equal. lia.
  - symmetry. apply Z.leb_le. unfold emax, prec. lia.
Qed.

(** Adding a fraction to an integer-valued float: the sum stays between the
    integer and its successor. *)
Lemma add_fraction (mx my : positive) (ex ey : Z) :
  Zpos (digits2_pos mx) = 53 -> -52 <= ex <= 0 ->
  (Zpos mx) mod 2 ^ (- ex) = 0 ->
  Zpos (digits2_pos my) = 53 -> -1074 <= ey <= -53 ->
  exists m1 e1,
    F64.add (S754_finite false mx ex) (S754_finite false my ey)
    = S754_finite false m1 e1
    /\ Zpos (digits2_pos m1) = 53
    /\ ((e1 = ex /\ Zpos mx <= Zpos m1 <= Zpos mx + 2 ^ (- ex))
        \/ (e1 = ex + 1 /\ Zpos m1 = 2 ^ 52 /\ Zpos mx + 2 ^ (- ex) = 2 ^ 53)).
Proof.
  intros Hdx Hex Hint Hdy Hey.
  pose proof (digits2_pos_bounds mx) as [Xlo Xhi]. rewrite Hdx in Xlo, Xhi.
  pose proof (digits2_pos_bounds my) as [Ylo Yhi]. rewrite Hdy in Ylo, Yhi.
  change (2 ^ (53 - 1)) with (2 ^ 52) in *.
  remember (ex - ey) as k eqn:Ek.
  assert (Hk : 0 < k) by lia.
  assert (Hpk : 0 < 2 ^ k) by (apply Z.pow_pos_nonneg; lia).
  assert (Hpx : 0 < 2 ^ (- ex)) by (apply Z.pow_pos_nonneg; lia).
  (* the fraction is below one unit of the integer *)
  assert (Hy : Zpos my < 2 ^ (- ex) * 2 ^ k).
  { rewrite <- Z.pow_add_r by lia. replace (- ex + k) with (- ey) by lia.
    apply Z.lt_le_trans with (2 ^ 53); [done|]. apply Z.pow_le_mono_r; lia. }
  (* the integer plus one unit still fits *)
  assert (Hx1 : Zpos mx + 2 ^ (- ex) <= 2 ^ 53).
  { apply Z.mod_divide in Hint; [|lia]. destruct Hint as [n Hn].
    assert (H53 : 2 ^ 53 = 2 ^ (53 + ex) * 2 ^ (- ex)).
    { rewrite <- Z.pow_add_r by lia. f_equal. lia. }
    rewrite H53 in Xhi |- *. rewrite Hn in Xhi |- *.
    assert (n < 2 ^ (53 + ex)) by (apply (Z.mul_lt_mono_pos_r (2 ^ (- ex))); lia).
    nia. }
  unfold F64.add, SFadd. cbn [cond_Zopp].
  replace (Z.min ex ey) with ey by lia.
  rewrite (shl_align_keep my ey ey) by lia.
  destruct (shl_align_shift mx ex ey) as (mx' & -> & Hmx'); [lia|]. cbn [fst].
  rewrite <- Ek in Hmx'.
  change (Zpos mx' + Zpos my) with (Zpos (mx' + my)).
  assert (HM : Zpos (mx' + my) = Zpos mx * 2 ^ k + Zpos my) by lia.
  set (pM := (mx' + my)%positive) in *.
  cbn [binary_normalize]. unfold binary_round.
  assert (HdM : Zpos (digits2_pos pM) = 53 + k).
  { apply digits2_pos_unique. rewrite HM.
    replace (53 + k - 1) with (52 + k) by lia. rewrite !Z.pow_add_r by lia. nia. }
  rewrite HdM, fexp_normal by lia.
  rewrite shl_align_keep by lia.
  destruct (binary_round_aux_shift pM ey k HdM Hk) as (m1 & e1 & Hr & Hd1 & Hcase);
    [lia | lia |].
  assert (Hq : Zpos mx <= Zpos pM / 2 ^ k < Zpos mx + 2 ^ (- ex)).
  { rewrite HM. split.
    - apply Z.div_le_lower_bound; lia.
    - apply Z.div_lt_upper_bound; nia. }
  exists m1, e1. split; [done|]. split; [done|].
  replace (ey + k) with ex in Hcase by lia.
  destruct Hcase as [[-> Hm1] | (-> & Hm1 & Hq1)].
  - left. split; [done|]. lia.
  - right. split; [done|]. split; [done|]. lia.
Qed.

Lemma leb_finite (m1 m2 : positive) (e1 e2 : Z) :
  e1 < e2 \/ (e1 = e2 /\ Zpos m1 <= Zpos m2) ->
  F64.leb (S754_finite false m1 e1) (S754_finite false m2 e2) = true.
Proof.
  intros H. unfold F64.leb, SFleb, SFcompare.
  destruct (Z.compare_spec e1 e2) as [He|He|He]; try done; try lia.
  change (Pos.compare_cont Eq m1 m2) with (Pos.compare m1 m2).
  destruct (Pos.compare_spec m1 m2); try done; lia.
Qed.

Lemma small_digits (n : Z) :
  5 <= n <= 39 -> Zdigits2 n = 3 \/ Zdigits2 n = 4 \/ Zdigits2 n = 5 \/ Zdigits2 n = 6.
Proof.
  intros H. destruct n as [|p|p]; try lia. cbn [Zdigits2].
  pose proof (digits2_pos_bounds p) as [Blo Bhi].
  set (d := Zpos (digits2_pos p)) in *.
  assert (d - 1 < 6) by (apply (Z.pow_lt_mono_r_iff 2); cbn; lia).
  assert (2 < d) by (apply (Z.pow_lt_mono_r_iff 2); cbn; lia).
  lia.
Qed.

Lemma temperature_range (n k : Z) :
  5 <= n <= 39 -> 0 <= k < 2 ^ 63 - 512 ->
  let T := F64.add (F64.of_int n) (F64.div (F64.of_int k) (F64.of_int (2 ^ 63))) in
  F64.leb (F64.of_int 5) T = true /\ F64.leb T (F64.of_int 40) = true /\ F64.is_finite T = true.
Proof.
  intros Hn Hk. cbv zeta.
  destruct (of_int_exact n) as (mx & Ex & Hmx & Hdx & Hdn);
    [change (2 ^ 53) with 9007199254740992; lia|].
  set (ex := Zdigits2 n - 53) in *.
  assert (Hex : -50 <= ex <= -47) by (pose proof (small_digits n Hn); lia).
  replace (53 - Zdigits2 n) with (- ex) in Hmx by lia.
  assert (Hpx : (ex = -50 /\ 2 ^ (- ex) = 2 ^ 50) \/ (ex = -49 /\ 2 ^ (- ex) = 2 ^ 49)
                \/ (ex = -48 /\ 2 ^ (- ex) = 2 ^ 48) \/ (ex = -47 /\ 2 ^ (- ex) = 2 ^ 47)).
  { assert (ex = -50 \/ ex = -49 \/ ex = -48 \/ ex = -47) as [E|[E|[E|E]]] by lia;
      rewrite E; tauto. }
  change (F64.of_int 5) with (S754_finite false 5629499534213120 (-50)).
  change (F64.of_int 40) with (S754_finite false 5629499534213120 (-47)).
  assert (Hx : F64.leb (S754_finite false 5629499534213120 (-50)) (S754_finite false mx ex) = true
               /\ F64.leb (S754_finite false mx ex) (S754_finite false 5629499534213120 (-47)) = true).
  { split; apply leb_finite.
    - change (2 ^ 50) with 1125899906842624 in *. change (2 ^ 49) with 562949953421312 in *.
      change (2 ^ 48) with 281474976710656 in *. change (2 ^ 47) with 140737488355328 in *.
      lia.
    - change (2 ^ 50) with 1125899906842624 in *. change (2 ^ 49) with 562949953421312 in *.
      change (2 ^ 48) with 281474976710656 in *. change (2 ^ 47) with 140737488355328 in *.
      lia. }
  destruct (Z.eq_dec k 0) as [->|Hk0].
  - (* the fraction is zero *)
    change (F64.of_int 0) with (S754_zero false). rewrite of_int_pow63. unfold F64.div, F64.add. cbn [SFdiv xorb].
    rewrite Ex. cbn [SFadd F64.is_finite]. tauto.
  - destruct (of_int_kept k) as (my & ey & Ey & Hdy & Hey); [lia|].
    rewrite Ey, div_pow63 by (done || lia). rewrite Ex.
    destruct (add_fraction mx my ex (ey - 63)) as (m1 & e1 & -> & Hd1 & Hcase);
      try done; try lia.
    { rewrite Hmx. apply Z.mod_mul. apply Z.pow_nonzero; lia. }
    cbn [F64.is_finite].
    change (2 ^ 53) with 9007199254740992 in *. change (2 ^ 52) with 4503599627370496 in *.
    split; [|split; [|done]]; apply leb_finite.
    + change (2 ^ 50) with 1125899906842624 in *. change (2 ^ 49) with 562949953421312 in *.
      change (2 ^ 48) with 281474976710656 in *. change (2 ^ 47) with 140737488355328 in *.
      lia.
    + change (2 ^ 50) with 1125899906842624 in *. change (2 ^ 49) with 562949953421312 in *.
      change (2 ^ 48) with 281474976710656 in *. change (2 ^ 47) with 140737488355328 in *.
      lia.
Qed.

(** The quotient of a value that [Float64] keeps is below 1. *)
Lemma Float64_below_one (k : Z) :
  0 <= k < 2 ^ 63 - 512 ->
  F64.ltb (F64.div (F64.of_int k) (F64.of_int (2 ^ 63))) (F64.of_int 1) = true.
Proof.
  intros Hk. destruct (Z.eq_dec k 0) as [->|Hk0]; [reflexivity|].
  destruct (of_int_kept k) as (my & ey & Ey & Hdy & Hey); [lia|].
  rewrite Ey, div_pow63 by (done || lia).
  change (F64.of_int 1) with (S754_finite false 4503599627370496 (-52)).
  unfold F64.ltb, SFltb, SFcompare.
  destruct (Z.compare_spec (ey - 63) (-52)); (done || lia).
Qed.

(** The quotient of the other values of [Int63] is 1: for them the
    library draws again. *)
Lemma Float64_draws_again (k : Z) :
  2 ^ 63 - 512 <= k < 2 ^ 63 ->
  F64.div (F64.of_int k) (F64.of_int (2 ^ 63)) = F64.of_int 1.
Proof.
  intros Hk. rewrite of_int_top by lia.
  replace (k <? 2 ^ 63 - 512) with false by (symmetry; apply Z.ltb_ge; lia).
  rewrite div_pow63 by (done || lia). reflexivity.
Qed.

(** [Intn] on the values that the library keeps: [Int31n] keeps the
    values below [2^31 - 2^31 mod n], a whole number of times [n], so
    reducing a value to them and then modulo [n] is reducing it modulo
    [n]. *)
Lemma Intn_of_kept (n x : Z) :
  0 < n <= 2 ^ 31 - 1 ->
  0 < 2 ^ 31 - 2 ^ 31 mod n
  /\ (x mod (2 ^ 31 - 2 ^ 31 mod n)) mod n = x mod n.
Proof.
  intros Hn.
  pose proof (Z.div_mod (2 ^ 31) n ltac:(lia)) as Hdm.
  pose proof (Z.mod_pos_bound (2 ^ 31) n ltac:(lia)) as Hb.
  assert (Hk : 2 ^ 31 - 2 ^ 31 mod n = n * (2 ^ 31 / n)) by lia.
  assert (Hq : 0 < 2 ^ 31 / n) by (apply Z.div_str_pos; lia).
  rewrite Hk. split; [nia|].
  apply Z.mod_mod_divide. exists (2 ^ 31 / n). lia.
Qed.

(** The model agrees with the floats of the machine where the claim on the
    temperature breaks: [39 + (2^63 - 1024) / 2^63], which is
    [39 + (2^53 - 1) / 2^53], is 40. *)
Example binary64_on_the_machine :
  Prim2SF
    (PrimFloat.add
       (PrimFloat.of_uint63 (Uint63.of_Z 39))
       (PrimFloat.div (PrimFloat.of_uint63 (Uint63.of_Z 9223372036854774784))
                      (PrimFloat.mul (PrimFloat.of_uint63 (Uint63.of_Z 2))
                                     (PrimFloat.of_uint63 (Uint63.of_Z 4611686018427387904)))))
  = F64.add (F64.of_int 39)
            (F64.div (F64.of_int 9223372036854774784) (F64.of_int (2 ^ 63)))
  /\ F64.add (F64.of_int 39)
             (F64.div (F64.of_int 9223372036854774784) (F64.of_int (2 ^ 63)))
     = F64.of_int 40.
Proof. split; vm_compute; reflexivity. Qed.

(** ** Running the monad *)

Lemma bind_Some {A B} (c : M A) (k : A -> M B) (w w' : World) (a : A) :
  c w = Some (a, w') -> bind c k w = k a w'.
Proof. intros H. unfold bind. rewrite H. reflexivity. Qed.

Lemma Intn_run (n : Z) (w : World) :
  0 < n -> Intn n w = Some (peek (rng w) mod n, tick w).
Proof.
  intros Hn. unfold Intn. destruct (Z.leb_spec n 0); [lia | reflexivity].
Qed.

Lemma index_run {A} (a : list A) (i : Z) (x : A) :
  0 <= i -> a !! Z.to_nat i = Some x -> index a i = ret x.
Proof.
  intros Hi Hx. unfold index. destruct (Z.ltb_spec i 0); [lia|].
  rewrite Hx. reflexivity.
Qed.

Lemma store_run {A} (a : list A) (i : nat) (x : A) :
  (i < length a)%nat -> store a i x = ret (<[i := x]> a).
Proof. intros Hi. unfold store. destruct (decide (i < length a)%nat); [done | lia]. Qed.

Lemma table_lookup (a : list string) (z n : Z) :
  0 < n -> len a = n ->
  exists x, a !! Z.to_nat (z mod n) = Some x /\ x ∈ a.
Proof.
  intros Hn Hlen. pose proof (Z.mod_pos_bound z n Hn) as Hb.
  destruct (lookup_lt_is_Some_2 a (Z.to_nat (z mod n))) as [x Hx].
  { unfold len in Hlen. lia. }
  exists x. split; [done|]. apply list_elem_of_lookup. eauto.
Qed.

Lemma wrap64_small (z : Z) : - 2 ^ 63 <= z < 2 ^ 63 -> Time.wrap64 z = z.
Proof.
  intros H. unfold Time.wrap64. rewrite Z.mod_small; lia.
Qed.

Lemma mul_hours (h : Z) :
  -12 <= h <= 11 -> Time.mul h Time.Hour = h * 3600000000000.
Proof.
  intros H. unfold Time.mul, Time.Hour. apply wrap64_small. lia.
Qed.

Lemma mul_milliseconds (ms : Z) :
  0 <= ms <= 5000 -> Time.mul ms Time.Millisecond = ms * 1000000.
Proof.
  intros H. unfold Time.mul, Time.Millisecond. apply wrap64_small. lia.
Qed.

(** *** One iteration of the loop *)

Lemma newReading_run (w : World) :
  exists city cond,
    cities !! Z.to_nat (drawn w 0 mod 8) = Some city
    /\ conditions !! Z.to_nat (drawn w 5 mod 7) = Some cond
    /\ newReading w =
       Some ({| City := city;
                Timestamp := peek (clock w) + (drawn w 1 mod 24 - 12) * 3600000000000;
                Temperature :=
                  F64.add (F64.of_int (drawn w 2 mod 35 + 5))
                          (F64.div (F64.of_int (drawn w 3 mod (2 ^ 63 - 512)))
                                   (F64.of_int (2 ^ 63)));
                Humidity := drawn w 4 mod 80 + 20;
                Condition := cond |}, next w).
Proof.
  destruct (table_lookup cities (drawn w 0) 8) as (city & Hcity & _); [lia | done |].
  destruct (table_lookup conditions (drawn w 5) 7) as (cond & Hcond & _); [lia | done |].
  exists city, cond. split; [done|]. split; [done|].
  unfold newReading.
  unfold bind at 1. rewrite Intn_run by reflexivity.
  unfold bind at 1. rewrite (index_run cities _ city) by first [done | apply Z.mod_pos_bound; reflexivity].
  unfold ret at 1.
  unfold bind at 1, Now at 1.
  unfold bind at 1. rewrite Intn_run by reflexivity.
  unfold bind at 1. rewrite Intn_run by reflexivity.
  unfold bind at 1, Float64 at 1.
  unfold bind at 1. rewrite Intn_run by reflexivity.
  unfold bind at 1. rewrite Intn_run by reflexivity.
  unfold bind at 1. rewrite (index_run conditions _ cond) by first [done | apply Z.mod_pos_bound; reflexivity].
  unfold ret.
  rewrite mul_hours.
  - reflexivity.
  - match goal with
    | |- context [?x mod 24] => pose proof (Z.mod_pos_bound x 24 ltac:(lia))
    end. lia.
Qed.

(** *** The loop *)

Lemma iter_next_fields (n : nat) (w : World) :
  feed (rng (Nat.iter n next w)) = feed (rng w)
  /\ pos (rng (Nat.iter n next w)) = (6 * n + pos (rng w))%nat
  /\ feed (clock (Nat.iter n next w)) = feed (clock w)
  /\ pos (clock (Nat.iter n next w)) = (n + pos (clock w))%nat
  /\ out (Nat.iter n next w) = out w.
Proof.
  induction n as [|n (IH1 & IH2 & IH3 & IH4 & IH5)]; [done|].
  change (Nat.iter (S n) next w) with (next (Nat.iter n next w)).
  revert IH1 IH2 IH3 IH4 IH5. generalize (Nat.iter n next w) as w'.
  intros w' IH1 IH2 IH3 IH4 IH5.
  unfold next, advance. cbn [rng clock out feed pos].
  rewrite IH1, IH2, IH3, IH4, IH5. repeat split; lia.
Qed.

(** The invariant of the loop: the slice keeps its length, the entries
    below [i] are left alone, and entry [i + j] is the reading of the
    [j]-th iteration from here. *)
Lemma fillReadings_run (todo : nat) : forall (i : nat) (rs : list WeatherReading) (w : World),
  length rs = (i + todo)%nat ->
  exists rs',
    fillReadings todo i rs w = Some (rs', Nat.iter todo next w)
    /\ length rs' = length rs
    /\ (forall j, (j < i)%nat -> rs' !! j = rs !! j)
    /\ (forall j, (j < todo)%nat ->
          exists rd, rs' !! (i + j)%nat = Some rd
                     /\ newReading (Nat.iter j next w) = Some (rd, Nat.iter (S j) next w)).
Proof.
  induction todo as [|todo IH]; intros i rs w Hlen.
  - exists rs. cbn [fillReadings Nat.iter]. repeat split; try done. lia.
  - destruct (newReading_run w) as (city & cond & _ & _ & Hrun).
    set (rd := {| City := city |}) in Hrun.
    destruct (IH (S i) (<[i := rd]> rs) (next w)) as (rs' & Hfill & Hlen' & Hlow & Hnew).
    { rewrite length_insert. lia. }
    exists rs'. split; [|split; [|split]].
    + cbn [fillReadings]. rewrite (bind_Some _ _ _ _ _ Hrun).
      unfold bind at 1. rewrite store_run by lia. unfold ret at 1.
      rewrite Hfill. rewrite Nat.iter_succ_r. done.
    + rewrite Hlen', length_insert. done.
    + intros j Hj. rewrite Hlow by lia. apply list_lookup_insert_ne. lia.
    + intros [|j] Hj.
      * exists rd. rewrite Nat.add_0_r. split; [|done].
        rewrite Hlow by lia. apply list_lookup_insert_eq. lia.
      * destruct (Hnew j ltac:(lia)) as (rd' & Hrd' & Hrun').
        exists rd'. split.
        -- rewrite <- Hrd'. f_equal. lia.
        -- rewrite !Nat.iter_succ_r in *. done.
Qed.

Lemma generateDummyWeatherReadings_run (count : Z) (w : World) :
  0 <= count -> sizeofWeatherReading * count <= maxAlloc ->
  exists rs,
    generateDummyWeatherReadings count w = Some (rs, Nat.iter (Z.to_nat count) next w)
    /\ len rs = count
    /\ (forall j, (j < Z.to_nat count)%nat ->
          exists rd, rs !! j = Some rd
                     /\ newReading (Nat.iter j next w) = Some (rd, Nat.iter (S j) next w)).
Proof.
  intros Hc Hmem. unfold generateDummyWeatherReadings.
  destruct (Z.ltb_spec count 0); [lia|].
  destruct (Z.ltb_spec maxAlloc (sizeofWeatherReading * count)); [lia|]. cbn [orb].
  destruct (fillReadings_run (Z.to_nat count) 0 (replicate (Z.to_nat count) zeroReading) w)
    as (rs & Hfill & Hlen & _ & Hnew).
  { rewrite length_replicate. done. }
  exists rs. split; [done|]. split; [|done].
  unfold len. rewrite Hlen, length_replicate. lia.
Qed.

Lemma generateDummyWeatherReadings_negative (count : Z) (w : World) :
  count < 0 -> generateDummyWeatherReadings count w = None.
Proof.
  intros Hc. unfold generateDummyWeatherReadings.
  destruct (Z.ltb_spec count 0); [done | lia].
Qed.

Lemma generateDummyWeatherReadings_too_long (count : Z) (w : World) :
  maxAlloc < sizeofWeatherReading * count -> generateDummyWeatherReadings count w = None.
Proof.
  intros Hc. unfold generateDummyWeatherReadings.
  destruct (Z.ltb_spec maxAlloc (sizeofWeatherReading * count)); [|lia].
  rewrite orb_true_r. reflexivity.
Qed.

(** The sizes of the handler are lengths that [make] accepts. *)
Lemma make_accepts_100 (count : Z) :
  count <= 100 -> sizeofWeatherReading * count <= maxAlloc.
Proof. unfold sizeofWeatherReading, maxAlloc. lia. Qed.

(** Every reading the loop body makes is in range. *)
Lemma newReading_in_range (w w' : World) (rd : WeatherReading) :
  newReading w = Some (rd, w') ->
  readingInRange rd /\ F64.is_finite (Temperature rd) = true.
Proof.
  intros Hrun.
  destruct (newReading_run w) as (city & cond & Hcity & Hcond & Hrun').
  rewrite Hrun' in Hrun. injection Hrun as <- _.
  unfold readingInRange. cbn [Temperature Humidity City Condition].
  pose proof (Z.mod_pos_bound (drawn w 2) 35 ltac:(lia)).
  pose proof (Z.mod_pos_bound (drawn w 3) (2 ^ 63 - 512) ltac:(lia)).
  pose proof (Z.mod_pos_bound (drawn w 4) 80 ltac:(lia)).
  destruct (temperature_range (drawn w 2 mod 35 + 5) (drawn w 3 mod (2 ^ 63 - 512)))
    as (Hlo & Hhi & Hfin); [lia | lia |].
  repeat split; try done; try lia.
  - apply list_elem_of_lookup. eauto.
  - apply list_elem_of_lookup. eauto.
Qed.

(** *** The status code *)

Lemma getResponseStatusCode_run (w : World) :
  exists code,
    getResponseStatusCode w = Some (code, tick (tick w))
    /\ ((drawn w 0 mod 100 < 70
         /\ statusCodes2xx !! Z.to_nat (drawn w 1 mod 4) = Some code)
        \/ (70 <= drawn w 0 mod 100 < 85
            /\ statusCodes4xx !! Z.to_nat (drawn w 1 mod 5) = Some code)
        \/ (85 <= drawn w 0 mod 100
            /\ statusCodes5xx !! Z.to_nat (drawn w 1 mod 5) = Some code)).
Proof.
  unfold getResponseStatusCode.
  unfold bind at 1. rewrite Intn_run by reflexivity.
  change (peek (rng w)) with (drawn w 0).
  assert (Hlook : forall (a : list Z) n, 0 < n -> len a = n ->
            exists x, a !! Z.to_nat (drawn w 1 mod n) = Some x).
  { intros a n Hn Hlen. apply lookup_lt_is_Some_2.
    pose proof (Z.mod_pos_bound (drawn w 1) n Hn). unfold len in Hlen. lia. }
  assert (Hnn : forall n, 0 < n -> 0 <= drawn w 1 mod n).
  { intros n Hn. apply Z.mod_pos_bound. done. }
  destruct (Z.ltb_spec (drawn w 0 mod 100) 70) as [H70|H70].
  - destruct (Hlook statusCodes2xx 4) as [code Hcode]; [lia | done |].
    exists code. split; [|left; done].
    unfold bind. rewrite Intn_run by reflexivity.
    change (peek (rng (tick w))) with (drawn w 1).
    rewrite (index_run statusCodes2xx _ code) by first [exact Hcode | apply Hnn; reflexivity]. done.
  - destruct (Z.ltb_spec (drawn w 0 mod 100) 85) as [H85|H85].
    + destruct (Hlook statusCodes4xx 5) as [code Hcode]; [lia | done |].
      exists code. split; [|right; left; done].
      unfold bind. rewrite Intn_run by reflexivity.
      change (peek (rng (tick w))) with (drawn w 1).
      rewrite (index_run statusCodes4xx _ code) by first [exact Hcode | apply Hnn; reflexivity]. done.
    + destruct (Hlook statusCodes5xx 5) as [code Hcode]; [lia | done |].
      exists code. split; [|right; right; done].
      unfold bind. rewrite Intn_run by reflexivity.
      change (peek (rng (tick w))) with (drawn w 1).
      rewrite (index_run statusCodes5xx _ code) by first [exact Hcode | apply Hnn; reflexivity]. done.
Qed.

(** The members of the three tables. *)
Lemma in_2xx (code : Z) :
  code ∈ statusCodes2xx <-> code = 200 \/ code = 201 \/ code = 202 \/ code = 204.
Proof. unfold statusCodes2xx. rewrite !elem_of_cons, elem_of_nil. cbv. tauto. Qed.

Lemma in_4xx (code : Z) :
  code ∈ statusCodes4xx
  <-> code = 400 \/ code = 401 \/ code = 404 \/ code = 403 \/ code = 405.
Proof. unfold statusCodes4xx. rewrite !elem_of_cons, elem_of_nil. cbv. tauto. Qed.

Lemma in_5xx (code : Z) :
  code ∈ statusCodes5xx
  <-> code = 500 \/ code = 501 \/ code = 502 \/ code = 503 \/ code = 504.
Proof. unfold statusCodes5xx. rewrite !elem_of_cons, elem_of_nil. cbv. tauto. Qed.

(** *** Marshalling *)

Lemma marshal_readings (rs : list WeatherReading) :
  Forall (fun rd => F64.is_finite (Temperature rd) = true) rs ->
  exists docs, mapM marshalReading rs = Some docs /\ length docs = length rs.
Proof.
  intros Hfin.
  destruct (mapM_is_Some_2 marshalReading rs) as [docs Hdocs].
  - eapply Forall_impl; [exact Hfin|]. intros rd Hrd. unfold marshalReading, compose.
    rewrite Hrd. eauto.
  - exists docs. split; [done|]. symmetry. by eapply length_mapM.
Qed.

Lemma errorMessage_nonempty (code : Z) : String.eqb (errorMessage code) "" = false.
Proof. reflexivity. Qed.

Lemma successMessage_nonempty (n : Z) : String.eqb (successMessage n) "" = false.
Proof. reflexivity. Qed.

(** The readings key is always written; the message key exactly when the
    message is not empty. *)
Lemma marshalResponse_keys (resp : DataResponse) (doc : Json.value) :
  marshalResponse resp = Some doc ->
  Json.keys doc = if String.eqb (Message resp) "" then ["readings"%string]
                  else ["readings"; "message"]%string.
Proof.
  unfold marshalResponse.
  destruct (match Readings resp with None => _ | Some l => _ end); [|done].
  intros [= <-]. destruct (String.eqb (Message resp) ""); reflexivity.
Qed.

Lemma marshalResponse_nil (msg : string) :
  msg <> ""%string ->
  marshalResponse {| Readings := None; Message := msg |}
  = Some (Json.Obj [("readings", Json.Null); ("message", Json.Str msg)]%string).
Proof.
  intros Hmsg. unfold marshalResponse. cbn [Readings Message].
  destruct (String.eqb_spec msg ""); [done | reflexivity].
Qed.

(** *** The handler *)

Lemma effectiveSize_range (sizeStr : string) : 10 <= effectiveSize sizeStr <= 100.
Proof.
  unfold effectiveSize, sizeInvalid.
  destruct (Strconv.Atoi sizeStr) as [n [e|]]; cbn [fst orb]; [lia|].
  destruct (Z.ltb_spec n 10); cbn [orb]; [lia|].
  destruct (Z.ltb_spec 100 n); lia.
Qed.

Lemma is2xx_spec (code : Z) : is2xx code = true <-> 200 <= code < 300.
Proof. unfold is2xx. rewrite andb_true_iff, Z.leb_le, Z.ltb_lt. tauto. Qed.

(** The whole run of the handler, as a list of events. *)
Lemma weatherHandler_run {S} `{Sleeper S} (s : S) (req : Request) (w : World) :
  let sizeStr := Values_Get (Query req) "size" in
  let delay := drawn w 0 mod 5001 * 1000000 in
  let pre := [EvSetHeader "Content-Type" "application/json"]
             ++ (if sizeInvalid sizeStr then [EvLog (LogInvalidSize sizeStr)] else [])
             ++ [EvLog (LogDelay delay)] in
  exists code post,
    trace (weatherHandler s req) w
    = Some (out w ++ pre ++ EvSleep delay (Sleep s delay) :: post)
    /\ getResponseStatusCode (tick w) = Some (code, tick (tick (tick w)))
    /\ if is2xx code then
         exists docs,
           len docs = effectiveSize sizeStr
           /\ post = [EvWriteHeader code;
                      EvLog (LogSuccess code (effectiveSize sizeStr));
                      EvWriteJSON
                        (Json.Obj [("readings", Json.Arr docs);
                                   ("message",
                                    Json.Str (successMessage (effectiveSize sizeStr)))]%string)]
       else
         post = [EvWriteHeader code;
                 EvLog (LogError code (errorMessage code));
                 EvWriteJSON
                   (Json.Obj [("readings", Json.Null);
                              ("message", Json.Str (errorMessage code))]%string)].
Proof.
  intros sizeStr delay pre.
  pose proof (effectiveSize_range sizeStr) as Hsize.
  pose proof (Z.mod_pos_bound (drawn w 0) 5001 ltac:(lia)) as Hms.
  destruct (getResponseStatusCode_run (tick w)) as (code & Hcode & _).
  exists code.
  unfold trace, weatherHandler. fold sizeStr.
  unfold bind at 1, emit at 1, emits at 1.
  destruct (Strconv.Atoi sizeStr) as [n err] eqn:EA.
  set (invalid := match err with Some _ => true | None => false end
                  || (n <? 10) || (100 <? n)).
  assert (Hinv : sizeInvalid sizeStr = invalid).
  { unfold sizeInvalid. rewrite EA. reflexivity. }
  assert (Heff : effectiveSize sizeStr = if invalid then 10 else n).
  { unfold effectiveSize. rewrite Hinv, EA. reflexivity. }
  assert (Hlog : (if invalid
                  then emit (EvLog (LogInvalidSize sizeStr)) ;; ret 10 else ret n)
                   (say [EvSetHeader "Content-Type" "application/json"] w)
                 = Some (effectiveSize sizeStr,
                         {| rng := rng w; clock := clock w;
                            out := out w ++ [EvSetHeader "Content-Type" "application/json"]
                                   ++ (if sizeInvalid sizeStr
                                       then [EvLog (LogInvalidSize sizeStr)] else []) |})).
  { rewrite Heff, Hinv.
    destruct invalid; unfold bind, emit, emits, ret, say; cbn [rng clock out].
    - rewrite <- app_assoc. done.
    - rewrite app_nil_r. done. }
  rewrite (bind_Some _ _ _ _ _ Hlog). clear Hlog Hinv Heff. clearbody invalid.
  unfold bind at 1. rewrite Intn_run by reflexivity. cbn [rng].
  change (peek (rng w)) with (drawn w 0).
  rewrite mul_milliseconds by lia. fold delay.
  unfold bind at 1, emit at 1, emits at 1.
  unfold bind at 1, emit at 1, emits at 1.
  match goal with
  | |- context [bind getResponseStatusCode _ ?wa] =>
      destruct (getResponseStatusCode_run wa) as (code' & Hcode' & Hlook');
      rewrite (bind_Some _ _ _ _ _ Hcode')
  end.
  assert (code' = code) as ->.
  { destruct (getResponseStatusCode_run (tick w)) as (c & Hc & Hlook).
    rewrite Hcode in Hc. injection Hc as <-.
    cbn [drawn tick say rng advance feed pos Nat.add] in Hlook, Hlook'.
    destruct Hlook as [[? E]|[[? E]|[? E]]], Hlook' as [[? E']|[[? E']|[? E']]];
      try lia; congruence. }
  unfold bind at 1, emit at 1, emits at 1.
  change ((200 <=? code) && (code <? 300)) with (is2xx code).
  unfold bind at 1.
  destruct (is2xx code) eqn:E2xx.
  - match goal with
    | |- context [bind (generateDummyWeatherReadings _) _ ?wb] =>
        destruct (generateDummyWeatherReadings_run (effectiveSize sizeStr) wb ltac:(lia)
                    (make_accepts_100 (effectiveSize sizeStr) ltac:(lia)))
          as (rs & Hgen & Hlen & Hnew)
    end.
    destruct (marshal_readings rs) as (docs & Hdocs & Hdlen).
    { apply Forall_lookup_2. intros j rd Hj.
      destruct (Hnew j) as (rd' & Hrd' & Hrun).
      - apply lookup_lt_Some in Hj. unfold len in Hlen. lia.
      - rewrite Hj in Hrd'. injection Hrd' as <-.
        by destruct (newReading_in_range _ _ _ Hrun). }
    eexists. split; [|split; [exact Hcode|]].
    + rewrite (bind_Some _ _ _ _ _ Hgen).
      unfold bind at 1, emit at 1, emits at 1, ret at 1.
      unfold Encode, marshalResponse. cbn [Readings Message].
      rewrite Hdocs, Hlen. cbn [fmap option_fmap option_map].
      rewrite successMessage_nonempty.
      unfold emit, emits, say. f_equal.
      match goal with
      | |- context [Nat.iter ?n next ?wb] =>
          destruct (iter_next_fields n wb) as (_ & _ & _ & _ & Hout)
      end.
      cbn [out] in Hout |- *. rewrite Hout. cbn [out say tick]. unfold pre.
      rewrite <- !app_assoc. reflexivity.
    + exists docs. split; [|reflexivity]. unfold len in *. lia.
  - eexists. split; [|split; [exact Hcode|reflexivity]].
    unfold bind at 1, emit at 1, emits at 1, ret at 1.
    unfold Encode. rewrite marshalResponse_nil by (intros E; discriminate E).
    unfold emit, emits, say. cbn [out rng clock tick]. unfold pre.
    rewrite <- !app_assoc. reflexivity.
Qed.

(** What a client and the sleeper see of one request. *)
Lemma weatherHandler_observed {S} `{Sleeper S} (s : S) (req : Request) (rnd clk : nat -> Z) :
  let sizeStr := Values_Get (Query req) "size" in
  exists es code doc,
    trace (weatherHandler s req) (world0 rnd clk) = Some es
    /\ statuses es = [code]
    /\ bodies es = [doc]
    /\ sleeps es = [rnd 0%nat mod 5001 * 1000000]
    /\ getResponseStatusCode (tick (world0 rnd clk))
       = Some (code, tick (tick (tick (world0 rnd clk))))
    /\ if is2xx code then
         exists docs,
           len docs = effectiveSize sizeStr
           /\ doc = Json.Obj [("readings", Json.Arr docs);
                              ("message",
                               Json.Str (successMessage (effectiveSize sizeStr)))]%string
       else
         doc = Json.Obj [("readings", Json.Null);
                         ("message", Json.Str (errorMessage code))]%string.
Proof.
  intros sizeStr.
  destruct (weatherHandler_run s req (world0 rnd clk)) as (code & post & Hrun & Hcode & Hpost).
  fold sizeStr in Hrun, Hpost. cbn [out world0 app] in Hrun.
  change (drawn (world0 rnd clk) 0) with (rnd 0%nat) in Hrun.
  assert (Hshape : exists doc l,
             post = [EvWriteHeader code; EvLog l; EvWriteJSON doc]
             /\ if is2xx code then
                  exists docs,
                    len docs = effectiveSize sizeStr
                    /\ doc = Json.Obj [("readings", Json.Arr docs);
                                       ("message",
                                        Json.Str (successMessage (effectiveSize sizeStr)))]%string
                else
                  doc = Json.Obj [("readings", Json.Null);
                                  ("message", Json.Str (errorMessage code))]%string).
  { destruct (is2xx code).
    - destruct Hpost as (docs & Hlen & ->). eauto 10.
    - rewrite Hpost. eauto 10. }
  destruct Hshape as (doc & l & -> & Hdoc).
  eexists _, code, doc. split; [exact Hrun|].
  repeat split; try done; destruct (sizeInvalid sizeStr); reflexivity.
Qed.

(** Reading [i] of a run of the generator, from the six draws and the
    reading of the clock of its iteration. *)
Lemma generated_reading (count : Z) (rnd clk : nat -> Z)
    (rs : list WeatherReading) (w' : World) (i : nat) (rd : WeatherReading) :
  generateDummyWeatherReadings count (world0 rnd clk) = Some (rs, w') ->
  rs !! i = Some rd ->
  cities !! Z.to_nat (rnd (6 * i)%nat mod 8) = Some (City rd)
  /\ Timestamp rd = clk i + (rnd (1 + 6 * i)%nat mod 24 - 12) * 3600000000000
  /\ Temperature rd =
       F64.add (F64.of_int (rnd (2 + 6 * i)%nat mod 35 + 5))
               (F64.div (F64.of_int (rnd (3 + 6 * i)%nat mod (2 ^ 63 - 512)))
                        (F64.of_int (2 ^ 63)))
  /\ Humidity rd = rnd (4 + 6 * i)%nat mod 80 + 20
  /\ conditions !! Z.to_nat (rnd (5 + 6 * i)%nat mod 7) = Some (Condition rd)
  /\ readingInRange rd
  /\ F64.is_finite (Temperature rd) = true.
Proof.
  intros Hgen Hi.
  destruct (Z.ltb_spec count 0) as [Hneg|Hpos].
  { rewrite generateDummyWeatherReadings_negative in Hgen by done. discriminate Hgen. }
  destruct (Z.ltb_spec maxAlloc (sizeofWeatherReading * count)) as [Hlong|Hmem].
  { rewrite generateDummyWeatherReadings_too_long in Hgen by done. discriminate Hgen. }
  destruct (generateDummyWeatherReadings_run count (world0 rnd clk) Hpos Hmem)
    as (rs0 & Hrun & Hlen & Hnew).
  rewrite Hrun in Hgen. injection Hgen as -> _.
  destruct (Hnew i) as (rd' & Hrd' & Hbody).
  { apply lookup_lt_Some in Hi. unfold len in Hlen. lia. }
  rewrite Hi in Hrd'. injection Hrd' as <-.
  destruct (newReading_in_range _ _ _ Hbody) as [Hrange Hfin].
  destruct (newReading_run (Nat.iter i next (world0 rnd clk)))
    as (city & cond & Hcity & Hcond & Hrun').
  rewrite Hrun' in Hbody.
  pose proof (f_equal (fun o => match o with Some (r, _) => r | None => rd end) Hbody)
    as Hrd.
  cbv beta iota in Hrd. clear Hbody Hrun'.
  destruct (iter_next_fields i (world0 rnd clk)) as (Hf & Hp & Hcf & Hcp & _).
  unfold drawn, peek in Hcity, Hcond, Hrd.
  rewrite Hf, Hp in Hcity, Hcond. rewrite Hf, Hp, Hcf, Hcp in Hrd.
  cbn [world0 rng clock feed pos Nat.add] in Hcity, Hcond, Hrd.
  replace (6 * i + 0)%nat with (6 * i)%nat in Hcity, Hcond, Hrd by lia.
  replace (i + 0)%nat with i in Hrd by lia.
  rewrite <- Hrd in Hrange, Hfin |- *.
  cbn [City Timestamp Temperature Humidity Condition] in Hfin |- *.
  split; [exact Hcity|]. split; [reflexivity|]. split; [reflexivity|].
  split; [reflexivity|]. split; [exact Hcond|].
  split; [exact Hrange | exact Hfin].
Qed.

(** * The claims *)

(** C1: for every request the handler returns and writes one status code;
    when that code is in [200, 300) and the effective size is [s], the
    [readings] array of the body has exactly [s] elements and the message
    is "Successfully retrieved N weather readings." with [N = s]. *)
Theorem C1_success_readings_count {S} `{Sleeper S} (s : S) (req : Request)
    (rnd clk : nat -> Z) :
  let size := effectiveSize (Values_Get (Query req) "size") in
  exists es code,
    trace (weatherHandler s req) (world0 rnd clk) = Some es
    /\ statuses es = [code]
    /\ (200 <= code < 300 ->
        exists docs,
          bodies es =
            [Json.Obj [("readings", Json.Arr docs);
                       ("message",
                        Json.Str ("Successfully retrieved " ++ Fmt.d size
                                  ++ " weather readings."))]%string]
          /\ len docs = size).
Proof.
  intros size.
  destruct (weatherHandler_observed s req rnd clk)
    as (es & code & doc & Hrun & Hst & Hbody & _ & _ & Hdoc).
  exists es, code. split; [exact Hrun|]. split; [exact Hst|].
  intros H2xx. apply is2xx_spec in H2xx. rewrite H2xx in Hdoc.
  destruct Hdoc as (docs & Hlen & ->).
  exists docs. split; [exact Hbody | exact Hlen].
Qed.

Lemma C1_success_readings_count_witness :
  (let size := effectiveSize (Values_Get (Query (req_size "50")) "size") in
   exists es code,
     trace (weatherHandler mkNoOpSleeper (req_size "50"))
           (world0 (draws [17; 3; 1]) (fun _ => 0)) = Some es
     /\ statuses es = [code]
     /\ (200 <= code < 300 ->
         exists docs,
           bodies es =
             [Json.Obj [("readings", Json.Arr docs);
                        ("message",
                         Json.Str ("Successfully retrieved " ++ Fmt.d size
                                   ++ " weather readings."))]%string]
           /\ len docs = size))
  /\ statuses (served mkNoOpSleeper (req_size "50") (draws [17; 3; 1]) (fun _ => 0)) = [201]
  /\ 200 <= 201 < 300.
Proof.
  split; [|split].
  - apply (C1_success_readings_count mkNoOpSleeper (req_size "50")
             (draws [17; 3; 1]) (fun _ => 0)).
  - vm_compute. reflexivity.
  - lia.
Defined.

(** The example of the specification: [size=50] and a 2xx outcome give 50
    readings and the message that says so. *)
Example size50_message :
  effectiveSize (Values_Get (Query (req_size "50")) "size") = 50
  /\ successMessage 50 = "Successfully retrieved 50 weather readings."%string.
Proof. split; reflexivity. Qed.

(** C2: the effective size is the value of the [size] parameter when it
    parses as an integer in [10, 100], and 10 in every other case (absent,
    not a number, below 10, above 100); the handler returns no error for
    an invalid parameter: it never panics and answers with the status code
    that the random source gives, whatever the request. *)
Theorem C2_effective_size (sizeStr : string) :
  (forall n, Strconv.Atoi sizeStr = (n, None) -> 10 <= n <= 100 ->
             effectiveSize sizeStr = n)
  /\ ((forall n, Strconv.Atoi sizeStr = (n, None) -> ~ 10 <= n <= 100) ->
      effectiveSize sizeStr = 10)
  /\ (forall q : gmap string (list string),
        q !! "size"%string = None -> effectiveSize (Values_Get q "size") = 10)
  /\ (forall S (HS : Sleeper S) (s : S) (req : Request) (rnd clk : nat -> Z),
        Values_Get (Query req) "size" = sizeStr ->
        exists es code,
          trace (weatherHandler s req) (world0 rnd clk) = Some es
          /\ statuses es = [code]
          /\ fst <$> getResponseStatusCode (tick (world0 rnd clk)) = Some code
          /\ (is2xx code = true ->
              exists docs,
                Json.field "readings" <$> bodies es = [Some (Json.Arr docs)]
                /\ len docs = effectiveSize sizeStr)).
Proof.
  split; [|split; [|split]].
  - intros n Hn Hr. unfold effectiveSize, sizeInvalid. rewrite Hn. cbn [fst orb].
    destruct (Z.ltb_spec n 10); [lia|]. destruct (Z.ltb_spec 100 n); [lia|]. done.
  - intros Hbad. unfold effectiveSize, sizeInvalid.
    destruct (Strconv.Atoi sizeStr) as [n [e|]] eqn:Hn; cbn [fst orb]; [done|].
    specialize (Hbad n eq_refl).
    destruct (Z.ltb_spec n 10); [done|]. destruct (Z.ltb_spec 100 n); [done|]. lia.
  - intros q Hq. unfold Values_Get. rewrite Hq. reflexivity.
  - intros S HS s req rnd clk Hsize.
    destruct (weatherHandler_observed s req rnd clk)
      as (es & code & doc & Hrun & Hst & Hbody & _ & Hcode & Hdoc).
    rewrite Hsize in Hdoc.
    exists es, code. split; [done|]. split; [done|]. split.
    + rewrite Hcode. done.
    + intros H2xx. rewrite H2xx in Hdoc. destruct Hdoc as (docs & Hlen & ->).
      exists docs. rewrite Hbody. split; [reflexivity | done].
Qed.

Lemma C2_effective_size_witness :
  effectiveSize "50" = 50 /\ effectiveSize "100" = 100 /\ effectiveSize "10" = 10
  /\ effectiveSize "abc" = 10 /\ effectiveSize "5" = 10 /\ effectiveSize "150" = 10
  /\ effectiveSize "" = 10 /\ effectiveSize (Values_Get (Query req_none) "size") = 10.
Proof.
  split; [|split; [|split; [|split; [|split; [|split; [|split]]]]]].
  - apply (proj1 (C2_effective_size "50") 50); [reflexivity | lia].
  - apply (proj1 (C2_effective_size "100") 100); [reflexivity | lia].
  - apply (proj1 (C2_effective_size "10") 10); [reflexivity | lia].
  - apply (proj1 (proj2 (C2_effective_size "abc"))). intros n Hn. discriminate Hn.
  - apply (proj1 (proj2 (C2_effective_size "5"))).
    intros n Hn. vm_compute in Hn. injection Hn as <-. lia.
  - apply (proj1 (proj2 (C2_effective_size "150"))).
    intros n Hn. vm_compute in Hn. injection Hn as <-. lia.
  - apply (proj1 (proj2 (C2_effective_size ""))). intros n Hn. discriminate Hn.
  - apply (proj1 (proj2 (proj2 (C2_effective_size "")))). reflexivity.
Defined.

(** C3: with [n] the first draw in [0, 100) and a second draw for the index
    in the table, the status code is one of 200, 201, 202, 204 exactly when
    [n < 70], one of 400, 401, 404, 403, 405 exactly when [70 <= n < 85], and
    one of 500 to 504 exactly when [85 <= n]; it is the entry of the table
    at the drawn index; 70, 15 and 15 of the hundred values of [n] give the
    three classes. *)
Theorem C3_status_buckets (rnd clk : nat -> Z) :
  let n := rnd 0%nat mod 100 in
  let k := rnd 1%nat in
  exists code w',
    getResponseStatusCode (world0 rnd clk) = Some (code, w')
    /\ 0 <= n < 100
    /\ (n < 70 <-> code = 200 \/ code = 201 \/ code = 202 \/ code = 204)
    /\ (70 <= n < 85 <->
        code = 400 \/ code = 401 \/ code = 404 \/ code = 403 \/ code = 405)
    /\ (85 <= n <->
        code = 500 \/ code = 501 \/ code = 502 \/ code = 503 \/ code = 504)
    /\ (n < 70 -> statusCodes2xx !! Z.to_nat (k mod 4) = Some code)
    /\ (70 <= n < 85 -> statusCodes4xx !! Z.to_nat (k mod 5) = Some code)
    /\ (85 <= n -> statusCodes5xx !! Z.to_nat (k mod 5) = Some code)
    /\ NoDup statusCodes2xx /\ NoDup statusCodes4xx /\ NoDup statusCodes5xx
    /\ (forall i, 0 <= i < 5 ->
          outOf100 is2xx i = 70%nat /\ outOf100 is4xx i = 15%nat
          /\ outOf100 is5xx i = 15%nat).
Proof.
  intros n k.
  destruct (getResponseStatusCode_run (world0 rnd clk)) as (code & Hrun & Hcase).
  change (drawn (world0 rnd clk) 0) with (rnd 0%nat) in Hcase.
  change (drawn (world0 rnd clk) 1) with (rnd 1%nat) in Hcase.
  fold n k in Hcase.
  pose proof (Z.mod_pos_bound (rnd 0%nat) 100 ltac:(lia)) as Hn. fold n in Hn.
  assert (Hin : (n < 70 /\ code ∈ statusCodes2xx
                 /\ statusCodes2xx !! Z.to_nat (k mod 4) = Some code)
                \/ (70 <= n < 85 /\ code ∈ statusCodes4xx
                    /\ statusCodes4xx !! Z.to_nat (k mod 5) = Some code)
                \/ (85 <= n /\ code ∈ statusCodes5xx
                    /\ statusCodes5xx !! Z.to_nat (k mod 5) = Some code)).
  { destruct Hcase as [[? E]|[[? E]|[? E]]]; [left | right; left | right; right];
      (split; [done|]); (split; [|done]); apply list_elem_of_lookup; eauto. }
  rewrite in_2xx, in_4xx, in_5xx in Hin.
  exists code, (tick (tick (world0 rnd clk))).
  split; [done|]. split; [done|].
  split; [|split; [|split; [|split; [|split; [|split; [|split; [|split; [|split]]]]]]]].
  - destruct Hin as [(? & ? & ?)|[(? & ? & ?)|(? & ? & ?)]]; lia.
  - destruct Hin as [(? & ? & ?)|[(? & ? & ?)|(? & ? & ?)]]; lia.
  - destruct Hin as [(? & ? & ?)|[(? & ? & ?)|(? & ? & ?)]]; lia.
  - intros ?. destruct Hin as [(? & ? & ?)|[(? & ? & ?)|(? & ? & ?)]]; (done || lia).
  - intros ?. destruct Hin as [(? & ? & ?)|[(? & ? & ?)|(? & ? & ?)]]; (done || lia).
  - intros ?. destruct Hin as [(? & ? & ?)|[(? & ? & ?)|(? & ? & ?)]]; (done || lia).
  - apply (bool_decide_unpack _). vm_compute. reflexivity.
  - apply (bool_decide_unpack _). vm_compute. reflexivity.
  - apply (bool_decide_unpack _). vm_compute. reflexivity.
  - intros i Hi.
    assert (i = 0 \/ i = 1 \/ i = 2 \/ i = 3 \/ i = 4) as [->|[->|[->|[->| ->]]]] by lia;
      (split; [|split]); vm_compute; reflexivity.
Qed.

(** C4: the [readings] field of the body is populated (an array, with at
    least the requested number of elements) if and only if the chosen status
    code is in [200, 300); for every other status code the body carries no
    readings: the field is [null]. *)
Theorem C4_readings_iff_2xx {S} `{Sleeper S} (s : S) (req : Request) (rnd clk : nat -> Z) :
  exists es code doc,
    trace (weatherHandler s req) (world0 rnd clk) = Some es
    /\ statuses es = [code]
    /\ bodies es = [doc]
    /\ (200 <= code < 300 <->
        exists docs,
          Json.field "readings" doc = Some (Json.Arr docs)
          /\ effectiveSize (Values_Get (Query req) "size") <= len docs)
    /\ (~ 200 <= code < 300 -> Json.field "readings" doc = Some Json.Null).
Proof.
  destruct (weatherHandler_observed s req rnd clk)
    as (es & code & doc & Hrun & Hst & Hbody & _ & _ & Hdoc).
  exists es, code, doc. split; [done|]. split; [done|]. split; [done|].
  rewrite <- is2xx_spec. destruct (is2xx code).
  - destruct Hdoc as (docs & Hlen & ->). split; [|done].
    split; [|done]. intros _. exists docs. split; [reflexivity | lia].
  - rewrite Hdoc. split; [|reflexivity].
    split; [done|]. intros (docs & Hf & _). discriminate Hf.
Qed.

(** C5, as the claim states it, fails: the body of an error response is not
    the object with the one key [message]; the key [readings] is written,
    with the value [null].  Here the first draw gives no delay, the second
    (90) the 5xx class and the third the code 500. *)
Lemma C5_counterexample :
  exists es doc,
    trace (weatherHandler mkNoOpSleeper req_none) (world0 (draws [0; 90; 0]) (fun _ => 0))
    = Some es
    /\ statuses es = [500]
    /\ ~ 200 <= 500 < 300
    /\ bodies es = [doc]
    /\ doc <> Json.Obj [("message", Json.Str (errorMessage 500))]%string
    /\ "readings"%string ∈ Json.keys doc.
Proof.
  eexists _, _. split; [vm_compute; reflexivity|].
  split; [reflexivity|]. split; [lia|]. split; [reflexivity|].
  split; [discriminate|]. cbn. set_solver.
Qed.

(** C5, amended: for every request the handler returns and writes one
    status code; when that code is outside [200, 300), the body is the object
    with the key [readings], of value [null], and the key [message], of
    value "An error occurred with status code <code>. This is a dummy error
    for testing." *)
Theorem C5_error_body {S} `{Sleeper S} (s : S) (req : Request) (rnd clk : nat -> Z) :
  exists es code,
    trace (weatherHandler s req) (world0 rnd clk) = Some es
    /\ statuses es = [code]
    /\ (~ 200 <= code < 300 ->
        bodies es =
          [Json.Obj [("readings", Json.Null);
                     ("message",
                      Json.Str ("An error occurred with status code " ++ Fmt.d code
                                ++ ". This is a dummy error for testing."))]%string]).
Proof.
  destruct (weatherHandler_observed s req rnd clk)
    as (es & code & doc & Hrun & Hst & Hbody & _ & _ & Hdoc).
  exists es, code. split; [exact Hrun|]. split; [exact Hst|].
  intros Hnot. rewrite <- is2xx_spec in Hnot. destruct (is2xx code); [done|].
  rewrite Hbody, Hdoc. reflexivity.
Qed.

Lemma C5_error_body_witness :
  (exists es code,
     trace (weatherHandler mkDefaultSleeper (req_size "abc"))
           (world0 (draws [4200; 72; 2]) (fun _ => 0)) = Some es
     /\ statuses es = [code]
     /\ (~ 200 <= code < 300 ->
         bodies es =
           [Json.Obj [("readings", Json.Null);
                      ("message",
                       Json.Str ("An error occurred with status code " ++ Fmt.d code
                                 ++ ". This is a dummy error for testing."))]%string]))
  /\ statuses (served mkDefaultSleeper (req_size "abc") (draws [4200; 72; 2]) (fun _ => 0))
     = [404]
  /\ ~ 200 <= 404 < 300.
Proof.
  split; [|split].
  - apply (C5_error_body mkDefaultSleeper (req_size "abc")
             (draws [4200; 72; 2]) (fun _ => 0)).
  - vm_compute. reflexivity.
  - lia.
Defined.

(** C10: the key [readings] is in every body; on the paths outside 2xx its
    value is [null], since the tag of the field has no [omitempty]; the key
    [message], whose tag has [omitempty], is never left out, since both
    branches set a message that is not empty. *)
Theorem C10_readings_key_present {S} `{Sleeper S} (s : S) (req : Request)
    (rnd clk : nat -> Z) :
  (exists es code doc msg,
     trace (weatherHandler s req) (world0 rnd clk) = Some es
     /\ statuses es = [code]
     /\ bodies es = [doc]
     /\ Json.keys doc = ["readings"; "message"]%string
     /\ (~ 200 <= code < 300 -> Json.field "readings" doc = Some Json.Null)
     /\ Json.field "message" doc = Some (Json.Str msg)
     /\ msg <> ""%string)
  /\ (forall resp doc,
        marshalResponse resp = Some doc ->
        "readings"%string ∈ Json.keys doc
        /\ ("message"%string ∈ Json.keys doc <-> Message resp <> ""%string))
  /\ (forall msg,
        Json.field "readings" <$> marshalResponse {| Readings := None; Message := msg |}
        = Some (Some Json.Null)).
Proof.
  split; [|split].
  - destruct (weatherHandler_observed s req rnd clk)
      as (es & code & doc & Hrun & Hst & Hbody & _ & _ & Hdoc).
    destruct (is2xx code) eqn:E2xx.
    + destruct Hdoc as (docs & Hlen & ->).
      eexists es, code, _, (successMessage (effectiveSize (Values_Get (Query req) "size"))).
      split; [done|]. split; [done|]. split; [exact Hbody|]. split; [reflexivity|].
      split; [|split; [reflexivity | discriminate]].
      intros Hnot. exfalso. apply Hnot, is2xx_spec, E2xx.
    + rewrite Hdoc in Hbody. eexists es, code, _, (errorMessage code).
      split; [done|]. split; [done|]. split; [exact Hbody|]. split; [reflexivity|].
      split; [|split; [reflexivity | discriminate]].
      intros _. reflexivity.
  - intros resp doc Hdoc. rewrite (marshalResponse_keys resp doc Hdoc).
    destruct (String.eqb_spec (Message resp) "") as [E|E];
      rewrite ?elem_of_cons, ?elem_of_nil; split; try tauto.
    split; [|done]. intros [Hm|[]]. discriminate Hm.
  - intros msg. unfold marshalResponse. cbn [Readings Message].
    destruct (String.eqb msg ""); reflexivity.
Qed.

(** C6, as the claim states it, fails on the upper bound of the
    temperature: 34 for the degrees and the value [2^63 - 1024] of [Int63]
    for the fraction, which is [1 - 2^-53], give [39 + (1 - 2^-53)], which
    binary64 rounds to 40.0. *)
Lemma C6_counterexample :
  exists rd w',
    generateDummyWeatherReadings 1
      (world0 (draws [0; 0; 34; 9223372036854774784; 0; 0]) (fun _ => 0))
    = Some ([rd], w')
    /\ Temperature rd = F64.of_int 40
    /\ F64.ltb (Temperature rd) (F64.of_int 40) = false.
Proof.
  eexists _, _. split; [vm_compute; reflexivity|].
  split; vm_compute; reflexivity.
Qed.

(** C6, amended: every reading of the generator, for a count of at least 1
    that [make] accepts and any draws, has a temperature in the closed
    interval [5.0, 40.0], a humidity in [20, 99], a city of the eight of
    the table and a condition of the seven of the table. *)
Theorem C6_readings_in_range (count : Z) (rnd clk : nat -> Z) :
  1 <= count -> sizeofWeatherReading * count <= maxAlloc ->
  exists rs w',
    generateDummyWeatherReadings count (world0 rnd clk) = Some (rs, w')
    /\ len rs = count
    /\ Forall readingInRange rs.
Proof.
  intros Hc Hmem.
  destruct (generateDummyWeatherReadings_run count (world0 rnd clk)) as (rs & Hrun & Hlen & _);
    [lia | exact Hmem |].
  eexists rs, _. split; [exact Hrun|]. split; [exact Hlen|].
  apply Forall_lookup_2. intros i rd Hi.
  by destruct (generated_reading _ _ _ _ _ _ _ Hrun Hi) as (_ & _ & _ & _ & _ & Hr & _).
Qed.

Lemma C6_readings_in_range_witness :
  exists rs w',
    generateDummyWeatherReadings 3 (world0 (draws [7; 23; 34; 9223372036854774784; 79; 6])
                                           (fun _ => 1700000000000000000))
    = Some (rs, w')
    /\ len rs = 3
    /\ Forall readingInRange rs.
Proof. apply C6_readings_in_range; [lia | unfold sizeofWeatherReading, maxAlloc; lia]. Defined.

(** The tables, as the claim lists them. *)
Example tables_of_the_claim :
  cities = ["New York"; "London"; "Paris"; "Tokyo"; "Sydney"; "Lagos"; "Dubai"; "Rio"]%string
  /\ conditions
     = ["Sunny"; "Partly Cloudy"; "Cloudy"; "Rainy"; "Stormy"; "Foggy"; "Snowy"]%string.
Proof. split; reflexivity. Qed.

(** C7, as the claim states it, fails: no random input gives a reading
    whose timestamp is twelve hours after the reading of the clock. *)
Lemma C7_counterexample :
  ~ exists (count : Z) (rnd clk : nat -> Z) (rs : list WeatherReading) (w' : World)
           (i : nat) (rd : WeatherReading),
      generateDummyWeatherReadings count (world0 rnd clk) = Some (rs, w')
      /\ rs !! i = Some rd
      /\ Timestamp rd = Time.Add (clk i) (12 * Time.Hour).
Proof.
  intros (count & rnd & clk & rs & w' & i & rd & Hrun & Hi & Hts).
  destruct (generated_reading _ _ _ _ _ _ _ Hrun Hi) as (_ & Hrd & _).
  pose proof (Z.mod_pos_bound (rnd (1 + 6 * i)%nat) 24 ltac:(lia)).
  unfold Time.Add, Time.Hour in Hts. lia.
Qed.

(** C7, amended: the timestamp of reading [i] is the reading of the clock
    of its iteration plus a whole number of hours [h = Intn(24) - 12], so
    that the offset lies in [-12h, +11h]; each of these 24 offsets is given
    by one value of the draw, and +12h by none. *)
Theorem C7_timestamp_offsets (count : Z) (rnd clk : nat -> Z) :
  0 <= count -> sizeofWeatherReading * count <= maxAlloc ->
  (exists rs w',
     generateDummyWeatherReadings count (world0 rnd clk) = Some (rs, w')
     /\ len rs = count
     /\ forall i rd,
          rs !! i = Some rd ->
          exists h,
            h = rnd (1 + 6 * i)%nat mod 24 - 12
            /\ -12 <= h <= 11
            /\ Timestamp rd = Time.Add (clk i) (h * Time.Hour))
  /\ (forall h,
        -12 <= h <= 11 ->
        exists rd w',
          generateDummyWeatherReadings 1 (world0 (draws [0; h + 12]) clk) = Some ([rd], w')
          /\ Timestamp rd = Time.Add (clk 0%nat) (h * Time.Hour)).
Proof.
  intros Hc Hmem. split.
  - destruct (generateDummyWeatherReadings_run count (world0 rnd clk) Hc Hmem)
      as (rs & Hrun & Hlen & _).
    eexists rs, _. split; [exact Hrun|]. split; [exact Hlen|].
    intros i rd Hi.
    destruct (generated_reading _ _ _ _ _ _ _ Hrun Hi) as (_ & Hrd & _).
    pose proof (Z.mod_pos_bound (rnd (1 + 6 * i)%nat) 24 ltac:(lia)).
    eexists. split; [reflexivity|]. split; [lia|]. exact Hrd.
  - intros h Hh.
    destruct (generateDummyWeatherReadings_run 1 (world0 (draws [0; h + 12]) clk))
      as (rs & Hrun & Hlen & Hnew); [lia | unfold sizeofWeatherReading, maxAlloc; lia |].
    destruct rs as [|rd [|rd' rs]];
      [unfold len in Hlen; cbn [length] in Hlen; lia | |
       unfold len in Hlen; cbn [length] in Hlen; lia].
    eexists rd, _. split; [exact Hrun|].
    destruct (generated_reading _ _ _ _ _ 0%nat rd Hrun eq_refl) as (_ & Hrd & _).
    rewrite Hrd. change (draws [0; h + 12] (1 + 6 * 0)%nat) with (h + 12).
    rewrite Z.mod_small by lia. unfold Time.Add, Time.Hour. f_equal. lia.
Qed.

Lemma C7_timestamp_offsets_witness :
  (exists rs w',
     generateDummyWeatherReadings 2 (world0 (draws [0; 23; 0; 0; 0; 0; 1; 0]) (fun i => Z.of_nat i))
     = Some (rs, w')
     /\ len rs = 2
     /\ forall i rd,
          rs !! i = Some rd ->
          exists h,
            h = draws [0; 23; 0; 0; 0; 0; 1; 0] (1 + 6 * i)%nat mod 24 - 12
            /\ -12 <= h <= 11
            /\ Timestamp rd = Time.Add (Z.of_nat i) (h * Time.Hour))
  /\ (forall h,
        -12 <= h <= 11 ->
        exists rd w',
          generateDummyWeatherReadings 1 (world0 (draws [0; h + 12]) (fun i => Z.of_nat i))
          = Some ([rd], w')
          /\ Timestamp rd = Time.Add (Z.of_nat 0) (h * Time.Hour)).
Proof.
  apply (C7_timestamp_offsets 2 (draws [0; 23; 0; 0; 0; 0; 1; 0]) (fun i => Z.of_nat i));
    [lia | unfold sizeofWeatherReading, maxAlloc; lia].
Defined.

(** The two ends of the range of the offsets: eleven hours after, twelve
    hours before. *)
Example offsets_at_the_ends :
  match generateDummyWeatherReadings 2
          (world0 (draws [0; 23; 0; 0; 0; 0; 0; 0]) (fun _ => 0)) with
  | Some (rs, _) => Some (map Timestamp rs)
  | None => None
  end = Some [11 * Time.Hour; -12 * Time.Hour].
Proof. vm_compute. reflexivity. Qed.


(** The two sleepers of the program, on a drawn delay of 4200 ms: the
    default one sleeps, the other logs the call. *)
Example sleepers_at_work :
  served mkDefaultSleeper req_none (draws [4200; 90; 0]) (fun _ => 0) !! 3%nat
  = Some (EvSleep 4200000000 [TimeSleep 4200000000])
  /\ served mkNoOpSleeper req_none (draws [4200; 90; 0]) (fun _ => 0) !! 3%nat
     = Some (EvSleep 4200000000 [Printf (LogNoOpSleeper 4200000000)]).
Proof. split; vm_compute; reflexivity. Qed.

(** C9, as the claim states it, fails for a count that [make] refuses:
    [make([]WeatherReading, 1 << 62)] panics with a length out of range,
    whatever the source gives; so does the first count whose readings take
    more than [maxAlloc] bytes, while the one before is accepted. *)
Lemma C9_counterexample :
  0 <= 2 ^ 62 <= Strconv.maxInt
  /\ (forall rnd clk, generateDummyWeatherReadings (2 ^ 62) (world0 rnd clk) = None)
  /\ (forall rnd clk, generateDummyWeatherReadings 3909374676537 (world0 rnd clk) = None)
  /\ sizeofWeatherReading * 3909374676536 <= maxAlloc.
Proof.
  split; [unfold Strconv.maxInt; lia|].
  split; [intros rnd clk; reflexivity|].
  split; [intros rnd clk; reflexivity|].
  unfold sizeofWeatherReading, maxAlloc. lia.
Qed.

(** C9, amended: for every count of at least 0 that [make] accepts, the
    memory permitting, the generator returns: it does not panic on an
    index, every city index being below 8 and every condition index below
    7, and the slice has exactly [count] readings, the empty slice for
    [count = 0]. *)
Theorem C9_generate_total (count : Z) (rnd clk : nat -> Z) :
  0 <= count -> sizeofWeatherReading * count <= maxAlloc ->
  exists rs w',
    generateDummyWeatherReadings count (world0 rnd clk) = Some (rs, w')
    /\ len rs = count
    /\ (count = 0 -> rs = [])
    /\ (forall i rd,
          rs !! i = Some rd ->
          0 <= rnd (6 * i)%nat mod len cities < 8
          /\ 0 <= rnd (5 + 6 * i)%nat mod len conditions < 7
          /\ cities !! Z.to_nat (rnd (6 * i)%nat mod len cities) = Some (City rd)
          /\ conditions !! Z.to_nat (rnd (5 + 6 * i)%nat mod len conditions)
             = Some (Condition rd)).
Proof.
  intros Hc Hmem.
  destruct (generateDummyWeatherReadings_run count (world0 rnd clk) Hc Hmem)
    as (rs & Hrun & Hlen & _).
  eexists rs, _. split; [exact Hrun|]. split; [exact Hlen|]. split.
  - intros ->. destruct rs; [done|]. unfold len in Hlen. cbn [length] in Hlen. lia.
  - intros i rd Hi.
    destruct (generated_reading _ _ _ _ _ _ _ Hrun Hi) as (Hcity & _ & _ & _ & Hcond & _).
    change (len cities) with 8. change (len conditions) with 7.
    pose proof (Z.mod_pos_bound (rnd (6 * i)%nat) 8 ltac:(lia)).
    pose proof (Z.mod_pos_bound (rnd (5 + 6 * i)%nat) 7 ltac:(lia)).
    done.
Qed.

Lemma C9_generate_total_witness :
  exists rs w',
    generateDummyWeatherReadings 3 (world0 (fun i => Z.of_nat i * 7919 + 3) (fun _ => 0))
    = Some (rs, w')
    /\ len rs = 3
    /\ (3 = 0 -> rs = [])
    /\ (forall i rd,
          rs !! i = Some rd ->
          0 <= (Z.of_nat (6 * i) * 7919 + 3) mod len cities < 8
          /\ 0 <= (Z.of_nat (5 + 6 * i) * 7919 + 3) mod len conditions < 7
          /\ cities !! Z.to_nat ((Z.of_nat (6 * i) * 7919 + 3) mod len cities)
             = Some (City rd)
          /\ conditions !! Z.to_nat ((Z.of_nat (5 + 6 * i) * 7919 + 3) mod len conditions)
             = Some (Condition rd)).
Proof.
  apply (C9_generate_total 3 (fun i => Z.of_nat i * 7919 + 3) (fun _ => 0));
    [lia | unfold sizeofWeatherReading, maxAlloc; lia].
Defined.

(** The readings of that run, and the empty slice of a count of zero. *)
Example three_readings :
  (fst <$> generateDummyWeatherReadings 3
             (world0 (fun i => Z.of_nat i * 7919 + 3) (fun _ => 0)))
  = Some
      [ {| City := "Tokyo"; Timestamp := -36000000000000;
           Temperature := F64.add (F64.of_int 26)
                            (F64.div (F64.of_int 23760) (F64.of_int (2 ^ 63)));
           Humidity := 99; Condition := "Snowy" |};
        {| City := "Lagos"; Timestamp := 28800000000000;
           Temperature := F64.add (F64.of_int 10)
                            (F64.div (F64.of_int 71274) (F64.of_int (2 ^ 63)));
           Humidity := 93; Condition := "Stormy" |};
        {| City := "Rio"; Timestamp := 7200000000000;
           Temperature := F64.add (F64.of_int 29)
                            (F64.div (F64.of_int 118788) (F64.of_int (2 ^ 63)));
           Humidity := 87; Condition := "Cloudy" |} ]%string
  /\ (fst <$> generateDummyWeatherReadings 0
               (world0 (fun i => Z.of_nat i * 7919 + 3) (fun _ => 0)))
     = Some [].
Proof. split; vm_compute; reflexivity. Qed.

(** A negative count makes [make] panic; the handler never passes one. *)
Example negative_count_panics :
  generateDummyWeatherReadings (-1) (world0 (fun _ => 0) (fun _ => 0)) = None.
Proof. reflexivity. Qed.

(** The health check writes its constant body and draws nothing. *)
Example health_body (rnd clk : nat -> Z) :
  trace health (world0 rnd clk) = Some [EvWrite "Healthy"].
Proof. reflexivity. Qed.

(** * More of the program *)

(** ** The generator *)

(** X1: the generator panics exactly when [make] refuses the count, an
    [int]: when it is negative, and when its readings take more than
    [maxAlloc] bytes, which is from 3909374676537 readings on. *)
Theorem generate_panics_iff_refused (count : Z) (w : World) :
  Strconv.minInt <= count <= Strconv.maxInt ->
  (generateDummyWeatherReadings count w = None
   <-> count < 0 \/ 3909374676536 < count).
Proof.
  intros _. split.
  - intros Hnone. destruct (Z.ltb_spec count 0) as [|Hpos]; [left; done|].
    destruct (Z.ltb_spec 3909374676536 count) as [|Hmem]; [right; done|].
    destruct (generateDummyWeatherReadings_run count w Hpos) as (rs & Hrun & _).
    { unfold sizeofWeatherReading, maxAlloc. lia. }
    rewrite Hrun in Hnone. discriminate Hnone.
  - intros [Hneg | Hlong].
    + apply generateDummyWeatherReadings_negative, Hneg.
    + apply generateDummyWeatherReadings_too_long.
      unfold sizeofWeatherReading, maxAlloc. lia.
Qed.

Lemma generate_panics_iff_refused_witness :
  Strconv.minInt <= 2 ^ 62 <= Strconv.maxInt
  /\ (generateDummyWeatherReadings (2 ^ 62) (world0 (fun _ => 0) (fun _ => 0)) = None
      <-> 2 ^ 62 < 0 \/ 3909374676536 < 2 ^ 62).
Proof.
  assert (H : Strconv.minInt <= 2 ^ 62 <= Strconv.maxInt)
    by (unfold Strconv.minInt, Strconv.maxInt; lia).
  split; [exact H|].
  exact (generate_panics_iff_refused (2 ^ 62) (world0 (fun _ => 0) (fun _ => 0)) H).
Defined.

(** X2: a run of the generator makes exactly six calls on the random
    source [r] and one reading of the clock for each reading, and writes
    and logs nothing.  The calls are counted, five of [r.Intn] and one of
    [r.Float64] in each iteration, not the values that math/rand takes
    from its [rand.Source] for them. *)
Theorem generate_six_calls_each (count : Z) (w : World) :
  0 <= count -> sizeofWeatherReading * count <= maxAlloc ->
  exists rs w',
    generateDummyWeatherReadings count w = Some (rs, w')
    /\ feed (rng w') = feed (rng w)
    /\ pos (rng w') = (6 * Z.to_nat count + pos (rng w))%nat
    /\ feed (clock w') = feed (clock w)
    /\ pos (clock w') = (Z.to_nat count + pos (clock w))%nat
    /\ out w' = out w.
Proof.
  intros Hc Hmem.
  destruct (generateDummyWeatherReadings_run count w Hc Hmem) as (rs & Hrun & _).
  eexists rs, _. split; [exact Hrun|]. apply iter_next_fields.
Qed.

Lemma generate_six_calls_each_witness :
  exists rs w',
    generateDummyWeatherReadings 10 (world0 (fun i => Z.of_nat i) (fun _ => 0%Z)) = Some (rs, w')
    /\ feed (rng w') = feed (rng (world0 (fun i => Z.of_nat i) (fun _ => 0%Z)))
    /\ pos (rng w')
       = (6 * Z.to_nat 10 + pos (rng (world0 (fun i => Z.of_nat i) (fun _ => 0%Z))))%nat
    /\ feed (clock w') = feed (clock (world0 (fun i => Z.of_nat i) (fun _ => 0%Z)))
    /\ pos (clock w')
       = (Z.to_nat 10 + pos (clock (world0 (fun i => Z.of_nat i) (fun _ => 0%Z))))%nat
    /\ out w' = out (world0 (fun i => Z.of_nat i) (fun _ => 0%Z)).
Proof.
  apply generate_six_calls_each; [lia | unfold sizeofWeatherReading, maxAlloc; lia].
Defined.

(** X3: on the same source, asking for more readings keeps the earlier
    ones: the first [n] readings of a run for [m >= n], a count that
    [make] accepts, are the run for [n]. *)
Theorem generate_prefix (n m : Z) (w : World) :
  0 <= n <= m -> sizeofWeatherReading * m <= maxAlloc ->
  exists rsn rsm wn wm,
    generateDummyWeatherReadings n w = Some (rsn, wn)
    /\ generateDummyWeatherReadings m w = Some (rsm, wm)
    /\ take (Z.to_nat n) rsm = rsn.
Proof.
  intros Hnm Hmem.
  destruct (generateDummyWeatherReadings_run n w) as (rsn & Hn & Hlenn & Hnewn);
    [lia | unfold sizeofWeatherReading in *; lia |].
  destruct (generateDummyWeatherReadings_run m w) as (rsm & Hm & Hlenm & Hnewm);
    [lia | exact Hmem |].
  eexists rsn, rsm, _, _. split; [exact Hn|]. split; [exact Hm|].
  unfold len in Hlenn, Hlenm.
  apply list_eq. intros j.
  destruct (decide (j < Z.to_nat n)%nat) as [Hj|Hj].
  - rewrite lookup_take_lt by done.
    destruct (Hnewn j Hj) as (rd & -> & Hrd).
    destruct (Hnewm j ltac:(lia)) as (rd' & -> & Hrd').
    rewrite Hrd in Hrd'. congruence.
  - rewrite lookup_take_ge by lia. symmetry. apply lookup_ge_None. lia.
Qed.

Lemma generate_prefix_witness :
  exists rsn rsm wn wm,
    generateDummyWeatherReadings 2 (world0 (fun i => Z.of_nat i * 7) (fun _ => 0))
    = Some (rsn, wn)
    /\ generateDummyWeatherReadings 5 (world0 (fun i => Z.of_nat i * 7) (fun _ => 0))
       = Some (rsm, wm)
    /\ take (Z.to_nat 2) rsm = rsn.
Proof. apply generate_prefix; [lia | unfold sizeofWeatherReading, maxAlloc; lia]. Defined.

(** ** Decimal sizes *)

Lemma digits_of_uint_acc (u : Decimal.uint) : forall acc : positive,
  Strconv.digits (Zpos acc) (NilEmpty.string_of_uint u)
  = Some (Zpos (Pos.of_uint_acc u acc)).
Proof.
  induction u as [|u IH|u IH|u IH|u IH|u IH|u IH|u IH|u IH|u IH|u IH]; intros acc;
    cbn [NilEmpty.string_of_uint Strconv.digits Pos.of_uint_acc]; [reflexivity|..];
    match goal with
    | |- context [Strconv.is_digit ?c] => change (Strconv.is_digit c) with true
    end; cbv iota; rewrite <- IH; f_equal;
    match goal with
    | |- context [Z.of_nat (nat_of_ascii ?c)] =>
        let v := eval vm_compute in (Z.of_nat (nat_of_ascii c)) in
        change (Z.of_nat (nat_of_ascii c)) with v
    end; lia.
Qed.

Lemma digits_of_uint (u : Decimal.uint) :
  Strconv.digits 0 (NilEmpty.string_of_uint u) = Some (Z.of_N (Pos.of_uint u)).
Proof.
  induction u as [|u IH|u IH|u IH|u IH|u IH|u IH|u IH|u IH|u IH|u IH];
    cbn [NilEmpty.string_of_uint Strconv.digits Pos.of_uint]; [reflexivity|..];
    match goal with
    | |- context [Strconv.is_digit ?c] => change (Strconv.is_digit c) with true
    end; cbv iota;
    first [exact IH | apply digits_of_uint_acc].
Qed.

(** The decimal digits of a positive number, as [%d] prints them, are read
    back by the digit loop; they begin with a digit. *)
Lemma digits_of_positive (p : positive) :
  exists c rest,
    NilZero.string_of_uint (Pos.to_uint p) = String c rest
    /\ Ascii.eqb c "-" = false /\ Ascii.eqb c "+" = false
    /\ Strconv.digits 0 (String c rest) = Some (Zpos p).
Proof.
  pose proof (DecimalPos.Unsigned.to_uint_nonnil p) as Hnil.
  pose proof (digits_of_uint (Pos.to_uint p)) as Hd.
  rewrite DecimalPos.Unsigned.of_to in Hd. cbn [Z.of_N] in Hd.
  destruct (Pos.to_uint p) as [|u|u|u|u|u|u|u|u|u|u]; [done|..];
    cbn [NilZero.string_of_uint NilEmpty.string_of_uint] in Hd |- *;
    eexists _, _; (split; [reflexivity|]); (split; [reflexivity|]);
    (split; [reflexivity|]); exact Hd.
Qed.

Lemma Atoi_of_decimal (n : Z) :
  Strconv.Atoi (Fmt.d n)
  = if Strconv.maxInt <? n then (Strconv.maxInt, Some Strconv.ErrRange)
    else if n <? Strconv.minInt then (Strconv.minInt, Some Strconv.ErrRange)
    else (n, None).
Proof.
  unfold Fmt.d. destruct n as [|p|p].
  - reflexivity.
  - cbn [Z.to_int NilZero.string_of_int].
    destruct (digits_of_positive p) as (c & rest & -> & Hm & Hp & Hd).
    unfold Strconv.Atoi. rewrite Hm, Hp. cbn [orb]. rewrite Hd. reflexivity.
  - cbn [Z.to_int NilZero.string_of_int].
    destruct (digits_of_positive p) as (c & rest & -> & Hm & Hp & Hd).
    unfold Strconv.Atoi. change (Ascii.eqb "-" "-") with true. cbn [orb]. rewrite Hd.
    reflexivity.
Qed.

(** X4: a size written in decimal, as [%d] prints it, is read back
    exactly: it is the effective size when it is in [10, 100], and 10 is
    the effective size for every other integer. *)
Theorem decimal_size_is_read_back (n : Z) :
  Strconv.Atoi (Fmt.d n)
  = (if Strconv.maxInt <? n then (Strconv.maxInt, Some Strconv.ErrRange)
     else if n <? Strconv.minInt then (Strconv.minInt, Some Strconv.ErrRange)
     else (n, None))
  /\ effectiveSize (Fmt.d n) = (if (10 <=? n) && (n <=? 100) then n else 10).
Proof.
  split; [apply Atoi_of_decimal|].
  unfold effectiveSize, sizeInvalid. rewrite Atoi_of_decimal.
  unfold Strconv.maxInt, Strconv.minInt.
  destruct (Z.ltb_spec (2 ^ 63 - 1) n).
  - cbn [orb fst]. destruct (Z.leb_spec 10 n), (Z.leb_spec n 100); cbn [andb]; lia.
  - destruct (Z.ltb_spec n (- 2 ^ 63)).
    + cbn [orb fst]. destruct (Z.leb_spec 10 n), (Z.leb_spec n 100); cbn [andb]; lia.
    + cbn [orb fst].
      destruct (Z.ltb_spec n 10), (Z.ltb_spec 100 n), (Z.leb_spec 10 n), (Z.leb_spec n 100);
        cbn [orb andb]; lia.
Qed.

(** ** The messages *)

Lemma list_ascii_of_append (s t : string) :
  list_ascii_of_string (s ++ t)
  = (list_ascii_of_string s ++ list_ascii_of_string t)%list.
Proof.
  induction s as [|c s IH]; [done|].
  cbn [list_ascii_of_string app]. rewrite <- IH. reflexivity.
Qed.

Lemma append_inv_tail (s1 s2 t : string) : (s1 ++ t = s2 ++ t)%string -> s1 = s2.
Proof.
  intros Heq. apply (f_equal list_ascii_of_string) in Heq.
  rewrite !list_ascii_of_append in Heq. apply app_inv_tail in Heq.
  rewrite <- (string_of_list_ascii_of_string s1), <- (string_of_list_ascii_of_string s2).
  by rewrite Heq.
Qed.

Lemma append_inv_head (s t1 t2 : string) : (s ++ t1 = s ++ t2)%string -> t1 = t2.
Proof.
  induction s as [|c s IH]; [done|]. intros Heq. apply IH.
  change (String c (s ++ t1) = String c (s ++ t2))%string in Heq. congruence.
Qed.

Lemma Fmt_d_inj (n1 n2 : Z) : Fmt.d n1 = Fmt.d n2 -> n1 = n2.
Proof.
  intros Heq. apply DecimalZ.to_int_inj.
  assert (Hisi : forall z, NilZero.int_of_string (Fmt.d z) = Some (Z.to_int z)).
  { intros z. apply NilZero.isi; destruct z; cbn [Z.to_int]; try discriminate;
      intros [= E]; by apply DecimalPos.Unsigned.to_uint_nonnil in E. }
  pose proof (Hisi n1) as H1. rewrite Heq, Hisi in H1. congruence.
Qed.

(** X5: the message tells the outcome: two error messages are equal only
    for the same status code, two success messages only for the same count,
    and an error message is never a success message. *)
Theorem message_tells_the_outcome (c1 c2 n1 n2 : Z) :
  (errorMessage c1 = errorMessage c2 -> c1 = c2)
  /\ (successMessage n1 = successMessage n2 -> n1 = n2)
  /\ errorMessage c1 <> successMessage n1.
Proof.
  split; [|split].
  - unfold errorMessage. intros Heq. apply append_inv_head in Heq.
    apply append_inv_tail in Heq. by apply Fmt_d_inj.
  - unfold successMessage. intros Heq. apply append_inv_head in Heq.
    apply append_inv_tail in Heq. by apply Fmt_d_inj.
  - discriminate.
Qed.

(** ** One request *)

(** The events of a request, one by one. *)
Lemma served_shape {S} `{Sleeper S} (s : S) (req : Request) (rnd clk : nat -> Z) :
  let sizeStr := Values_Get (Query req) "size" in
  let delay := rnd 0%nat mod 5001 * 1000000 in
  exists code doc,
    getResponseStatusCode (tick (world0 rnd clk))
    = Some (code, tick (tick (tick (world0 rnd clk))))
    /\ served s req rnd clk
       = [EvSetHeader "Content-Type" "application/json"]
         ++ (if sizeInvalid sizeStr then [EvLog (LogInvalidSize sizeStr)] else [])
         ++ [EvLog (LogDelay delay);
             EvSleep delay (Sleep s delay);
             EvWriteHeader code;
             EvLog (if is2xx code then LogSuccess code (effectiveSize sizeStr)
                    else LogError code (errorMessage code));
             EvWriteJSON doc]
    /\ if is2xx code then
         exists docs,
           len docs = effectiveSize sizeStr
           /\ doc = Json.Obj [("readings", Json.Arr docs);
                              ("message",
                               Json.Str (successMessage (effectiveSize sizeStr)))]%string
       else
         doc = Json.Obj [("readings", Json.Null);
                         ("message", Json.Str (errorMessage code))]%string.
Proof.
  intros sizeStr delay.
  destruct (weatherHandler_run s req (world0 rnd clk)) as (code & post & Hrun & Hcode & Hpost).
  fold sizeStr in Hrun, Hpost. cbn [out world0 app] in Hrun.
  change (drawn (world0 rnd clk) 0) with (rnd 0%nat) in Hrun. fold delay in Hrun.
  unfold served. rewrite Hrun. cbn [default].
  exists code. destruct (is2xx code).
  - destruct Hpost as (docs & Hlen & ->). eexists. split; [exact Hcode|].
    split; [|eauto]. rewrite <- app_assoc. reflexivity.
  - rewrite Hpost. eexists. split; [exact Hcode|].
    split; [|reflexivity]. rewrite <- app_assoc. reflexivity.
Qed.

(** X6: the events of a request come in one order: the content type is
    set first, the delay is logged, the sleeper is called, and only then the
    status code is written, the outcome logged and the body written, last
    and once; the line on the size is logged exactly when the parameter is
    not a number of [10, 100]. *)
Theorem request_events_in_order {S} `{Sleeper S} (s : S) (req : Request)
    (rnd clk : nat -> Z) :
  let sizeStr := Values_Get (Query req) "size" in
  let delay := rnd 0%nat mod 5001 * 1000000 in
  exists code doc,
    served s req rnd clk
    = [EvSetHeader "Content-Type" "application/json"]
      ++ (if sizeInvalid sizeStr then [EvLog (LogInvalidSize sizeStr)] else [])
      ++ [EvLog (LogDelay delay);
          EvSleep delay (Sleep s delay);
          EvWriteHeader code;
          EvLog (if is2xx code then LogSuccess code (effectiveSize sizeStr)
                 else LogError code (errorMessage code));
          EvWriteJSON doc]
    /\ (EvLog (LogInvalidSize sizeStr) ∈ served s req rnd clk
        <-> sizeInvalid sizeStr = true).
Proof.
  intros sizeStr delay.
  destruct (served_shape s req rnd clk) as (code & doc & _ & Hshape & _).
  fold sizeStr delay in Hshape.
  exists code, doc. split; [exact Hshape|].
  rewrite Hshape. clear Hshape.
  destruct (sizeInvalid sizeStr).
  - split; [done|]. intros _. rewrite !elem_of_app, !elem_of_cons. tauto.
  - split; [|done]. rewrite !elem_of_app, !elem_of_cons, !elem_of_nil.
    destruct (is2xx code); intuition discriminate.
Qed.

(** ** What a run depends on *)

Lemma sameFuture_refl_out (w : World) (es : list Event) :
  sameFuture {| rng := rng w; clock := clock w; out := es |} w.
Proof. split; reflexivity. Qed.

Lemma sameFuture_sym (w1 w2 : World) : sameFuture w1 w2 -> sameFuture w2 w1.
Proof. intros [Hr Hc]. split; intros k; [rewrite Hr | rewrite Hc]; reflexivity. Qed.

Lemma sameFuture_tick (w1 w2 : World) :
  sameFuture w1 w2 -> sameFuture (tick w1) (tick w2).
Proof.
  intros [Hr Hc]. split; [|exact Hc].
  intros k. specialize (Hr (S k)). unfold drawn in *.
  cbn [tick rng advance feed pos]. rewrite <- !Nat.add_succ_comm. exact Hr.
Qed.

Lemma sameFuture_iter_next (n : nat) (w1 w2 : World) :
  sameFuture w1 w2 -> sameFuture (Nat.iter n next w1) (Nat.iter n next w2).
Proof.
  intros [Hr Hc].
  destruct (iter_next_fields n w1) as (Hf1 & Hp1 & Hcf1 & Hcp1 & _).
  destruct (iter_next_fields n w2) as (Hf2 & Hp2 & Hcf2 & Hcp2 & _).
  split; intros k.
  - unfold drawn in *. rewrite Hf1, Hp1, Hf2, Hp2.
    specialize (Hr (k + 6 * n)%nat).
    rewrite <- !Nat.add_assoc in Hr. exact Hr.
  - rewrite Hcf1, Hcp1, Hcf2, Hcp2.
    specialize (Hc (k + n)%nat). rewrite <- !Nat.add_assoc in Hc. exact Hc.
Qed.

(** The loop body makes the same reading from two worlds with the same
    future. *)
Lemma newReading_sameFuture (w1 w2 w1' w2' : World) (rd1 rd2 : WeatherReading) :
  sameFuture w1 w2 ->
  newReading w1 = Some (rd1, w1') -> newReading w2 = Some (rd2, w2') -> rd1 = rd2.
Proof.
  intros [Hr Hc] H1 H2.
  destruct (newReading_run w1) as (city1 & cond1 & Hcity1 & Hcond1 & Hrun1).
  destruct (newReading_run w2) as (city2 & cond2 & Hcity2 & Hcond2 & Hrun2).
  rewrite Hrun1 in H1. rewrite Hrun2 in H2.
  pose proof (f_equal (fun o => match o with Some (r, _) => r | None => rd1 end) H1) as E1.
  pose proof (f_equal (fun o => match o with Some (r, _) => r | None => rd2 end) H2) as E2.
  cbv beta iota in E1, E2. rewrite <- E1, <- E2.
  rewrite (Hr 0%nat) in Hcity1. rewrite (Hr 5%nat) in Hcond1.
  assert (city1 = city2) as -> by congruence.
  assert (cond1 = cond2) as -> by congruence.
  rewrite (Hr 1%nat), (Hr 2%nat), (Hr 3%nat), (Hr 4%nat).
  change (peek (clock w1)) with (feed (clock w1) (0 + pos (clock w1))).
  rewrite (Hc 0%nat). reflexivity.
Qed.

(** So does the generator. *)
Lemma generate_sameFuture (count : Z) (w1 w2 w1' w2' : World)
    (rs1 rs2 : list WeatherReading) :
  sameFuture w1 w2 ->
  generateDummyWeatherReadings count w1 = Some (rs1, w1') ->
  generateDummyWeatherReadings count w2 = Some (rs2, w2') ->
  rs1 = rs2 /\ sameFuture w1' w2'.
Proof.
  intros Hsame H1 H2.
  destruct (Z.ltb_spec count 0) as [Hneg|Hpos].
  { rewrite generateDummyWeatherReadings_negative in H1 by done. discriminate H1. }
  destruct (Z.ltb_spec maxAlloc (sizeofWeatherReading * count)) as [Hlong|Hmem].
  { rewrite generateDummyWeatherReadings_too_long in H1 by done. discriminate H1. }
  destruct (generateDummyWeatherReadings_run count w1 Hpos Hmem) as (r1 & Hr1 & Hl1 & Hn1).
  destruct (generateDummyWeatherReadings_run count w2 Hpos Hmem) as (r2 & Hr2 & Hl2 & Hn2).
  rewrite Hr1 in H1. rewrite Hr2 in H2.
  injection H1 as -> <-. injection H2 as -> <-.
  split; [|by apply sameFuture_iter_next].
  unfold len in Hl1, Hl2. apply list_eq. intros j.
  destruct (decide (j < Z.to_nat count)%nat) as [Hj|Hj].
  - destruct (Hn1 j Hj) as (rd1 & -> & Hrd1).
    destruct (Hn2 j Hj) as (rd2 & -> & Hrd2).
    f_equal. eapply newReading_sameFuture; [|exact Hrd1|exact Hrd2].
    by apply sameFuture_iter_next.
  - rewrite !lookup_ge_None_2 by lia. reflexivity.
Qed.

(** And the choice of the status code. *)
Lemma status_sameFuture (w1 w2 w1' w2' : World) (c1 c2 : Z) :
  sameFuture w1 w2 ->
  getResponseStatusCode w1 = Some (c1, w1') ->
  getResponseStatusCode w2 = Some (c2, w2') ->
  c1 = c2.
Proof.
  intros [Hr _] H1 H2.
  destruct (getResponseStatusCode_run w1) as (c & Hc & Hlook).
  destruct (getResponseStatusCode_run w2) as (c' & Hc' & Hlook').
  rewrite Hc in H1. rewrite Hc' in H2. injection H1 as <- _. injection H2 as <- _.
  rewrite (Hr 0%nat), (Hr 1%nat) in Hlook.
  destruct Hlook as [[? E]|[[? E]|[? E]]], Hlook' as [[? E']|[[? E']|[? E']]];
    try lia; congruence.
Qed.

(** ** The whole of a request *)

(** The result of the handler from any world: the status code is the one
    the source gives after the delay, the readings are those the generator
    makes after the status code, and the world is left where the generator,
    or the choice of the status code, left it. *)
Lemma weatherHandler_full {S} `{Sleeper S} (s : S) (req : Request) (w : World) :
  let sizeStr := Values_Get (Query req) "size" in
  let size := effectiveSize sizeStr in
  let delay := drawn w 0 mod 5001 * 1000000 in
  let pre := [EvSetHeader "Content-Type" "application/json"]
             ++ (if sizeInvalid sizeStr then [EvLog (LogInvalidSize sizeStr)] else [])
             ++ [EvLog (LogDelay delay); EvSleep delay (Sleep s delay)] in
  exists code w',
    getResponseStatusCode (tick w) = Some (code, tick (tick (tick w)))
    /\ weatherHandler s req w = Some (tt, w')
    /\ if is2xx code then
         exists rs docs w3,
           generateDummyWeatherReadings size (tick (tick (tick w))) = Some (rs, w3)
           /\ mapM marshalReading rs = Some docs
           /\ sameFuture w' w3
           /\ out w' = out w ++ pre
                       ++ [EvWriteHeader code;
                           EvLog (LogSuccess code size);
                           EvWriteJSON
                             (Json.Obj [("readings", Json.Arr docs);
                                        ("message", Json.Str (successMessage size))]%string)]
       else
         sameFuture w' (tick (tick (tick w)))
         /\ out w' = out w ++ pre
                     ++ [EvWriteHeader code;
                         EvLog (LogError code (errorMessage code));
                         EvWriteJSON
                           (Json.Obj [("readings", Json.Null);
                                      ("message", Json.Str (errorMessage code))]%string)].
Proof.
  intros sizeStr size delay pre.
  pose proof (effectiveSize_range sizeStr) as Hsize. fold size in Hsize.
  pose proof (Z.mod_pos_bound (drawn w 0) 5001 ltac:(lia)) as Hms.
  destruct (getResponseStatusCode_run (tick w)) as (code & Hcode & _).
  exists code.
  unfold weatherHandler. fold sizeStr.
  unfold bind at 1, emit at 1, emits at 1.
  destruct (Strconv.Atoi sizeStr) as [n err] eqn:EA.
  set (invalid := match err with Some _ => true | None => false end
                  || (n <? 10) || (100 <? n)).
  assert (Hinv : sizeInvalid sizeStr = invalid).
  { unfold sizeInvalid. rewrite EA. reflexivity. }
  assert (Heff : size = if invalid then 10 else n).
  { unfold size, effectiveSize. rewrite Hinv, EA. reflexivity. }
  assert (Hlog : (if invalid
                  then emit (EvLog (LogInvalidSize sizeStr)) ;; ret 10 else ret n)
                   (say [EvSetHeader "Content-Type" "application/json"] w)
                 = Some (size,
                         {| rng := rng w; clock := clock w;
                            out := out w ++ [EvSetHeader "Content-Type" "application/json"]
                                   ++ (if sizeInvalid sizeStr
                                       then [EvLog (LogInvalidSize sizeStr)] else []) |})).
  { rewrite Heff, Hinv.
    destruct invalid; unfold bind, emit, emits, ret, say; cbn [rng clock out].
    - rewrite <- app_assoc. done.
    - rewrite app_nil_r. done. }
  rewrite (bind_Some _ _ _ _ _ Hlog). clear Hlog Hinv Heff. clearbody invalid.
  unfold bind at 1. rewrite Intn_run by reflexivity. cbn [rng].
  change (peek (rng w)) with (drawn w 0).
  rewrite mul_milliseconds by lia. fold delay.
  unfold bind at 1, emit at 1, emits at 1.
  unfold bind at 1, emit at 1, emits at 1.
  match goal with
  | |- context [bind getResponseStatusCode _ ?wa] =>
      destruct (getResponseStatusCode_run wa) as (code' & Hcode' & _);
      rewrite (bind_Some _ _ _ _ _ Hcode');
      assert (Hsa : sameFuture wa (tick w)) by (split; reflexivity);
      assert (code' = code) as -> by exact (status_sameFuture _ _ _ _ _ _ Hsa Hcode' Hcode)
  end.
  unfold bind at 1, emit at 1, emits at 1.
  change ((200 <=? code) && (code <? 300)) with (is2xx code).
  unfold bind at 1.
  destruct (is2xx code) eqn:E2xx.
  - match goal with
    | |- context [bind (generateDummyWeatherReadings _) _ ?wb] =>
        destruct (generateDummyWeatherReadings_run size wb ltac:(lia)
                    (make_accepts_100 size ltac:(lia)))
          as (rs' & Hgen' & Hlen' & _);
        destruct (generateDummyWeatherReadings_run size (tick (tick (tick w))) ltac:(lia)
                    (make_accepts_100 size ltac:(lia)))
          as (rs & Hgen & Hlen & Hnew);
        assert (Hsf : sameFuture wb (tick (tick (tick w)))) by (split; reflexivity);
        destruct (generate_sameFuture _ _ _ _ _ _ _ Hsf Hgen' Hgen) as [-> Hfut]
    end.
    destruct (marshal_readings rs) as (docs & Hdocs & Hdlen).
    { apply Forall_lookup_2. intros j rd Hj.
      destruct (Hnew j) as (rd' & Hrd' & Hrun).
      - apply lookup_lt_Some in Hj. unfold len in Hlen. lia.
      - rewrite Hj in Hrd'. injection Hrd' as <-.
        by destruct (newReading_in_range _ _ _ Hrun). }
    rewrite (bind_Some _ _ _ _ _ Hgen').
    unfold bind at 1, emit at 1, emits at 1, ret at 1.
    unfold Encode, marshalResponse. cbn [Readings Message].
    rewrite Hdocs, Hlen. cbn [fmap option_fmap option_map].
    rewrite successMessage_nonempty.
    eexists. split; [exact Hcode|]. split; [reflexivity|].
    eexists rs, docs, _. split; [exact Hgen|]. split; [exact Hdocs|]. split.
    + destruct Hfut as [Hr Hc]. split; intros k; [apply Hr | apply Hc].
    + match goal with
      | |- context [Nat.iter ?k next ?wb] =>
          destruct (iter_next_fields k wb) as (_ & _ & _ & _ & Hout)
      end.
      cbn [out emit emits say] in Hout |- *. rewrite Hout. cbn [out say tick]. unfold pre.
      rewrite <- !app_assoc. reflexivity.
  - unfold bind at 1, emit at 1, emits at 1, ret at 1.
    unfold Encode. rewrite marshalResponse_nil by (intros E; discriminate E).
    eexists. split; [exact Hcode|]. split; [reflexivity|]. split.
    + split; reflexivity.
    + unfold emit, emits, say. cbn [out rng clock tick]. unfold pre.
      rewrite <- !app_assoc. reflexivity.
Qed.

Lemma sameFuture_trans (w1 w2 w3 : World) :
  sameFuture w1 w2 -> sameFuture w2 w3 -> sameFuture w1 w3.
Proof.
  intros [Hr Hc] [Hr' Hc']. split; intros k; [rewrite Hr | rewrite Hc]; done.
Qed.

Lemma served_out {S} `{Sleeper S} (s : S) (req : Request) (rnd clk : nat -> Z) (w' : World) :
  weatherHandler s req (world0 rnd clk) = Some (tt, w') -> served s req rnd clk = out w'.
Proof. intros Hrun. unfold served, trace. rewrite Hrun. reflexivity. Qed.

(** X7: the two sleepers under the handler.  With the sleeper of [main]
    every request calls [time.Sleep] once, for the drawn delay, which is at
    most five seconds; with the no-op sleeper of the tests [time.Sleep] is
    never called and the call is logged with the same delay; the status and
    the body are the same with both. *)
Theorem sleepers_under_the_handler (req : Request) (rnd clk : nat -> Z) :
  let delay := rnd 0%nat mod 5001 * 1000000 in
  trace (mainWeather req) (world0 rnd clk)
  = Some (served mkDefaultSleeper req rnd clk)
  /\ timeSleeps (served mkDefaultSleeper req rnd clk) = [delay]
  /\ 0 <= delay <= 5 * 1000000000
  /\ timeSleeps (served mkNoOpSleeper req rnd clk) = []
  /\ LogNoOpSleeper delay ∈ logged (served mkNoOpSleeper req rnd clk)
  /\ statuses (served mkNoOpSleeper req rnd clk)
     = statuses (served mkDefaultSleeper req rnd clk)
  /\ bodies (served mkNoOpSleeper req rnd clk)
     = bodies (served mkDefaultSleeper req rnd clk).
Proof.
  intros delay.
  pose proof (Z.mod_pos_bound (rnd 0%nat) 5001 ltac:(lia)) as Hms.
  destruct (weatherHandler_full mkDefaultSleeper req (world0 rnd clk))
    as (code & wd & Hcode & Hrund & Hd).
  destruct (weatherHandler_full mkNoOpSleeper req (world0 rnd clk))
    as (code' & wn & Hcode' & Hrunn & Hn).
  rewrite Hcode in Hcode'. injection Hcode' as <-.
  rewrite (served_out _ _ _ _ _ Hrund), (served_out _ _ _ _ _ Hrunn).
  change (drawn (world0 rnd clk) 0) with (rnd 0%nat) in Hd, Hn. fold delay in Hd, Hn.
  assert (Hout : exists pre post,
             out wd = pre ++ [EvLog (LogDelay delay); EvSleep delay [TimeSleep delay]] ++ post
             /\ out wn = pre ++ [EvLog (LogDelay delay);
                                 EvSleep delay [Printf (LogNoOpSleeper delay)]] ++ post
             /\ timeSleeps pre = [] /\ timeSleeps post = []).
  { exists ([EvSetHeader "Content-Type" "application/json"]
            ++ (if sizeInvalid (Values_Get (Query req) "size")
                then [EvLog (LogInvalidSize (Values_Get (Query req) "size"))] else [])).
    destruct (is2xx code).
    - destruct Hd as (rs & docs & w3 & Hgen & Hdocs & _ & Houtd).
      destruct Hn as (rs' & docs' & w3' & Hgen' & Hdocs' & _ & Houtn).
      rewrite Hgen in Hgen'. injection Hgen' as <- _.
      rewrite Hdocs in Hdocs'. injection Hdocs' as <-.
      eexists. rewrite Houtd, Houtn. cbn [out world0 app].
      rewrite <- !app_assoc. cbn [app].
      split; [reflexivity|]. split; [reflexivity|].
      split; [destruct (sizeInvalid _); reflexivity | reflexivity].
    - destruct Hd as (_ & Houtd). destruct Hn as (_ & Houtn).
      eexists. rewrite Houtd, Houtn. cbn [out world0 app].
      rewrite <- !app_assoc. cbn [app].
      split; [reflexivity|]. split; [reflexivity|].
      split; [destruct (sizeInvalid _); reflexivity | reflexivity]. }
  destruct Hout as (pre & post & Ewd & Ewn & Hpre & Hpost). rewrite Ewd, Ewn.
  assert (Hts : forall l1 l2, timeSleeps (l1 ++ l2) = timeSleeps l1 ++ timeSleeps l2).
  { intros l1 l2. unfold timeSleeps. apply bind_app. }
  assert (Hlg : forall l1 l2, logged (l1 ++ l2) = logged l1 ++ logged l2).
  { intros l1 l2. unfold logged. apply bind_app. }
  split; [|split; [|split; [|split; [|split; [|split]]]]].
  - unfold mainWeather, trace. rewrite Hrund, Ewd. reflexivity.
  - rewrite !Hts, Hpre, Hpost. reflexivity.
  - unfold delay. lia.
  - rewrite !Hts, Hpre, Hpost. reflexivity.
  - rewrite !Hlg, !elem_of_app. right. left. cbn. set_unfold. tauto.
  - unfold statuses. rewrite !omap_app. reflexivity.
  - unfold bodies. rewrite !omap_app. reflexivity.
Qed.

Lemma sameFuture_after_iter_next (n : nat) (w : World) :
  sameFuture (Nat.iter n next (tick (tick (tick w)))) (after (3 + 6 * n) n w).
Proof.
  destruct (iter_next_fields n (tick (tick (tick w)))) as (Hf & Hp & Hcf & Hcp & _).
  split; intros k; unfold drawn, after; cbn [rng clock feed pos].
  - rewrite Hf, Hp. cbn [tick rng advance feed pos]. f_equal. lia.
  - rewrite Hcf, Hcp. cbn [tick clock]. f_equal.
Qed.

(** Where a request leaves the world, and the status code it wrote. *)
Lemma weatherHandler_leaves {S} `{Sleeper S} (s : S) (req : Request) (w : World) :
  let size := Z.to_nat (effectiveSize (Values_Get (Query req) "size")) in
  exists code w',
    weatherHandler s req w = Some (tt, w')
    /\ getResponseStatusCode (tick w) = Some (code, tick (tick (tick w)))
    /\ sameFuture w' (after (if is2xx code then 3 + 6 * size else 3)
                            (if is2xx code then size else 0) w).
Proof.
  intros size.
  destruct (weatherHandler_full s req w) as (code & w' & Hcode & Hrun & Hcase).
  exists code, w'. split; [exact Hrun|]. split; [exact Hcode|].
  pose proof (effectiveSize_range (Values_Get (Query req) "size")) as Hsize.
  destruct (is2xx code).
  - destruct Hcase as (rs & docs & w3 & Hgen & _ & Hfut & _).
    assert (H0 : 0 <= effectiveSize (Values_Get (Query req) "size")) by lia.
    destruct (generateDummyWeatherReadings_run _ (tick (tick (tick w))) H0
                (make_accepts_100 _ (proj2 Hsize)))
      as (rs' & Hgen' & _).
    rewrite Hgen in Hgen'. injection Hgen' as _ ->.
    eapply sameFuture_trans; [exact Hfut|]. apply sameFuture_after_iter_next.
  - destruct Hcase as (Hfut & _). eapply sameFuture_trans; [exact Hfut|].
    split; reflexivity.
Qed.

(** X8: a request makes three calls on the random source [r] when its
    status code is outside 2xx (the delay, the class of the code, the
    index in its table), and three and six for each reading when it is
    2xx; it reads the clock once for each reading; so it never makes more
    than 603 calls on [r], whatever the size parameter.  The calls are
    counted, not the values that math/rand takes from its [rand.Source]
    for them. *)
Theorem request_calls_on_r {S} `{Sleeper S} (s : S) (req : Request) (w : World) :
  let size := Z.to_nat (effectiveSize (Values_Get (Query req) "size")) in
  exists code w' calls read,
    weatherHandler s req w = Some (tt, w')
    /\ getResponseStatusCode (tick w) = Some (code, tick (tick (tick w)))
    /\ calls = (if is2xx code then 3 + 6 * size else 3)%nat
    /\ read = (if is2xx code then size else 0)%nat
    /\ sameFuture w' (after calls read w)
    /\ (3 <= calls <= 603)%nat.
Proof.
  intros size.
  destruct (weatherHandler_leaves s req w) as (code & w' & Hrun & Hcode & Hfut).
  fold size in Hfut.
  pose proof (effectiveSize_range (Values_Get (Query req) "size")) as Hsize.
  exists code, w', (if is2xx code then 3 + 6 * size else 3)%nat,
    (if is2xx code then size else 0)%nat.
  split; [exact Hrun|]. split; [exact Hcode|]. split; [reflexivity|].
  split; [reflexivity|]. split; [exact Hfut|].
  unfold size. destruct (is2xx code); lia.
Qed.

(** X9: the [readings] of a body are never the empty array and never more
    than a hundred readings: the value is [null], or an array of at least 10
    and at most 100 readings, whatever the size parameter. *)
Theorem readings_null_or_10_to_100 {S} `{Sleeper S} (s : S) (req : Request)
    (rnd clk : nat -> Z) :
  exists doc,
    bodies (served s req rnd clk) = [doc]
    /\ (Json.field "readings" doc = Some Json.Null
        \/ exists docs,
             Json.field "readings" doc = Some (Json.Arr docs)
             /\ 10 <= len docs <= 100).
Proof.
  destruct (served_shape s req rnd clk) as (code & doc & _ & Hshape & Hdoc).
  pose proof (effectiveSize_range (Values_Get (Query req) "size")) as Hsize.
  exists doc. split.
  - rewrite Hshape. destruct (sizeInvalid _); reflexivity.
  - destruct (is2xx code).
    + destruct Hdoc as (docs & Hlen & ->). right. exists docs. split; [reflexivity | lia].
    + rewrite Hdoc. left. reflexivity.
Qed.

(** Two worlds with the same future give the same events and are left
    with the same future. *)
Lemma weatherHandler_sameFuture {S} `{Sleeper S} (s : S) (req : Request)
    (w1 w2 w1' w2' : World) :
  sameFuture w1 w2 ->
  weatherHandler s req w1 = Some (tt, w1') ->
  weatherHandler s req w2 = Some (tt, w2') ->
  exists es, out w1' = out w1 ++ es /\ out w2' = out w2 ++ es /\ sameFuture w1' w2'.
Proof.
  intros Hsame H1 H2.
  destruct (weatherHandler_full s req w1) as (c1 & v1 & Hc1 & Hr1 & Hcase1).
  destruct (weatherHandler_full s req w2) as (c2 & v2 & Hc2 & Hr2 & Hcase2).
  rewrite H1 in Hr1. injection Hr1 as <-. rewrite H2 in Hr2. injection Hr2 as <-.
  pose proof (status_sameFuture _ _ _ _ _ _ (sameFuture_tick _ _ Hsame) Hc1 Hc2) as <-.
  pose proof (proj1 Hsame 0%nat) as Hd. rewrite <- Hd in Hcase2.
  pose proof (sameFuture_tick _ _ (sameFuture_tick _ _ (sameFuture_tick _ _ Hsame))) as H3.
  destruct (is2xx c1).
  - destruct Hcase1 as (rs1 & docs1 & u1 & Hg1 & Hm1 & Hf1 & ->).
    destruct Hcase2 as (rs2 & docs2 & u2 & Hg2 & Hm2 & Hf2 & ->).
    destruct (generate_sameFuture _ _ _ _ _ _ _ H3 Hg1 Hg2) as [<- Hu].
    rewrite Hm1 in Hm2. injection Hm2 as <-.
    eexists. split; [reflexivity|]. split; [reflexivity|].
    eapply sameFuture_trans; [exact Hf1|].
    eapply sameFuture_trans; [exact Hu|]. by apply sameFuture_sym.
  - destruct Hcase1 as (Hf1 & ->). destruct Hcase2 as (Hf2 & ->).
    eexists. split; [reflexivity|]. split; [reflexivity|].
    eapply sameFuture_trans; [exact Hf1|].
    eapply sameFuture_trans; [exact H3|]. by apply sameFuture_sym.
Qed.

(** X10: requests share the random source [r], the clock and nothing
    else: what a second request does is what it does alone when its calls
    on [r] and its readings of the clock give what those after the calls
    and the readings of the first request give; the first request makes 3
    calls on [r], or 3 and 6 for each reading when its status code is 2xx.
    The calls are counted, not the values that math/rand takes from its
    [rand.Source] for them. *)
Theorem requests_in_sequence {S} `{Sleeper S} (s : S) (req1 req2 : Request)
    (rnd clk : nat -> Z) :
  let size1 := Z.to_nat (effectiveSize (Values_Get (Query req1) "size")) in
  exists code1 calls read,
    statuses (served s req1 rnd clk) = [code1]
    /\ calls = (if is2xx code1 then 3 + 6 * size1 else 3)%nat
    /\ read = (if is2xx code1 then size1 else 0)%nat
    /\ trace (weatherHandler s req1 ;; weatherHandler s req2) (world0 rnd clk)
       = Some (served s req1 rnd clk ++ served s req2 (skip calls rnd) (skip read clk)).
Proof.
  intros size1.
  destruct (weatherHandler_leaves s req1 (world0 rnd clk)) as (code1 & w1 & Hrun1 & Hcode1 & Hfut1).
  fold size1 in Hfut1.
  set (used := (if is2xx code1 then 3 + 6 * size1 else 3)%nat) in *.
  set (read := (if is2xx code1 then size1 else 0)%nat) in *.
  exists code1, used, read.
  destruct (weatherHandler_observed s req1 rnd clk)
    as (es & c & doc & Htr & Hst & _ & _ & Hc & _).
  rewrite Hcode1 in Hc. injection Hc as <-.
  assert (Hes : served s req1 rnd clk = es) by (unfold served; rewrite Htr; reflexivity).
  split; [rewrite Hes; exact Hst|]. split; [reflexivity|]. split; [reflexivity|].
  destruct (weatherHandler_leaves s req2 w1) as (c2 & w2 & Hrun2 & _).
  destruct (weatherHandler_leaves s req2 (world0 (skip used rnd) (skip read clk)))
    as (c2' & w2' & Hrun2' & _).
  assert (Hsame : sameFuture w1 (world0 (skip used rnd) (skip read clk))).
  { eapply sameFuture_trans; [exact Hfut1|].
    split; intros k; unfold drawn, after, skip; cbn [world0 rng clock feed pos];
      f_equal; lia. }
  destruct (weatherHandler_sameFuture s req2 _ _ _ _ Hsame Hrun2 Hrun2')
    as (es2 & Ho2 & Ho2' & _).
  unfold trace. rewrite (bind_Some _ _ _ _ _ Hrun1), Hrun2.
  rewrite (served_out _ _ _ _ _ Hrun1), (served_out _ _ _ _ _ Hrun2').
  rewrite Ho2, Ho2'. reflexivity.
Qed.

(** ** The tests *)

Lemma status_listed (w w' : World) (code : Z) :
  getResponseStatusCode w = Some (code, w') ->
  code ∈ statusCodes2xx ++ statusCodes4xx ++ statusCodes5xx.
Proof.
  intros Hrun.
  destruct (getResponseStatusCode_run w) as (c & Hc & Hlook).
  rewrite Hrun in Hc. injection Hc as <- _.
  rewrite !elem_of_app.
  destruct Hlook as [[_ Hl] | [[_ Hl] | [_ Hl]]];
    apply list_elem_of_lookup_2 in Hl; tauto.
Qed.

(** A status code of the tables is one that the recorder takes, and it is
    2xx or at least 400. *)
Lemma status_classes (code : Z) :
  code ∈ statusCodes2xx ++ statusCodes4xx ++ statusCodes5xx ->
  ((code <? 100) || (999 <? code) = false)
  /\ (400 <=? code) = negb (is2xx code)
  /\ ((code <? 200) || (300 <=? code)) = negb (is2xx code).
Proof.
  rewrite !elem_of_app, in_2xx, in_4xx, in_5xx.
  intros H; repeat destruct H as [H | H]; subst code; repeat split; reflexivity.
Qed.

Lemma Header_Get_Set (h : gmap string (list string)) (key val : string) :
  Header_Get (Header_Set h key val) key = val.
Proof. unfold Header_Get, Header_Set. rewrite lookup_insert_eq. reflexivity. Qed.

Lemma size_of_req_size (v : string) : Values_Get (Query (req_size v)) "size" = v.
Proof. unfold Values_Get, req_size. cbn [Query]. rewrite lookup_singleton_eq. reflexivity. Qed.

Lemma size_of_req_none : Values_Get (Query req_none) "size" = ""%string.
Proof. reflexivity. Qed.

(** What the recorder holds after the calls of the handler. *)
Lemma record_weather `{Library} (invalid : list Event) (delay : Time.Duration)
    (did : list SleeperEffect) (code : Z) (line : LogLine) (doc : Json.value) :
  (code <? 100) || (999 <? code) = false ->
  (invalid = [] \/ exists l, invalid = [EvLog l]) ->
  record ([EvSetHeader "Content-Type" "application/json"] ++ invalid
          ++ [EvLog (LogDelay delay); EvSleep delay did]
          ++ [EvWriteHeader code; EvLog line; EvWriteJSON doc]) NewRecorder
  = Some {| Code := code;
            HeaderMap := Header_Set ∅ "Content-Type" "application/json";
            Body := [ChunkJSON doc];
            wroteHeader := true |}.
Proof.
  intros Hcode [-> | [l ->]];
    cbn [app record onRecorder NewRecorder Code HeaderMap Body wroteHeader];
    unfold Recorder_WriteHeader; cbn [wroteHeader]; rewrite Hcode;
    reflexivity.
Qed.

(** A request against a recorder: the status code is the one drawn, the
    body is the one document, which is the response marshalled. *)
Lemma recorded_weatherHandler `{Library} {S} `{Sleeper S} (s : S) (req : Request)
    (w : World) :
  let size := effectiveSize (Values_Get (Query req) "size") in
  exists code doc resp w',
    recorded (weatherHandler s req) w
    = Some ({| Code := code;
               HeaderMap := Header_Set ∅ "Content-Type" "application/json";
               Body := [ChunkJSON doc];
               wroteHeader := true |}, w')
    /\ getResponseStatusCode (tick w) = Some (code, tick (tick (tick w)))
    /\ marshalResponse resp = Some doc
    /\ statuses (out w') = statuses (out w) ++ [code]
    /\ bodies (out w') = bodies (out w) ++ [doc]
    /\ String.eqb (Message resp) "" = false
    /\ isNil (Readings resp) = negb (is2xx code)
    /\ lenSlice (Readings resp) = (if is2xx code then size else 0)
    /\ (400 <=? code) = negb (is2xx code)
    /\ ((code <? 200) || (300 <=? code)) = negb (is2xx code).
Proof.
  intros size.
  set (w0 := {| rng := rng w; clock := clock w; out := [] |}).
  destruct (weatherHandler_full s req w0) as (code & w' & Hcode & Hrun & Hcase).
  destruct (getResponseStatusCode_run (tick w)) as (code' & Hcode' & _).
  assert (Hsf : sameFuture (tick w0) (tick w)) by (split; reflexivity).
  pose proof (status_sameFuture _ _ _ _ _ _ Hsf Hcode Hcode') as <-.
  destruct (status_classes code (status_listed _ _ _ Hcode)) as (Hok & H400 & Hnon).
  fold size in Hcase. change (out w0) with (@nil Event) in Hcase.
  assert (Hinv : (if sizeInvalid (Values_Get (Query req) "size")
                  then [EvLog (LogInvalidSize (Values_Get (Query req) "size"))]
                  else []) = []
                 \/ exists l, (if sizeInvalid (Values_Get (Query req) "size")
                               then [EvLog (LogInvalidSize (Values_Get (Query req) "size"))]
                               else []) = [EvLog l]).
  { destruct (sizeInvalid _); [right; eexists; reflexivity | left; reflexivity]. }
  pose proof (effectiveSize_range (Values_Get (Query req) "size")) as Hsize.
  fold size in Hsize.
  destruct (is2xx code) eqn:E2.
  - destruct Hcase as (rs & docs & w3 & Hgen & Hdocs & _ & Hout).
    assert (Hpos : 0 <= size) by lia.
    destruct (generateDummyWeatherReadings_run size (tick (tick (tick w0))) Hpos
                (make_accepts_100 size (proj2 Hsize)))
      as (rs' & Hgen' & Hlen & _).
    rewrite Hgen in Hgen'. injection Hgen' as <- _.
    eexists code, _, {| Readings := Some rs; Message := successMessage size |}, _.
    rewrite E2. split.
    { unfold recorded. fold w0. rewrite Hrun, Hout. rewrite app_nil_l.
      rewrite <- !app_assoc.
      rewrite (record_weather _ _ _ _ _ _ Hok Hinv). reflexivity. }
    split; [exact Hcode'|].
    split.
    { unfold marshalResponse. cbn [Readings Message]. rewrite Hdocs.
      rewrite successMessage_nonempty. reflexivity. }
    cbn [out]. unfold statuses, bodies. rewrite !omap_app.
    destruct Hinv as [-> | [l ->]]; cbn [omap app]; rewrite ?app_nil_r;
      (split; [reflexivity|]); (split; [reflexivity|]);
      (split; [apply successMessage_nonempty|]);
      (split; [reflexivity|]); (split; [exact Hlen|]); (split; [exact H400 | exact Hnon]).
  - destruct Hcase as (_ & Hout).
    eexists code, _, {| Readings := None; Message := errorMessage code |}, _.
    rewrite E2. split.
    { unfold recorded. fold w0. rewrite Hrun, Hout. rewrite app_nil_l.
      rewrite <- !app_assoc.
      rewrite (record_weather _ _ _ _ _ _ Hok Hinv). reflexivity. }
    split; [exact Hcode'|].
    split; [reflexivity|].
    cbn [out]. unfold statuses, bodies. rewrite !omap_app.
    destruct Hinv as [-> | [l ->]]; cbn [omap app]; rewrite ?app_nil_r;
      (split; [reflexivity|]); (split; [reflexivity|]);
      (split; [apply errorMessage_nonempty|]);
      (split; [reflexivity|]); (split; [reflexivity|]); (split; [exact H400 | exact Hnon]).
Qed.

Lemma read_marshalled (rd : WeatherReading) (doc : Json.value) :
  marshalReading rd = Some doc -> readReading doc = Some rd.
Proof.
  unfold marshalReading. destruct (F64.is_finite (Temperature rd)); [|discriminate].
  intros [= <-]. destruct rd. reflexivity.
Qed.

(** The library on the documents has the law. *)
Lemma documentLibrary_readsBack : readsBack documentLibrary.
Proof.
  intros resp doc v Hm. unfold marshalResponse in Hm.
  cbn [Decode documentLibrary].
  destruct (Readings resp) as [rs|] eqn:ER.
  - destruct (mapM marshalReading rs) as [docs|] eqn:EM; [|discriminate].
    assert (Hread : mapM readReading docs = Some rs).
    { apply mapM_Some. apply mapM_Some in EM.
      apply Forall2_flip. eapply Forall2_impl; [exact EM|].
      intros rd d. apply read_marshalled. }
    cbn in Hm. injection Hm as <-.
    destruct (String.eqb (Message resp) "") eqn:EMsg.
    + eexists. unfold readResponse. cbn [app Json.field find fst snd fmap option_fmap option_map].
      cbn. rewrite Hread. split; [reflexivity|].
      split; [reflexivity|]. split; [reflexivity|]. cbn [Message]. reflexivity.
    + eexists. unfold readResponse. cbn. rewrite Hread. split; [reflexivity|].
      split; [reflexivity|]. split; [reflexivity|]. cbn [Message]. exact EMsg.
  - cbn in Hm. injection Hm as <-.
    destruct (String.eqb (Message resp) "") eqn:EMsg.
    + eexists. unfold readResponse. cbn. split; [reflexivity|].
      split; [reflexivity|]. split; [reflexivity|]. reflexivity.
    + eexists. unfold readResponse. cbn. split; [reflexivity|].
      split; [reflexivity|]. split; [reflexivity|]. exact EMsg.
Qed.

(** A request against a recorder, and its body read back. *)
Lemma recorded_decoded (L : Library) (HL : readsBack L) {S} `{Sleeper S} (s : S)
    (req : Request) (w : World) (v : DataResponse) :
  let size := effectiveSize (Values_Get (Query req) "size") in
  exists rr r w',
    recorded (weatherHandler s req) w = Some (rr, w')
    /\ Header_Get (HeaderMap rr) "Content-Type" = "application/json"%string
    /\ Decode (Body rr) v = (None, r)
    /\ String.eqb (Message r) "" = false
    /\ isNil (Readings r) = negb (is2xx (Code rr))
    /\ lenSlice (Readings r) = (if is2xx (Code rr) then size else 0)
    /\ (400 <=? Code rr) = negb (is2xx (Code rr))
    /\ ((Code rr <? 200) || (300 <=? Code rr)) = negb (is2xx (Code rr))
    /\ statuses (out w') = statuses (out w) ++ [Code rr].
Proof.
  intros size.
  destruct (recorded_weatherHandler s req w)
    as (code & doc & resp & w' & Hrec & _ & Hdoc & Hst & _ & Hmsg & Hnil & Hlen & H400 & Hnon).
  destruct (HL resp doc v Hdoc) as (r & Hdec & Hn & Hl & Hm).
  eexists _, r, w'. split; [exact Hrec|]. cbn [Code HeaderMap Body].
  split; [apply Header_Get_Set|]. split; [exact Hdec|].
  split; [rewrite Hm, Hmsg; reflexivity|].
  split; [rewrite Hn; exact Hnil|]. split; [rewrite Hl; exact Hlen|].
  split; [exact H400|]. split; [exact Hnon | exact Hst].
Qed.

Lemma effectiveSize_req_none : effectiveSize (Values_Get (Query req_none) "size") = 10.
Proof. reflexivity. Qed.

Lemma effectiveSize_req_size (v : string) :
  effectiveSize (Values_Get (Query (req_size v)) "size") = effectiveSize v.
Proof. rewrite size_of_req_size. reflexivity. Qed.

(** X11: a request against the recorder of the tests.  The recorder never
    panics on the status code; it keeps the code that was drawn, not the
    200 that a body written first would give; the content type is the one
    the handler set, none is found from the bytes; the body is the one
    document. *)
Theorem recorder_after_a_request `{Library} {S} `{Sleeper S} (s : S) (req : Request)
    (w : World) :
  exists rr w' doc,
    recorded (weatherHandler s req) w = Some (rr, w')
    /\ getResponseStatusCode (tick w) = Some (Code rr, tick (tick (tick w)))
    /\ HeaderMap rr = {[ "Content-Type"%string := ["application/json"%string] ]}
    /\ Body rr = [ChunkJSON doc]
    /\ bodies (out w') = bodies (out w) ++ [doc]
    /\ statuses (out w') = statuses (out w) ++ [Code rr].
Proof.
  destruct (recorded_weatherHandler s req w)
    as (code & doc & resp & w' & Hrec & Hcode & _ & Hst & Hbd & _).
  eexists _, w', doc. split; [exact Hrec|]. cbn [Code HeaderMap Body].
  split; [exact Hcode|]. split; [apply insert_empty|]. split; [reflexivity|].
  split; [exact Hbd | exact Hst].
Qed.

Lemma Forall_2xx_snoc (cs : list Z) (c : Z) :
  Forall (fun c => is2xx c = true) (cs ++ [c])
  <-> Forall (fun c => is2xx c = true) cs /\ is2xx c = true.
Proof. rewrite Forall_app, Forall_singleton. reflexivity. Qed.

(** X12: [TestWeatherHandlerSuccess] passes on every random source, with a
    library that reads back what the encoder wrote.  It makes one to three
    requests, going on after a 2xx code only, and prints nothing exactly
    when it made the three and all were 2xx. *)
Theorem TestWeatherHandlerSuccess_passes (L : Library) (HL : readsBack L)
    (t : Testing.T) (w : World) :
  exists t' w' codes logs,
    TestWeatherHandlerSuccess t w = Some (t', w')
    /\ Testing.failed t' = Testing.failed t
    /\ Testing.output t' = Testing.output t ++ logs
    /\ statuses (out w') = statuses (out w) ++ codes
    /\ (1 <= length codes <= 3)%nat
    /\ Forall (fun c => is2xx c = true) (removelast codes)
    /\ (logs = [] <-> length codes = 3%nat /\ Forall (fun c => is2xx c = true) codes).
Proof.
  unfold TestWeatherHandlerSuccess.
  destruct (recorded_decoded L HL sleeper req_none w zeroResponse)
    as (rr1 & r1 & w1 & Hrec1 & Hhdr1 & Hdec1 & Hmsg1 & Hnil1 & Hlen1 & _ & Hnon1 & Hst1).
  rewrite effectiveSize_req_none in Hlen1.
  rewrite (bind_Some _ _ _ _ _ Hrec1). cbv zeta beta.
  rewrite Hhdr1, String.eqb_refl, Hdec1, Hnon1. cbv iota beta. cbn [negb].
  destruct (is2xx (Code rr1)) eqn:E1; cbn [negb].
  2:{ rewrite Hmsg1. eexists _, _, [Code rr1], [_].
      split; [reflexivity|]. split; [reflexivity|]. split; [reflexivity|].
      split; [exact Hst1|]. split; [cbn; lia|]. split; [constructor|].
      split; [discriminate | intros [Hl _]; discriminate Hl]. }
  rewrite Hnil1, Hlen1, Hmsg1. cbn [negb Z.eqb Pos.eqb].
  destruct (recorded_decoded L HL sleeper (req_size "50") w1 r1)
    as (rr2 & r2 & w2 & Hrec2 & _ & Hdec2 & _ & _ & Hlen2 & _ & Hnon2 & Hst2).
  rewrite effectiveSize_req_size in Hlen2.
  change (effectiveSize "50") with 50 in Hlen2.
  rewrite (bind_Some _ _ _ _ _ Hrec2). cbv zeta beta.
  rewrite Hdec2, Hnon2. cbv iota beta.
  rewrite Hst1 in Hst2.
  destruct (is2xx (Code rr2)) eqn:E2; cbn [negb].
  2:{ eexists _, _, [Code rr1; Code rr2], [_].
      split; [reflexivity|]. split; [reflexivity|]. split; [reflexivity|].
      split; [rewrite Hst2, <- app_assoc; reflexivity|]. split; [cbn; lia|].
      split; [repeat constructor; exact E1|].
      split; [discriminate | intros [Hl _]; discriminate Hl]. }
  rewrite Hlen2. cbn [negb Z.eqb Pos.eqb].
  destruct (recorded_decoded L HL sleeper (req_size "100") w2 r2)
    as (rr3 & r3 & w3 & Hrec3 & _ & Hdec3 & _ & _ & Hlen3 & _ & Hnon3 & Hst3).
  rewrite effectiveSize_req_size in Hlen3.
  change (effectiveSize "100") with 100 in Hlen3.
  rewrite (bind_Some _ _ _ _ _ Hrec3). cbv zeta beta.
  rewrite Hdec3, Hnon3. cbv iota beta.
  rewrite Hst2 in Hst3.
  destruct (is2xx (Code rr3)) eqn:E3; cbn [negb].
  - rewrite Hlen3. cbn [negb Z.eqb Pos.eqb].
    eexists _, _, [Code rr1; Code rr2; Code rr3], [].
    split; [reflexivity|]. split; [reflexivity|].
    split; [rewrite app_nil_r; reflexivity|].
    split; [rewrite Hst3, <- !app_assoc; reflexivity|]. split; [cbn; lia|].
    split; [repeat constructor; assumption|].
    split; [intros _; split; [reflexivity | repeat constructor; assumption] | reflexivity].
  - eexists _, _, [Code rr1; Code rr2; Code rr3], [_].
    split; [reflexivity|]. split; [reflexivity|]. split; [reflexivity|].
    split; [rewrite Hst3, <- !app_assoc; reflexivity|]. split; [cbn; lia|].
    split; [repeat constructor; assumption|].
    split; [discriminate|]. intros [_ HF].
    rewrite !Forall_cons in HF. destruct HF as (_ & _ & E3' & _). congruence.
Qed.

Lemma TestWeatherHandlerSuccess_passes_witness :
  readsBack documentLibrary
  /\ exists t' w' codes logs,
       @TestWeatherHandlerSuccess documentLibrary Testing.new
         (world0 (fun i => Z.of_nat i) (fun _ => 0%Z)) = Some (t', w')
       /\ Testing.failed t' = Testing.failed Testing.new
       /\ Testing.output t' = Testing.output Testing.new ++ logs
       /\ statuses (out w') = statuses (out (world0 (fun i => Z.of_nat i) (fun _ => 0%Z))) ++ codes
       /\ (1 <= length codes <= 3)%nat
       /\ Forall (fun c => is2xx c = true) (removelast codes)
       /\ (logs = [] <-> length codes = 3%nat /\ Forall (fun c => is2xx c = true) codes).
Proof.
  split; [exact documentLibrary_readsBack|].
  exact (TestWeatherHandlerSuccess_passes documentLibrary documentLibrary_readsBack
           Testing.new (world0 (fun i => Z.of_nat i) (fun _ => 0%Z))).
Defined.

(** One case of [TestWeatherHandlerInvalidSize]: with a parameter that the
    handler replaces by 10, or that is 10, nothing is reported. *)
Lemma invalidSizeCase_run (L : Library) (HL : readsBack L) (tc : testCase)
    (t : Testing.T) (w : World) :
  effectiveSize (sizeParam tc) = 10 ->
  exists code w',
    invalidSizeCase tc t w = Some (t, w')
    /\ statuses (out w') = statuses (out w) ++ [code].
Proof.
  intros Hten. unfold invalidSizeCase.
  destruct (recorded_decoded L HL sleeper (req_size (sizeParam tc)) w zeroResponse)
    as (rr & r & w' & Hrec & _ & Hdec & Hmsg & Hnil & Hlen & _ & _ & Hst).
  rewrite effectiveSize_req_size, Hten in Hlen.
  rewrite (bind_Some _ _ _ _ _ Hrec). cbv zeta beta.
  rewrite Hdec. cbv iota beta. rewrite Hmsg, Hnil, Hlen.
  change ((200 <=? Code rr) && (Code rr <? 300)) with (is2xx (Code rr)).
  exists (Code rr), w'. split; [|exact Hst].
  destruct (is2xx (Code rr)); reflexivity.
Qed.

Lemma runCases_run (L : Library) (HL : readsBack L) (tcs : list testCase)
    (t : Testing.T) (w : World) :
  Forall (fun tc => effectiveSize (sizeParam tc) = 10) tcs ->
  exists t' w' codes,
    runCases tcs t w = Some (t', w')
    /\ Testing.failed t' = Testing.failed t
    /\ Testing.output t'
       = Testing.output t ++ map (fun tc => Testing.Ran (name tc) false []) tcs
    /\ statuses (out w') = statuses (out w) ++ codes
    /\ length codes = length tcs.
Proof.
  intros Hall. revert t w.
  induction Hall as [|tc tcs Hten _ IH]; intros t w.
  - exists t, w, []. cbn [runCases map length]. rewrite !app_nil_r. done.
  - destruct (invalidSizeCase_run L HL tc Testing.new w Hten) as (code & w1 & Hrun & Hst).
    cbn [runCases]. unfold Testing.Run at 1.
    unfold bind at 1. unfold bind at 1. rewrite Hrun. unfold ret at 1.
    destruct (IH {| Testing.failed := Testing.failed t || Testing.failed Testing.new;
                    Testing.output := Testing.output t
                      ++ [Testing.Ran (name tc) (Testing.failed Testing.new)
                            (Testing.output Testing.new)] |} w1)
      as (t' & w' & codes & Hrest & Hf & Ho & Hs & Hl).
    exists t', w', (code :: codes). split; [exact Hrest|].
    split; [rewrite Hf; cbn [Testing.failed Testing.new]; apply orb_false_r|].
    split; [rewrite Ho; cbn [Testing.output Testing.failed Testing.new map];
            rewrite <- app_assoc; reflexivity|].
    split; [rewrite Hs, Hst, <- app_assoc; reflexivity|].
    cbn [length]. rewrite Hl. reflexivity.
Qed.

(** X13: [TestWeatherHandlerInvalidSize] passes on every random source,
    with a library that reads back what the encoder wrote: its four cases
    run, one request each, and none reports anything, whatever the status
    codes are. *)
Theorem TestWeatherHandlerInvalidSize_passes (L : Library) (HL : readsBack L)
    (t : Testing.T) (w : World) :
  exists t' w' codes,
    TestWeatherHandlerInvalidSize t w = Some (t', w')
    /\ Testing.failed t' = Testing.failed t
    /\ Testing.output t'
       = Testing.output t
         ++ [Testing.Ran "SizeTooSmall" false []; Testing.Ran "SizeTooLarge" false [];
             Testing.Ran "NonNumericSize" false []; Testing.Ran "EmptySize" false []]
    /\ statuses (out w') = statuses (out w) ++ codes
    /\ length codes = 4%nat.
Proof.
  apply (runCases_run L HL testCases t w).
  unfold testCases. repeat constructor.
Qed.

Lemma TestWeatherHandlerInvalidSize_passes_witness :
  readsBack documentLibrary
  /\ exists t' w' codes,
       @TestWeatherHandlerInvalidSize documentLibrary Testing.new
         (world0 (fun i => Z.of_nat i) (fun _ => 0%Z)) = Some (t', w')
       /\ Testing.failed t' = Testing.failed Testing.new
       /\ Testing.output t'
          = Testing.output Testing.new
            ++ [Testing.Ran "SizeTooSmall" false []; Testing.Ran "SizeTooLarge" false [];
                Testing.Ran "NonNumericSize" false []; Testing.Ran "EmptySize" false []]
       /\ statuses (out w')
          = statuses (out (world0 (fun i => Z.of_nat i) (fun _ => 0%Z))) ++ codes
       /\ length codes = 4%nat.
Proof.
  split; [exact documentLibrary_readsBack|].
  exact (TestWeatherHandlerInvalidSize_passes documentLibrary documentLibrary_readsBack
           Testing.new (world0 (fun i => Z.of_nat i) (fun _ => 0%Z))).
Defined.

(** The loop of [TestWeatherHandlerErrorResponseStructure]. *)
Lemma attempts_run (L : Library) (HL : readsBack L) (n : nat) (t : Testing.T)
    (w : World) :
  exists t' w' codes,
    attempts n t w = Some (t', w')
    /\ Testing.failed t' = Testing.failed t
    /\ statuses (out w') = statuses (out w) ++ codes
    /\ ((length codes = n
         /\ Forall (fun c => is2xx c = true) codes
         /\ Testing.output t' = Testing.output t ++ [Testing.Line noErrorHit []])
        \/ (exists cs c,
              codes = cs ++ [c]
              /\ (length cs < n)%nat
              /\ Forall (fun c => is2xx c = true) cs
              /\ 400 <= c
              /\ Testing.output t'
                 = Testing.output t ++ [Testing.Line errorTested [Testing.ArgInt c]])).
Proof.
  revert t w. induction n as [|n IH]; intros t w.
  - exists (Testing.Logf noErrorHit [] t), w, [].
    split; [reflexivity|]. split; [reflexivity|]. split; [rewrite app_nil_r; reflexivity|].
    left. split; [reflexivity|]. split; [constructor | reflexivity].
  - destruct (recorded_decoded L HL sleeper req_none w zeroResponse)
      as (rr & r & w1 & Hrec & _ & Hdec & Hmsg & _ & Hlen & H400 & _ & Hst).
    cbn [attempts]. rewrite (bind_Some _ _ _ _ _ Hrec). cbv beta. rewrite H400.
    destruct (is2xx (Code rr)) eqn:E2; cbn [negb].
    + destruct (IH t w1) as (t' & w' & codes & Hrun & Hf & Hs & Hcase).
      exists t', w', (Code rr :: codes). split; [exact Hrun|]. split; [exact Hf|].
      split; [rewrite Hs, Hst, <- app_assoc; reflexivity|].
      destruct Hcase as [(Hl & Hall & Ho) | (cs & c & -> & Hl & Hall & Hc & Ho)].
      * left. split; [cbn [length]; rewrite Hl; reflexivity|].
        split; [constructor; assumption | exact Ho].
      * right. exists (Code rr :: cs), c. split; [reflexivity|].
        split; [cbn [length]; lia|]. split; [constructor; assumption|].
        split; [exact Hc | exact Ho].
    + rewrite Hdec. cbv iota beta. rewrite Hlen, Hmsg. cbn [Z.ltb Z.compare].
      eexists _, w1, [Code rr]. split; [reflexivity|]. split; [reflexivity|].
      split; [exact Hst|]. right. exists [], (Code rr). split; [reflexivity|].
      split; [cbn [length]; lia|]. split; [constructor|].
      split; [apply Z.leb_le; exact H400 | reflexivity].
Qed.

(** X14: [TestWeatherHandlerErrorResponseStructure] passes on every random
    source, with a library that reads back what the encoder wrote.  It
    stops at the first status code that is not 2xx, which is 400 or more,
    and then prints that it tested the error structure; it prints its
    warning exactly when ten requests in a row gave a 2xx code. *)
Theorem TestWeatherHandlerErrorResponseStructure_passes (L : Library)
    (HL : readsBack L) (t : Testing.T) (w : World) :
  exists t' w' codes,
    TestWeatherHandlerErrorResponseStructure t w = Some (t', w')
    /\ Testing.failed t' = Testing.failed t
    /\ statuses (out w') = statuses (out w) ++ codes
    /\ ((length codes = 10%nat
         /\ Forall (fun c => is2xx c = true) codes
         /\ Testing.output t' = Testing.output t ++ [Testing.Line noErrorHit []])
        \/ (exists cs c,
              codes = cs ++ [c]
              /\ (length cs < 10)%nat
              /\ Forall (fun c => is2xx c = true) cs
              /\ 400 <= c
              /\ Testing.output t'
                 = Testing.output t ++ [Testing.Line errorTested [Testing.ArgInt c]])).
Proof. exact (attempts_run L HL maxAttempts t w). Qed.

Lemma TestWeatherHandlerErrorResponseStructure_passes_witness :
  readsBack documentLibrary
  /\ exists t' w' codes,
       @TestWeatherHandlerErrorResponseStructure documentLibrary Testing.new
         (world0 (fun i => Z.of_nat i) (fun _ => 0%Z)) = Some (t', w')
       /\ Testing.failed t' = Testing.failed Testing.new
       /\ statuses (out w')
          = statuses (out (world0 (fun i => Z.of_nat i) (fun _ => 0%Z))) ++ codes
       /\ ((length codes = 10%nat
            /\ Forall (fun c => is2xx c = true) codes
            /\ Testing.output t'
               = Testing.output Testing.new ++ [Testing.Line noErrorHit []])
           \/ (exists cs c,
                 codes = cs ++ [c]
                 /\ (length cs < 10)%nat
                 /\ Forall (fun c => is2xx c = true) cs
                 /\ 400 <= c
                 /\ Testing.output t'
                    = Testing.output Testing.new
                      ++ [Testing.Line errorTested [Testing.ArgInt c]])).
Proof.
  split; [exact documentLibrary_readsBack|].
  exact (TestWeatherHandlerErrorResponseStructure_passes documentLibrary
           documentLibrary_readsBack Testing.new
           (world0 (fun i => Z.of_nat i) (fun _ => 0%Z))).
Defined.

(** X15: the health handler against the recorder, and its test.  The
    handler writes the seven bytes and uses neither the random source nor
    the clock; the recorder holds the code 200, which no call set, and the
    content type found from the bytes; [TestHealthEndpoint] reports
    nothing, whatever the library. *)
Theorem TestHealthEndpoint_passes `{Library} (t : Testing.T) (w : World) :
  recorded health w
  = Some ({| Code := StatusOK;
             HeaderMap := {[ "Content-Type"%string := [DetectContentType "Healthy"] ]};
             Body := [ChunkBytes "Healthy"];
             wroteHeader := true |},
          say [EvWrite "Healthy"] w)
  /\ TestHealthEndpoint t w = Some (t, say [EvWrite "Healthy"] w).
Proof.
  assert (Hrec : recorded health w
    = Some ({| Code := StatusOK;
               HeaderMap := {[ "Content-Type"%string := [DetectContentType "Healthy"] ]};
               Body := [ChunkBytes "Healthy"];
               wroteHeader := true |},
            say [EvWrite "Healthy"] w)).
  { unfold recorded, health, emit, emits, say. cbn [out rng clock app].
    cbn [record onRecorder]. unfold Recorder_Write, Recorder_writeHeader.
    cbn [NewRecorder wroteHeader HeaderMap Code Body].
    rewrite lookup_empty.
    rewrite bool_decide_eq_false_2 by (intros [x Hx]; discriminate).
    unfold Header_Get. rewrite lookup_empty. cbn [String.eqb negb andb].
    unfold Recorder_WriteHeader. cbn [wroteHeader Code HeaderMap Body chunkBytes app].
    unfold Header_Set. rewrite insert_empty. reflexivity. }
  split; [exact Hrec|].
  unfold TestHealthEndpoint. rewrite (bind_Some _ _ _ _ _ Hrec). cbv zeta beta.
  unfold Body_String. cbn [Code Body map chunkBytes String.concat].
  reflexivity.
Qed.

(** The tests on one source, with the library on the documents. *)
Example tests_on_one_source :
  let w := world0 (fun i => Z.of_nat i * 7919 + 3) (fun _ => 0) in
  report (@TestWeatherHandlerSuccess documentLibrary Testing.new) w
  = Some (false,
          [Testing.Line
             "Warning: Handler returned non-2xx status code %d for size=100 test. This is due to randomness."
             [Testing.ArgInt 400]],
          [201; 202; 400])
  /\ report (@TestWeatherHandlerErrorResponseStructure documentLibrary Testing.new) w
     = Some (false, [Testing.Line errorTested [Testing.ArgInt 502]],
             [201; 202; 204; 200; 201; 202; 204; 200; 502])
  /\ report (@TestHealthEndpoint documentLibrary Testing.new) w = Some (false, [], []).
Proof. vm_compute. repeat split. Qed.
